(** * Observability traces: a shallow embedding of [src/tracing]

    The development follows the Python sources:
    - [src/tracing/context.py]: [Decision], [StageTrace], [Trace], the
      no-op trace and [TraceContext] ([start], [finish]);
    - [src/tracing/query.py]: [TraceQuery.compare];
    - [src/tracing/calibration_flags.py]: [check_calibration_flags].

    Conventions.
    - Python values of type [Any] are the inductive [pyval]; a [dict] inside
      a value is an association list in insertion order.
    - [Dict[str, StageTrace]] and [Dict[str, float]] on a trace are [gmap]s:
      only lookup and assignment by key are used on them.
    - Numbers read from clocks and from the row store are exact rationals
      ([Qc]); rounding of binary floating point, NaN and signed zeros are
      not modelled.
    - Clock readings ([datetime.now], [time.monotonic]), random bits
      ([uuid4]) and the outcome of every I/O call are explicit arguments.
    - A method that mutates [self] is a function from the state before the
      call to the state after it. A call that may raise returns an
      [outcome]. Calls to the logger are left out.
    - A calibration flag keeps the data its message is formatted from, not
      the formatted text. *)

From Stdlib Require Import ZArith QArith Qcanon String Ascii List Bool Lia.
From stdpp Require Import base option list gmap strings sorting.

Set Warnings "-register-all".

Open Scope string_scope.
Open Scope Z_scope.

(** ** Python values *)

Inductive pyval : Type :=
| PNone
| PBool (b : bool)
| PInt (z : Z)
| PFloat (q : Qc)
| PStr (s : string)
| PList (l : list pyval)
| PDict (d : list (string * pyval)).

Abbreviation pydict := (list (string * pyval)).

(** [bool(v)] *)
Definition truthy (v : pyval) : bool :=
  match v with
  | PNone => false
  | PBool b => b
  | PInt z => negb (z =? 0)
  | PFloat q => negb (Qc_eq_bool q 0%Qc)
  | PStr s => negb (String.eqb s "")
  | PList l => match l with [] => false | _ => true end
  | PDict d => match d with [] => false | _ => true end
  end.

(** [d.get(k)]: [None] of the option stands for an absent key. *)
Fixpoint dict_get (k : string) (d : pydict) : option pyval :=
  match d with
  | [] => None
  | (k', v) :: d' => if String.eqb k k' then Some v else dict_get k d'
  end.

(** [d.get(k, dflt)] *)
Definition dict_get_default (k : string) (dflt : pyval) (d : pydict) : pyval :=
  match dict_get k d with Some v => v | None => dflt end.

(** [d[k] = v]: an existing key keeps its position, a new key goes last. *)
Fixpoint dict_set (k : string) (v : pyval) (d : pydict) : pydict :=
  match d with
  | [] => [(k, v)]
  | (k', v') :: d' =>
      if String.eqb k k' then (k', v) :: d' else (k', v') :: dict_set k v d'
  end.

(** Truth value of an [Optional[str]] and of an [Optional[Dict]]. *)
Definition truthy_str (o : option string) : bool :=
  match o with Some s => negb (String.eqb s "") | None => false end.

Definition truthy_dict (o : option pydict) : bool :=
  match o with Some (_ :: _) => true | _ => false end.

(** ** [Decision] and [StageTrace] *)

Module Decision.
Record t : Type := mk {
  decision : string;
  what : pyval;
  why : pyval;
  confidence : pyval;
  alternatives_considered : pyval;
  inputs : pyval;
  timestamp : string
}.
End Decision.

Module StageTrace.
Record t : Type := mk {
  name : string;
  started_at : option string;
  completed_at : option string;
  duration_seconds : option Qc;
  decisions : list Decision.t;
  outputs : pydict;
  evidence : pydict;
  prompts : pydict;
  error : option string
}.

(** [StageTrace(name=n, started_at=s)]: the dataclass defaults. *)
Definition new (n : string) (s : option string) : t :=
  mk n s None None [] [] [] [] None.

Definition set_completed_at (c : option string) (s : t) : t :=
  mk (name s) (started_at s) c (duration_seconds s) (decisions s)
     (outputs s) (evidence s) (prompts s) (error s).
Definition set_duration_seconds (d : option Qc) (s : t) : t :=
  mk (name s) (started_at s) (completed_at s) d (decisions s)
     (outputs s) (evidence s) (prompts s) (error s).
Definition set_decisions (ds : list Decision.t) (s : t) : t :=
  mk (name s) (started_at s) (completed_at s) (duration_seconds s) ds
     (outputs s) (evidence s) (prompts s) (error s).
Definition set_outputs (o : pydict) (s : t) : t :=
  mk (name s) (started_at s) (completed_at s) (duration_seconds s)
     (decisions s) o (evidence s) (prompts s) (error s).
Definition set_evidence (e : pydict) (s : t) : t :=
  mk (name s) (started_at s) (completed_at s) (duration_seconds s)
     (decisions s) (outputs s) e (prompts s) (error s).
Definition set_prompts (p : pydict) (s : t) : t :=
  mk (name s) (started_at s) (completed_at s) (duration_seconds s)
     (decisions s) (outputs s) (evidence s) p (error s).
Definition set_error (e : option string) (s : t) : t :=
  mk (name s) (started_at s) (completed_at s) (duration_seconds s)
     (decisions s) (outputs s) (evidence s) (prompts s) e.
End StageTrace.

(** ** [Trace] *)

Module Trace.
Record t : Type := mk {
  trace_id : string;
  project_id : option string;
  project_name : option string;
  query : option string;
  intent : option string;
  domain : option string;
  report_type : option string;
  research_type : option string;
  started_at : option string;
  completed_at : option string;
  duration_seconds : option Qc;
  status : string;
  stages : gmap string StageTrace.t;
  iterations : list pydict;
  iteration_count : Z;
  quality_gate_failures : Z;
  outputs : pydict;
  child_traces : list pydict;
  _start_time : Qc;
  _stage_start_times : gmap string Qc
}.

(** The dataclass constructor with the keyword arguments the repository
    passes; every other field takes its declared default
    ([iteration_count: int = 1], [quality_gate_failures: int = 0], empty
    containers). *)
Definition new (trace_id : string)
    (project_id project_name query intent domain report_type
     research_type started_at : option string)
    (status : string) (_start_time : Qc) : t :=
  mk trace_id project_id project_name query intent domain report_type
     research_type started_at None None status ∅ [] 1 0 [] [] _start_time ∅.

Definition set_completed_at (c : option string) (x : t) : t :=
  mk (trace_id x) (project_id x) (project_name x) (query x) (intent x)
     (domain x) (report_type x) (research_type x) (started_at x) c
     (duration_seconds x) (status x) (stages x) (iterations x)
     (iteration_count x) (quality_gate_failures x) (outputs x)
     (child_traces x) (_start_time x) (_stage_start_times x).
Definition set_duration_seconds (d : option Qc) (x : t) : t :=
  mk (trace_id x) (project_id x) (project_name x) (query x) (intent x)
     (domain x) (report_type x) (research_type x) (started_at x)
     (completed_at x) d (status x) (stages x) (iterations x)
     (iteration_count x) (quality_gate_failures x) (outputs x)
     (child_traces x) (_start_time x) (_stage_start_times x).
Definition set_status (s : string) (x : t) : t :=
  mk (trace_id x) (project_id x) (project_name x) (query x) (intent x)
     (domain x) (report_type x) (research_type x) (started_at x)
     (completed_at x) (duration_seconds x) s (stages x) (iterations x)
     (iteration_count x) (quality_gate_failures x) (outputs x)
     (child_traces x) (_start_time x) (_stage_start_times x).
Definition set_stages (m : gmap string StageTrace.t) (x : t) : t :=
  mk (trace_id x) (project_id x) (project_name x) (query x) (intent x)
     (domain x) (report_type x) (research_type x) (started_at x)
     (completed_at x) (duration_seconds x) (status x) m (iterations x)
     (iteration_count x) (quality_gate_failures x) (outputs x)
     (child_traces x) (_start_time x) (_stage_start_times x).
Definition set_iterations (l : list pydict) (x : t) : t :=
  mk (trace_id x) (project_id x) (project_name x) (query x) (intent x)
     (domain x) (report_type x) (research_type x) (started_at x)
     (completed_at x) (duration_seconds x) (status x) (stages x) l
     (iteration_count x) (quality_gate_failures x) (outputs x)
     (child_traces x) (_start_time x) (_stage_start_times x).
Definition set_iteration_count (n : Z) (x : t) : t :=
  mk (trace_id x) (project_id x) (project_name x) (query x) (intent x)
     (domain x) (report_type x) (research_type x) (started_at x)
     (completed_at x) (duration_seconds x) (status x) (stages x)
     (iterations x) n (quality_gate_failures x) (outputs x)
     (child_traces x) (_start_time x) (_stage_start_times x).
Definition set_quality_gate_failures (n : Z) (x : t) : t :=
  mk (trace_id x) (project_id x) (project_name x) (query x) (intent x)
     (domain x) (report_type x) (research_type x) (started_at x)
     (completed_at x) (duration_seconds x) (status x) (stages x)
     (iterations x) (iteration_count x) n (outputs x)
     (child_traces x) (_start_time x) (_stage_start_times x).
Definition set_outputs_field (o : pydict) (x : t) : t :=
  mk (trace_id x) (project_id x) (project_name x) (query x) (intent x)
     (domain x) (report_type x) (research_type x) (started_at x)
     (completed_at x) (duration_seconds x) (status x) (stages x)
     (iterations x) (iteration_count x) (quality_gate_failures x) o
     (child_traces x) (_start_time x) (_stage_start_times x).
Definition set_stage_start_times (m : gmap string Qc) (x : t) : t :=
  mk (trace_id x) (project_id x) (project_name x) (query x) (intent x)
     (domain x) (report_type x) (research_type x) (started_at x)
     (completed_at x) (duration_seconds x) (status x) (stages x)
     (iterations x) (iteration_count x) (quality_gate_failures x)
     (outputs x) (child_traces x) (_start_time x) m.

(** *** Recording methods

    [now] is the value of [datetime.now(timezone.utc).isoformat()] and
    [mono] the value of [time.monotonic()] at the call. *)

Definition start_stage (stage_name now : string) (mono : Qc) (self : t) : t :=
  set_stage_start_times (<[stage_name := mono]> (_stage_start_times self))
    (set_stages
       (<[stage_name := StageTrace.new stage_name (Some now)]> (stages self))
       self).

Definition end_stage (stage_name : string) (outputs : option pydict)
    (error : option string) (now : string) (mono : Qc) (self : t) : t :=
  match stages self !! stage_name with
  | None => self
  | Some stage =>
      let stage := StageTrace.set_completed_at (Some now) stage in
      let stage :=
        match _stage_start_times self !! stage_name with
        | Some t0 => StageTrace.set_duration_seconds (Some (mono - t0)%Qc) stage
        | None => stage
        end in
      let stage :=
        match outputs with
        | Some o => if truthy_dict outputs then StageTrace.set_outputs o stage
                    else stage
        | None => stage
        end in
      let stage :=
        if truthy_str error then StageTrace.set_error error stage else stage in
      set_stages (<[stage_name := stage]> (stages self)) self
  end.

(** [if stage_name not in self.stages: self.stages[stage_name] =
    StageTrace(name=stage_name)], returning the trace and the stage. *)
Definition ensure_stage (stage_name : string) (self : t) : t * StageTrace.t :=
  match stages self !! stage_name with
  | Some stage => (self, stage)
  | None =>
      let stage := StageTrace.new stage_name None in
      (set_stages (<[stage_name := stage]> (stages self)) self, stage)
  end.

Definition record (stage_name decision_type : string) (data : pydict)
    (now : string) (self : t) : t :=
  let '(self, stage) := ensure_stage stage_name self in
  let decision :=
    Decision.mk decision_type
      (dict_get_default "what" PNone data)
      (dict_get_default "why" (PStr "") data)
      (dict_get_default "confidence" (PFloat 1%Qc) data)
      (dict_get_default "alternatives_considered" (PList []) data)
      (dict_get_default "inputs" (PDict []) data)
      now in
  set_stages
    (<[stage_name :=
         StageTrace.set_decisions (StageTrace.decisions stage ++ [decision])
           stage]> (stages self))
    self.

Definition record_evidence (stage_name : string) (evidence_data : pydict)
    (self : t) : t :=
  let '(self, stage) := ensure_stage stage_name self in
  set_stages
    (<[stage_name := StageTrace.set_evidence evidence_data stage]> (stages self))
    self.

Definition record_prompts (stage_name : string) (prompts : pydict)
    (self : t) : t :=
  let '(self, stage) := ensure_stage stage_name self in
  set_stages
    (<[stage_name := StageTrace.set_prompts prompts stage]> (stages self))
    self.

Definition record_iteration (iteration_data : pydict) (self : t) : t :=
  let self := set_iterations (iterations self ++ [iteration_data]) self in
  let self := set_iteration_count (Z.of_nat (length (iterations self))) self in
  if negb (truthy (dict_get_default "passed" (PBool true) iteration_data))
  then set_quality_gate_failures (quality_gate_failures self + 1) self
  else self.

Definition set_outputs (outputs : pydict) (self : t) : t :=
  set_outputs_field outputs self.

(** The tail shared by the three [mark_*] methods:
    [completed_at = now; if self._start_time: duration_seconds = ...]. *)
Definition stamp_completion (now : string) (mono : Qc) (self : t) : t :=
  let self := set_completed_at (Some now) self in
  if negb (Qc_eq_bool (_start_time self) 0%Qc)
  then set_duration_seconds (Some (mono - _start_time self)%Qc) self
  else self.

Definition mark_complete (now : string) (mono : Qc) (self : t) : t :=
  stamp_completion now mono (set_status "complete" self).

Definition mark_failed (error : string) (now : string) (mono : Qc)
    (self : t) : t :=
  let self := stamp_completion now mono (set_status "failed" self) in
  set_outputs_field (dict_set "error" (PStr error) (outputs self)) self.

Definition mark_incomplete (now : string) (mono : Qc) (self : t) : t :=
  stamp_completion now mono (set_status "incomplete" self).
End Trace.

(** ** The recording API as a command language

    One constructor per public recording method of [Trace], with the clock
    readings the call consumes. [run] applies a sequence of calls in order. *)

Inductive op : Type :=
| OpStartStage (stage_name now : string) (mono : Qc)
| OpEndStage (stage_name : string) (outputs : option pydict)
    (error : option string) (now : string) (mono : Qc)
| OpRecord (stage_name decision_type : string) (data : pydict) (now : string)
| OpRecordEvidence (stage_name : string) (evidence_data : pydict)
| OpRecordPrompts (stage_name : string) (prompts : pydict)
| OpRecordIteration (iteration_data : pydict)
| OpSetOutputs (outputs : pydict)
| OpMarkComplete (now : string) (mono : Qc)
| OpMarkFailed (error now : string) (mono : Qc)
| OpMarkIncomplete (now : string) (mono : Qc).

Definition apply_op (o : op) (t : Trace.t) : Trace.t :=
  match o with
  | OpStartStage n now mono => Trace.start_stage n now mono t
  | OpEndStage n outs err now mono => Trace.end_stage n outs err now mono t
  | OpRecord n ty data now => Trace.record n ty data now t
  | OpRecordEvidence n data => Trace.record_evidence n data t
  | OpRecordPrompts n data => Trace.record_prompts n data t
  | OpRecordIteration data => Trace.record_iteration data t
  | OpSetOutputs outs => Trace.set_outputs outs t
  | OpMarkComplete now mono => Trace.mark_complete now mono t
  | OpMarkFailed err now mono => Trace.mark_failed err now mono t
  | OpMarkIncomplete now mono => Trace.mark_incomplete now mono t
  end.

Definition run (ops : list op) (t : Trace.t) : Trace.t :=
  fold_left (fun acc o => apply_op o acc) ops t.

(** [not iteration_data.get("passed", True)] *)
Definition iteration_failed (iteration_data : pydict) : bool :=
  negb (truthy (dict_get_default "passed" (PBool true) iteration_data)).

Definition is_record_iteration (o : op) : bool :=
  match o with OpRecordIteration _ => true | _ => false end.

Definition is_failed_iteration (o : op) : bool :=
  match o with OpRecordIteration d => iteration_failed d | _ => false end.

(** Number of [record_iteration] calls in a sequence, and number of those
    whose pass flag is falsy. *)
Definition count_iterations (ops : list op) : nat :=
  length (List.filter is_record_iteration ops).

Definition count_failed_iterations (ops : list op) : nat :=
  length (List.filter is_failed_iteration ops).

(** ** [_NoOpTrace]

    The subclass overrides every recording method with [pass]; its state is
    the one built by [super().__init__(trace_id="noop", status="disabled")]. *)

Module NoOpTrace.
Definition new : Trace.t :=
  Trace.new "noop" None None None None None None None None "disabled" 0%Qc.

Definition start_stage (stage_name : string) (self : Trace.t) : Trace.t := self.
Definition end_stage (stage_name : string) (outputs : option pydict)
  (error : option string) (self : Trace.t) : Trace.t := self.
Definition record (stage_name decision_type : string) (data : pydict)
  (self : Trace.t) : Trace.t := self.
Definition record_evidence (stage_name : string) (evidence_data : pydict)
  (self : Trace.t) : Trace.t := self.
Definition record_prompts (stage_name : string) (prompts : pydict)
  (self : Trace.t) : Trace.t := self.
Definition record_iteration (iteration_data : pydict) (self : Trace.t)
  : Trace.t := self.
Definition set_outputs (outputs : pydict) (self : Trace.t) : Trace.t := self.
Definition mark_complete (self : Trace.t) : Trace.t := self.
Definition mark_failed (error : string) (self : Trace.t) : Trace.t := self.
Definition mark_incomplete (self : Trace.t) : Trace.t := self.
End NoOpTrace.

(** A trace object is its state together with its class: method calls
    dispatch on the class. *)
Inductive trace_obj : Type :=
| TraceObj (state : Trace.t)
| NoOpTraceObj (state : Trace.t).

Definition obj_state (o : trace_obj) : Trace.t :=
  match o with TraceObj s | NoOpTraceObj s => s end.

(** Dynamic dispatch of a recording call. *)
Definition call (c : op) (o : trace_obj) : trace_obj :=
  match o with
  | TraceObj s => TraceObj (apply_op c s)
  | NoOpTraceObj s =>
      NoOpTraceObj
        match c with
        | OpStartStage n _ _ => NoOpTrace.start_stage n s
        | OpEndStage n outs err _ _ => NoOpTrace.end_stage n outs err s
        | OpRecord n ty data _ => NoOpTrace.record n ty data s
        | OpRecordEvidence n data => NoOpTrace.record_evidence n data s
        | OpRecordPrompts n data => NoOpTrace.record_prompts n data s
        | OpRecordIteration data => NoOpTrace.record_iteration data s
        | OpSetOutputs outs => NoOpTrace.set_outputs outs s
        | OpMarkComplete _ _ => NoOpTrace.mark_complete s
        | OpMarkFailed err _ _ => NoOpTrace.mark_failed err s
        | OpMarkIncomplete _ _ => NoOpTrace.mark_incomplete s
        end
  end.

(** ** Exceptions and outcomes of fallible calls *)

Record exn : Type := Exn { exn_class : string; exn_msg : string }.

Inductive outcome (A : Type) : Type :=
| Returned (a : A)
| Raised (e : exn).
Arguments Returned {A} a.
Arguments Raised {A} e.

Definition is_raised {A : Type} (o : outcome A) : bool :=
  match o with Raised _ => true | Returned _ => false end.

(** ** Trace identifiers

    [f"trc_{datetime.now(timezone.utc).strftime('%Y%m%d_%H%M%S')}_{uuid.uuid4().hex[:8]}"] *)

Record datetime : Type := {
  year : N; month : N; day : N; hour : N; minute : N; second : N
}.

(** The range of the fields of a [datetime] whose year has four digits. *)
Definition valid_datetime (d : datetime) : Prop :=
  (1000 <= year d <= 9999)%N /\ (1 <= month d <= 12)%N /\ (1 <= day d <= 31)%N /\
  (hour d < 24)%N /\ (minute d < 60)%N /\ (second d < 60)%N.

Definition digit_char (n : N) : ascii := ascii_of_N (48 + n).

Definition hex_char (n : N) : ascii :=
  if (n <? 10)%N then ascii_of_N (48 + n) else ascii_of_N (87 + n).

(** The [w] low-order decimal digits of [n], most significant first: the
    rendering [%0wd] of a number below [10^w]. *)
Fixpoint decw (w : nat) (n : N) : string :=
  match w with
  | O => ""
  | S w' => decw w' (n / 10)%N ++ String (digit_char (n mod 10)%N) ""
  end.

(** The [w] low-order hexadecimal digits of [n]: [%0wx] below [16^w]. *)
Fixpoint hexw (w : nat) (n : N) : string :=
  match w with
  | O => ""
  | S w' => hexw w' (n / 16)%N ++ String (hex_char (n mod 16)%N) ""
  end.

(** [d.strftime('%Y%m%d_%H%M%S')] *)
Definition strftime_Ymd_HMS (d : datetime) : string :=
  decw 4 (year d) ++ decw 2 (month d) ++ decw 2 (day d) ++ "_" ++
  decw 2 (hour d) ++ decw 2 (minute d) ++ decw 2 (second d).

(** [uuid.hex] of the UUID whose 128-bit integer is [u]. *)
Definition uuid_hex (u : N) : string := hexw 32 u.

(** [s[:n]] *)
Definition prefix_slice (n : nat) (s : string) : string := substring 0 n s.

Definition make_trace_id (now : datetime) (uuid4 : N) : string :=
  "trc_" ++ strftime_Ymd_HMS now ++ "_" ++ prefix_slice 8 (uuid_hex uuid4).

Definition is_digit (c : ascii) : bool :=
  let n := N_of_ascii c in ((48 <=? n) && (n <=? 57))%N.

Definition is_lower_hex (c : ascii) : bool :=
  let n := N_of_ascii c in
  (((48 <=? n) && (n <=? 57)) || ((97 <=? n) && (n <=? 102)))%N.

Definition all_chars (p : ascii -> bool) (s : string) : bool :=
  forallb p (list_ascii_of_string s).

(** The identifier format of the specification: [trc_], eight digits, an
    underscore, six digits, an underscore, eight lowercase hex characters. *)
Definition trace_id_format (s : string) : Prop :=
  exists d t h : string,
    s = "trc_" ++ d ++ "_" ++ t ++ "_" ++ h /\
    String.length d = 8%nat /\ all_chars is_digit d = true /\
    String.length t = 6%nat /\ all_chars is_digit t = true /\
    String.length h = 8%nat /\ all_chars is_lower_hex h = true.

(** ** [TraceQuery.compare]

    A row of the [traces] table keeps the columns [compare] reads; a SQL
    [NULL] (or an absent key) is [None]. [fetch_one] is the row store: the
    row with a given [trace_id], if any. *)

Module TraceQuery.
Record row : Type := {
  trace_id : string;
  overall_quality_score : option Qc;
  duration_seconds : option Qc;
  synthesis_cost_usd : option Qc;
  gap_principles : option (list string)
}.

Record comparison : Type := {
  trace_a : string;
  trace_b : string;
  quality_delta : option Qc;
  duration_delta : option Qc;
  cost_delta : option Qc;
  gaps_a_only : list string;
  gaps_b_only : list string;
  gaps_both : list string
}.

Inductive result : Type :=
| Error (msg : string)
| Compared (c : comparison).

(** [sorted(s)] for a set of strings: the elements in increasing order,
    [String.le] being the lexicographic order on the characters. *)
Definition sorted (s : gset string) : list string :=
  merge_sort String.le (elements s).

(** [set(row.get("gap_principles") or [])] *)
Definition gap_set (r : row) : gset string :=
  list_to_set (default [] (gap_principles r)).

(** [(y - x) if x is not None and y is not None else None] *)
Definition delta (x y : option Qc) : option Qc :=
  match x, y with
  | Some x, Some y => Some (y - x)%Qc
  | _, _ => None
  end.

Definition compare (fetch_one : string -> option row)
    (trace_id_a trace_id_b : string) : result :=
  match fetch_one trace_id_a, fetch_one trace_id_b with
  | Some row_a, Some row_b =>
      let gaps_a := gap_set row_a in
      let gaps_b := gap_set row_b in
      Compared
        {| trace_a := trace_id_a;
           trace_b := trace_id_b;
           quality_delta :=
             delta (overall_quality_score row_a) (overall_quality_score row_b);
           duration_delta :=
             delta (duration_seconds row_a) (duration_seconds row_b);
           cost_delta :=
             delta (synthesis_cost_usd row_a) (synthesis_cost_usd row_b);
           gaps_a_only := sorted (gaps_a ∖ gaps_b);
           gaps_b_only := sorted (gaps_b ∖ gaps_a);
           gaps_both := sorted (gaps_a ∩ gaps_b) |}
  | _, _ => Error "One or both traces not found"
  end.
End TraceQuery.

(** ** Python operators used by the calibration analyzer *)

Definition type_name (v : pyval) : string :=
  match v with
  | PNone => "NoneType" | PBool _ => "bool" | PInt _ => "int"
  | PFloat _ => "float" | PStr _ => "str" | PList _ => "list"
  | PDict _ => "dict"
  end.

Definition TypeError (msg : string) : exn := Exn "TypeError" msg.
Definition AttributeError (msg : string) : exn := Exn "AttributeError" msg.

(** The numeric value of a [bool], [int] or [float]. *)
Definition as_number (v : pyval) : option Qc :=
  match v with
  | PBool b => Some (if b then 1%Qc else 0%Qc)
  | PInt z => Some (Q2Qc (inject_Z z))
  | PFloat q => Some q
  | _ => None
  end.

(** [a == b]: numbers compare by value across [bool], [int] and [float],
    lists element-wise, dicts as mappings. *)
Fixpoint py_eqb (a b : pyval) {struct a} : bool :=
  match as_number a, as_number b with
  | Some x, Some y => Qc_eq_bool x y
  | Some _, None | None, Some _ => false
  | None, None =>
      match a, b with
      | PNone, PNone => true
      | PStr s1, PStr s2 => String.eqb s1 s2
      | PList l1, PList l2 =>
          (fix list_eqb (l1 l2 : list pyval) {struct l1} : bool :=
             match l1, l2 with
             | [], [] => true
             | x :: l1', y :: l2' => py_eqb x y && list_eqb l1' l2'
             | _, _ => false
             end) l1 l2
      | PDict d1, PDict d2 =>
          Nat.eqb (length d1) (length d2) &&
          (fix dict_sub (d : pydict) {struct d} : bool :=
             match d with
             | [] => true
             | (k, v) :: d' =>
                 match dict_get k d2 with
                 | Some v' => py_eqb v v'
                 | None => false
                 end && dict_sub d'
             end) d1
      | _, _ => false
      end
  end.

(** [v < n] for an [int] literal [n]. *)
Definition py_lt_int (v : pyval) (n : Z) : outcome bool :=
  match as_number v with
  | Some x =>
      Returned match (x ?= Q2Qc (inject_Z n))%Qc with Lt => true | _ => false end
  | None =>
      Raised (TypeError ("'<' not supported between instances of '" ++
                         type_name v ++ "' and 'int'"))
  end.

Fixpoint is_substring (sub s : string) : bool :=
  String.prefix sub s ||
  match s with
  | EmptyString => false
  | String _ s' => is_substring sub s'
  end.

Definition hashable (v : pyval) : bool :=
  match v with PList _ | PDict _ => false | _ => true end.

(** [x in container] *)
Definition py_contains (container x : pyval) : outcome bool :=
  match container with
  | PList l => Returned (existsb (py_eqb x) l)
  | PStr s =>
      match x with
      | PStr sub => Returned (is_substring sub s)
      | _ => Raised (TypeError ("'in <string>' requires string as left operand, not "
                                ++ type_name x))
      end
  | PDict d =>
      if hashable x then
        Returned match x with
                 | PStr k => match dict_get k d with Some _ => true | None => false end
                 | _ => false
                 end
      else Raised (TypeError ("unhashable type: '" ++ type_name x ++ "'"))
  | _ => Raised (TypeError ("argument of type '" ++ type_name container ++
                            "' is not iterable"))
  end.

(** [container.append(x)], as the new value of the object [container]. *)
Definition py_append (container x : pyval) : outcome pyval :=
  match container with
  | PList l => Returned (PList (l ++ [x]))
  | _ => Raised (AttributeError ("'" ++ type_name container ++
                                 "' object has no attribute 'append'"))
  end.

(** The items visited by [for x in v]. *)
Definition py_iter (v : pyval) : outcome (list pyval) :=
  match v with
  | PList l => Returned l
  | PStr s => Returned (map (fun c => PStr (String c "")) (list_ascii_of_string s))
  | PDict d => Returned (map (fun kv => PStr (fst kv)) d)
  | _ => Raised (TypeError ("'" ++ type_name v ++ "' object is not iterable"))
  end.

(** ** [check_calibration_flags]

    The historical lookups are the fields of [db]: each returns a value or
    raises. A flag keeps the data its message is formatted from; the text of
    the message is not modelled.

    The local variable [gap_principles] is a reference. After
    [qg_outputs.get("gap_principles") or []] it designates either the object
    stored in the quality-gate stage of the trace (when that object is
    truthy) or a fresh list: [binding] records which, and an [append]
    through an [InTrace] binding updates the trace. Values of a trace are
    trees: the objects under different keys are distinct. *)

Module Calibration.
Inductive flag : Type :=
| RepeatedFailure (principle_id : pyval) (count : Z)
| IntentDisparity (intent : string) (intent_avg overall_avg : Qc)
| DomainDisparity (domain : string) (domain_avg overall_avg : Qc)
| QualityRegression (project : string).

(** The two call sites of [_overall_avg_score]. *)
Inductive avg_call : Type := ForIntent | ForDomain.

Record db : Type := {
  _recent_failure_count : pyval -> outcome Z;
  _intent_avg_score : string -> outcome (option Qc);
  _domain_avg_score : string -> outcome (option Qc);
  _overall_avg_score : avg_call -> outcome (option Qc);
  _previous_trace_for_project : string -> string -> outcome (option pydict)
}.

Inductive binding : Type :=
| InTrace
| Fresh (v : pyval).

Definition state : Type := Trace.t * binding.

(** [qg_stage.outputs] of the trace, empty when there is no such stage. *)
Definition qg_outputs (t : Trace.t) : pydict :=
  match Trace.stages t !! "quality_gate" with
  | Some st => StageTrace.outputs st
  | None => []
  end.

Definition set_qg_outputs (o : pydict) (t : Trace.t) : Trace.t :=
  match Trace.stages t !! "quality_gate" with
  | Some st =>
      Trace.set_stages
        (<["quality_gate" := StageTrace.set_outputs o st]> (Trace.stages t)) t
  | None => t
  end.

(** The object the reference designates, and its in-place update. *)
Definition deref (s : state) : pyval :=
  match snd s with
  | InTrace => dict_get_default "gap_principles" PNone (qg_outputs (fst s))
  | Fresh v => v
  end.

Definition update (v : pyval) (s : state) : state :=
  match snd s with
  | InTrace =>
      (set_qg_outputs (dict_set "gap_principles" v (qg_outputs (fst s))) (fst s),
       InTrace)
  | Fresh _ => (fst s, Fresh v)
  end.

(** Computations that read and update the state and may raise. *)
Definition M (A : Type) : Type := state -> outcome A * state.

Definition ret {A : Type} (a : A) : M A := fun s => (Returned a, s).

Definition bind {A B : Type} (m : M A) (k : A -> M B) : M B :=
  fun s =>
    match m s with
    | (Returned a, s') => k a s'
    | (Raised e, s') => (Raised e, s')
    end.

Definition lift {A : Type} (o : outcome A) : M A := fun s => (o, s).

Notation "x <- m ;; k" := (bind m (fun x => k))
  (at level 100, m at next level, right associativity).

Fixpoint for_each {A : Type} (body : A -> M unit) (l : list A) : M unit :=
  match l with
  | [] => ret tt
  | x :: l' => _ <- body x ;; for_each body l'
  end.

(** [pid not in gap_principles] *)
Definition not_in_gaps (pid : pyval) : M bool :=
  fun s =>
    match py_contains (deref s) pid with
    | Returned b => (Returned (negb b), s)
    | Raised e => (Raised e, s)
    end.

(** [gap_principles.append(pid)] *)
Definition append_gap (pid : pyval) : M unit :=
  fun s =>
    match py_append (deref s) pid with
    | Returned v => (Returned tt, update v s)
    | Raised e => (Raised e, s)
    end.

(** Body of the loop over a list of records. *)
Definition scan_item (item : pyval) : M unit :=
  match item with
  | PDict d =>
      low <- lift (py_lt_int (dict_get_default "score" (PInt 3) d) 2) ;;
      if low then
        let pid := dict_get_default "id" PNone d in
        if truthy pid then
          fresh <- not_in_gaps pid ;;
          if fresh then append_gap pid else ret tt
        else ret tt
      else ret tt
  | _ => ret tt
  end.

(** Body of the loop over the items of a flat mapping. *)
Definition scan_entry (entry : string * pyval) : M unit :=
  let '(pid, score) := entry in
  low <- lift (py_lt_int score 2) ;;
  if low then
    fresh <- not_in_gaps (PStr pid) ;;
    if fresh then append_gap (PStr pid) else ret tt
  else ret tt.

Definition scan_scores (principle_scores : option pyval) : M unit :=
  match principle_scores with
  | Some (PList items) => for_each scan_item items
  | Some (PDict entries) => for_each scan_entry entries
  | _ => ret tt
  end.

(** Check 1, for one principle: a failed lookup contributes no flag. *)
Definition check_principle (d : db) (principle_id : pyval) : list flag :=
  match _recent_failure_count d principle_id with
  | Returned count =>
      if (3 <=? count)%Z then [RepeatedFailure principle_id count] else []
  | Raised _ => []
  end.

(** [overall_avg - avg > 0.5] when both averages are present. *)
Definition disparity (avg overall_avg : option Qc) : option (Qc * Qc) :=
  match avg, overall_avg with
  | Some a, Some o =>
      match ((o - a) ?= Q2Qc (1 # 2))%Qc with
      | Gt => Some (a, o)
      | _ => None
      end
  | _, _ => None
  end.

Definition check_intent (d : db) (trace : Trace.t) : list flag :=
  match Trace.intent trace with
  | Some intent =>
      if truthy_str (Some intent) then
        match _intent_avg_score d intent with
        | Returned intent_avg =>
            match _overall_avg_score d ForIntent with
            | Returned overall_avg =>
                match disparity intent_avg overall_avg with
                | Some (a, o) => [IntentDisparity intent a o]
                | None => []
                end
            | Raised _ => []
            end
        | Raised _ => []
        end
      else []
  | None => []
  end.

Definition check_domain (d : db) (trace : Trace.t) : list flag :=
  match Trace.domain trace with
  | Some domain =>
      if truthy_str (Some domain) then
        match _domain_avg_score d domain with
        | Returned domain_avg =>
            match _overall_avg_score d ForDomain with
            | Returned overall_avg =>
                match disparity domain_avg overall_avg with
                | Some (a, o) => [DomainDisparity domain a o]
                | None => []
                end
            | Raised _ => []
            end
        | Raised _ => []
        end
      else []
  | None => []
  end.

(** [x is False] and [x is True] for the result of [dict.get]. *)
Definition is_False (v : option pyval) : bool :=
  match v with Some (PBool false) => true | _ => false end.
Definition is_True (v : option pyval) : bool :=
  match v with Some (PBool true) => true | _ => false end.

Definition check_regression (d : db) (trace : Trace.t) : list flag :=
  if is_False (dict_get "passed" (qg_outputs trace))
     && truthy_str (Trace.project_id trace)
     && truthy_str (Trace.started_at trace)
  then
    match Trace.project_id trace, Trace.started_at trace with
    | Some project_id, Some started_at =>
        match _previous_trace_for_project d project_id started_at with
        | Returned (Some prev) =>
            if truthy (PDict prev) && is_True (dict_get "quality_gate_passed" prev)
            then [QualityRegression
                    (if truthy_str (Trace.project_name trace)
                     then default "" (Trace.project_name trace)
                     else project_id)]
            else []
        | Returned None => []
        | Raised _ => []
        end
    | _, _ => []
    end
  else [].

(** The result of the call and the trace as the call leaves it. *)
Definition check_calibration_flags (d : db) (trace : Trace.t)
    : outcome (list flag) * Trace.t :=
  match Trace.stages trace !! "quality_gate" with
  | None => (Returned [], trace)
  | Some qg_stage =>
      let gap := dict_get_default "gap_principles" PNone (qg_outputs trace) in
      let gap_principles := if truthy gap then InTrace else Fresh (PList []) in
      let principle_scores := dict_get "principle_scores" (qg_outputs trace) in
      match scan_scores principle_scores (trace, gap_principles) with
      | (Raised e, s) => (Raised e, fst s)
      | (Returned _, s) =>
          match py_iter (deref s) with
          | Raised e => (Raised e, fst s)
          | Returned ids =>
              let trace := fst s in
              (Returned (flat_map (check_principle d) ids
                         ++ check_intent d trace
                         ++ check_domain d trace
                         ++ check_regression d trace)%list,
               trace)
          end
      end
  end.
End Calibration.

(** The first step of [TraceContext.finish] on a trace:
    [if trace.status == "in_progress": trace.mark_incomplete()]. *)
Definition demoted (now : string) (mono : Qc) (t : Trace.t) : Trace.t :=
  if String.eqb (Trace.status t) "in_progress"
  then Trace.mark_incomplete now mono t else t.

(** ** [TraceContext]

    The context variable [_current_trace] is threaded explicitly: [start]
    and [finish] return its new value. The persistence writer, the summary
    renderer and the row store are external: [env] gives the outcome of each
    of their calls, and [calls] lists the external calls [finish] performs,
    in order. *)

Module TraceContext.
(** [now_id] is the clock reading used for the identifier, [started_at]
    the ISO rendering of the second reading. *)
Definition start
    (project_id project_name query intent domain report_type
     research_type : option string) (enabled : bool)
    (now_id : datetime) (uuid4 : N) (started_at : string) (mono : Qc)
    : trace_obj * option trace_obj :=
  if negb enabled then
    let trace := NoOpTraceObj NoOpTrace.new in (trace, Some trace)
  else
    let trace_id := make_trace_id now_id uuid4 in
    let trace :=
      TraceObj
        (Trace.new trace_id project_id project_name query intent domain
           report_type research_type (Some started_at) "in_progress" mono) in
    (trace, Some trace).

Inductive call_event : Type :=
| CallWriteTraceFile
| CallWriteTraceMetadata
| CallPrintSummary (verbose : bool)
| CallWriteSummaryFile
| CallCheckCalibrationFlags
| CallPrintFlags
| CallSetFlaggedForReview
| CallWriteCalibrationAlertFile.

Record env : Type := {
  write_trace_file : Trace.t -> outcome string;
  write_trace_metadata : Trace.t -> outcome unit;
  print_summary : bool -> Trace.t -> outcome unit;
  write_summary_file : Trace.t -> outcome (option string);
  calibration_db : Calibration.db;
  print_flags : list Calibration.flag -> outcome unit;
  set_flagged_for_review : string -> outcome unit;
  _write_calibration_alert_file :
    Trace.t -> list Calibration.flag -> outcome unit
}.

(** Values stored in the result map of [finish]. *)
Inductive value : Type :=
| VStr (s : string)
| VBool (b : bool)
| VFlags (flags : list Calibration.flag).

(** The local state of [finish]: the [result] dict, the trace, and the
    external calls made so far. *)
Record progress : Type := {
  result : gmap string value;
  trace : Trace.t;
  calls : list call_event
}.

Definition called (c : call_event) (p : progress) : progress :=
  {| result := result p; trace := trace p; calls := (calls p ++ [c])%list |}.

Definition set_result (k : string) (v : value) (p : progress) : progress :=
  {| result := <[k := v]> (result p); trace := trace p; calls := calls p |}.

Definition set_trace (t : Trace.t) (p : progress) : progress :=
  {| result := result p; trace := t; calls := calls p |}.

(** [# Write trace file] *)
Definition step_write_file (e : env) (p : progress) : progress :=
  let p := called CallWriteTraceFile p in
  match write_trace_file e (trace p) with
  | Returned file_path =>
      let p := set_result "file_path" (VStr file_path) p in
      set_trace
        (Trace.set_outputs_field
           (dict_set "trace_file_path" (PStr file_path)
              (Trace.outputs (trace p)))
           (trace p)) p
  | Raised ex => set_result "file_error" (VStr (exn_msg ex)) p
  end.

(** [# Write Supabase metadata] *)
Definition step_write_metadata (e : env) (p : progress) : progress :=
  let p := called CallWriteTraceMetadata p in
  match write_trace_metadata e (trace p) with
  | Returned _ => set_result "supabase" (VStr "saved") p
  | Raised ex => set_result "supabase_error" (VStr (exn_msg ex)) p
  end.

(** [# Print terminal scorecard]: a failure is only logged. *)
Definition step_print_summary (e : env) (verbose : bool) (p : progress)
    : progress :=
  let p := called (CallPrintSummary verbose) p in
  match print_summary e verbose (trace p) with
  | Returned _ => p
  | Raised _ => p
  end.

(** [# Write detailed markdown summary file] *)
Definition step_summary_file (e : env) (p : progress) : progress :=
  let p := called CallWriteSummaryFile p in
  match write_summary_file e (trace p) with
  | Returned (Some summary_path) =>
      set_result "summary_file" (VStr summary_path) p
  | Returned None => p
  | Raised _ => p
  end.

(** [# --- Calibration Alerts (Phase 3) ---] *)
Definition step_calibration (e : env) (p : progress) : progress :=
  let p := called CallCheckCalibrationFlags p in
  match Calibration.check_calibration_flags (calibration_db e) (trace p) with
  | (Returned flags, t) =>
      let p := set_result "calibration_flags" (VFlags flags) (set_trace t p) in
      match flags with
      | [] => p
      | _ :: _ =>
          let p := called CallPrintFlags p in
          match print_flags e flags with
          | Raised _ => set_result "calibration_flags" (VFlags []) p
          | Returned _ =>
              let p := called CallSetFlaggedForReview p in
              let p :=
                match set_flagged_for_review e (Trace.trace_id (trace p)) with
                | Returned _ => set_result "flagged_for_review" (VBool true) p
                | Raised _ => p
                end in
              let p := called CallWriteCalibrationAlertFile p in
              match _write_calibration_alert_file e (trace p) flags with
              | Returned _ => p
              | Raised _ => p
              end
          end
      end
  | (Raised _, t) =>
      set_result "calibration_flags" (VFlags []) (set_trace t p)
  end.

Record finished : Type := {
  returned : gmap string value;
  trace_after : trace_obj;
  current_after : option trace_obj;
  external_calls : list call_event
}.

(** [now] and [mono] are the clock readings [mark_incomplete] takes when
    the trace is still in progress. *)
Definition finish (e : env) (trace : trace_obj) (verbose : bool)
    (now : string) (mono : Qc) : finished :=
  match trace with
  | NoOpTraceObj _ =>
      {| returned :=
           <["reason" := VStr "tracing_disabled"]>
             (<["saved" := VBool false]> ∅);
         trace_after := trace;
         current_after := None;
         external_calls := [] |}
  | TraceObj t =>
      let t := demoted now mono t in
      let p :=
        {| result :=
             <["status" := VStr (Trace.status t)]>
               (<["trace_id" := VStr (Trace.trace_id t)]> ∅);
           trace := t;
           calls := [] |} in
      let p := step_write_file e p in
      let p := step_write_metadata e p in
      let p := step_print_summary e verbose p in
      let p := step_summary_file e p in
      let p := step_calibration e p in
      {| returned := result p;
         trace_after := TraceObj (TraceContext.trace p);
         current_after := None;
         external_calls := calls p |}
  end.
End TraceContext.

(** * Definitions used by the statements *)

(** The state of the counters after a sequence of calls, as a function of
    the calls. *)
Definition counters_agree (ops : list op) (t : Trace.t) : Prop :=
  length (Trace.iterations t) = count_iterations ops /\
  Trace.iteration_count t =
    (if Nat.eqb (count_iterations ops) 0 then 1
     else Z.of_nat (count_iterations ops)) /\
  Trace.quality_gate_failures t = Z.of_nat (count_failed_iterations ops).

(** A call restarts the stage [n] when it is [start_stage(n)]. *)
Definition restarts (n : string) (o : op) : bool :=
  match o with
  | OpStartStage n' _ _ => String.eqb n' n
  | _ => false
  end.

(** What [end_stage] does to a stage that exists. *)
Definition ended_stage (outputs : option pydict) (error : option string)
    (now : string) (duration : option Qc) (stage : StageTrace.t) : StageTrace.t :=
  StageTrace.mk (StageTrace.name stage) (StageTrace.started_at stage)
    (Some now) duration (StageTrace.decisions stage)
    (if truthy_dict outputs then default [] outputs else StageTrace.outputs stage)
    (StageTrace.evidence stage) (StageTrace.prompts stage)
    (if truthy_str error then error else StageTrace.error stage).

(** C4 as stated: the supplied outputs are merged into the stage's output
    map, so a key already present and not named in the supplied outputs
    survives the call. *)
Definition end_stage_merges_outputs : Prop :=
  forall (t : Trace.t) (stage_name : string) (stage : StageTrace.t)
         (outputs : option pydict) (error : option string) (now : string)
         (mono : Qc) (k : string) (v : pyval),
    Trace.stages t !! stage_name = Some stage ->
    is_Some (Trace._stage_start_times t !! stage_name) ->
    dict_get k (StageTrace.outputs stage) = Some v ->
    dict_get k (default [] outputs) = None ->
    exists stage',
      Trace.stages (Trace.end_stage stage_name outputs error now mono t)
        !! stage_name = Some stage' /\
      dict_get k (StageTrace.outputs stage') = Some v.

(** The trace of the counterexample: a stage started, ended once with
    outputs [{"total_principles": 21}], and about to be ended again with
    [{"passed": True}]. *)
Definition twice_ended_trace : Trace.t :=
  Trace.end_stage "rubric" (Some [("total_principles", PInt 21)]) None "ts1"
    (Q2Qc 11)
    (Trace.start_stage "rubric" "ts0" (Q2Qc 10)
       (Trace.new "trc_test" None None None None None None None None
          "in_progress" 0%Qc)).

(** The monotonic start instants are kept only for stages that exist. *)
Definition start_times_in_stages (t : Trace.t) : Prop :=
  forall n, is_Some (Trace._stage_start_times t !! n) ->
            is_Some (Trace.stages t !! n).

(** The calls that create the stage [n] when it is absent. *)
Definition auto_creates (n : string) (o : op) : bool :=
  match o with
  | OpRecord n' _ _ _ | OpRecordEvidence n' _ | OpRecordPrompts n' _ =>
      String.eqb n' n
  | _ => false
  end.

(** A stage that exists without a start timestamp, a duration or a
    captured monotonic start instant. *)
Definition unstarted (n : string) (t : Trace.t) : Prop :=
  Trace._stage_start_times t !! n = None /\
  exists stage, Trace.stages t !! n = Some stage /\
                StageTrace.started_at stage = None /\
                StageTrace.duration_seconds stage = None.

(** The calibration analyzer only ever assigns the quality-gate stage:
    the identifier and the status of the trace are not touched. *)
Definition same_identity (t t' : Trace.t) : Prop :=
  Trace.trace_id t' = Trace.trace_id t /\ Trace.status t' = Trace.status t.

Definition keeps_identity {A : Type} (m : Calibration.M A) : Prop :=
  forall s, same_identity (fst s) (fst (snd (m s))).

(** The steps after the two writes: rendering, summary file, calibration. *)
Definition post_persist (e : TraceContext.env) (verbose : bool)
    (p : TraceContext.progress) : TraceContext.progress :=
  TraceContext.step_calibration e
    (TraceContext.step_summary_file e
       (TraceContext.step_print_summary e verbose p)).

(** An environment in which the file write fails and everything else
    succeeds, with an empty history. *)
Definition quiet_db : Calibration.db :=
  {| Calibration._recent_failure_count := fun _ => Returned 0;
     Calibration._intent_avg_score := fun _ => Returned None;
     Calibration._domain_avg_score := fun _ => Returned None;
     Calibration._overall_avg_score := fun _ => Returned None;
     Calibration._previous_trace_for_project := fun _ _ => Returned None |}.

Definition disk_full_env : TraceContext.env :=
  {| TraceContext.write_trace_file :=
       fun _ => Raised (Exn "OSError" "No space left on device");
     TraceContext.write_trace_metadata := fun _ => Returned tt;
     TraceContext.print_summary := fun _ _ => Returned tt;
     TraceContext.write_summary_file := fun _ => Returned (Some "summary.md");
     TraceContext.calibration_db := quiet_db;
     TraceContext.print_flags := fun _ => Returned tt;
     TraceContext.set_flagged_for_review := fun _ => Returned tt;
     TraceContext._write_calibration_alert_file := fun _ _ => Returned tt |}.

Definition running_trace : Trace.t :=
  Trace.new "trc_20260213_120000_0a1b2c3d" None (Some "cobot") (Some "q")
    (Some "validating") None None None (Some "2026-02-13T12:00:00+00:00")
    "in_progress" 1%Qc.

Definition row_a_example : TraceQuery.row :=
  {| TraceQuery.trace_id := "trc_a";
     TraceQuery.overall_quality_score := Some (Q2Qc 2);
     TraceQuery.duration_seconds := Some (Q2Qc 200);
     TraceQuery.synthesis_cost_usd := None;
     TraceQuery.gap_principles := Some ["META-12"; "META-5"] |}.

Definition row_b_example : TraceQuery.row :=
  {| TraceQuery.trace_id := "trc_b";
     TraceQuery.overall_quality_score := Some (Q2Qc (28 # 10));
     TraceQuery.duration_seconds := Some (Q2Qc 250);
     TraceQuery.synthesis_cost_usd := Some (Q2Qc (3 # 10));
     TraceQuery.gap_principles := Some ["META-12"; "MR-1"] |}.

Definition store_example (trace_id : string) : option TraceQuery.row :=
  if String.eqb trace_id "trc_a" then Some row_a_example
  else if String.eqb trace_id "trc_b" then Some row_b_example
  else None.

(** A finished trace whose quality-gate stage has the given outputs, built
    as the repository's tests build it. *)
Definition trace_with_quality_gate (outputs : pydict) : Trace.t :=
  Trace.end_stage "quality_gate" (Some outputs) None
    "2026-02-13T12:04:00+00:00" (Q2Qc 240)
    (Trace.start_stage "quality_gate" "2026-02-13T12:03:00+00:00" (Q2Qc 180)
       (Trace.new "trc_test_flags"
          (Some "00000000-0000-0000-0000-000000000001") (Some "test-project")
          None (Some "validating") (Some "edtech") None None
          (Some "2026-02-13T12:00:00+00:00") "complete" 0%Qc)).

(** A stage with a non-empty explicit gap list and one low score in the
    flat score map. *)
Definition aliased_gap_trace : Trace.t :=
  trace_with_quality_gate
    [("passed", PBool false);
     ("overall_score", PFloat (Q2Qc (15 # 10)));
     ("gap_principles", PList [PStr "META-12"]);
     ("principle_scores", PDict [("META-12", PInt 1); ("MR-1", PInt 0)])].

(** Without a truthy explicit gap list the local list is fresh, and the
    scan leaves the trace alone. *)
Definition fresh_keeps_trace {A : Type} (m : Calibration.M A) : Prop :=
  forall (t : Trace.t) (v : pyval),
    exists v', snd (m (t, Calibration.Fresh v)) = (t, Calibration.Fresh v').

Definition flat_scores_trace (score : pyval) : Trace.t :=
  trace_with_quality_gate
    [("passed", PBool true);
     ("overall_score", PFloat (Q2Qc (24 # 10)));
     ("principle_scores", PDict [("META-1", PInt 3); ("META-12", score)])].

Definition record_scores_trace (score : pyval) : Trace.t :=
  trace_with_quality_gate
    [("passed", PBool true);
     ("overall_score", PFloat (Q2Qc (24 # 10)));
     ("principle_scores",
      PList [PDict [("id", PStr "META-12"); ("score", score)]])].

(** The historical lookups themselves are isolated: with every score a
    number, a lookup that raises contributes no flag and the other checks
    still produce theirs. *)
Definition failing_count_db : Calibration.db :=
  {| Calibration._recent_failure_count :=
       fun _ => Raised (Exn "ConnectionError" "connection refused");
     Calibration._intent_avg_score := fun _ => Returned (Some (Q2Qc (15 # 10)));
     Calibration._domain_avg_score :=
       fun _ => Raised (Exn "ConnectionError" "connection refused");
     Calibration._overall_avg_score := fun _ => Returned (Some (Q2Qc (23 # 10)));
     Calibration._previous_trace_for_project :=
       fun _ _ => Returned (Some [("trace_id", PStr "trc_prev");
                                  ("quality_gate_passed", PBool true)]) |}.


(** * The persistence writer, the summary getters and the component registry *)

Definition ValueError (msg : string) : exn := Exn "ValueError" msg.

(** [v if v is not None else None] for the result of [dict.get]: an absent
    key and a stored [None] are the same Python value. *)
Definition py_of_option (o : option pyval) : pyval := default PNone o.

(** [float(v)]. The reading of a string as a number is the argument
    [parse]; the other cases are those of the builtin ([OverflowError] on
    huge integers does not arise with exact numbers). *)
Definition py_float (parse : string -> option Qc) (v : pyval) : outcome Qc :=
  match v with
  | PBool b => Returned (if b then 1%Qc else 0%Qc)
  | PInt z => Returned (Q2Qc (inject_Z z))
  | PFloat q => Returned q
  | PStr s =>
      match parse s with
      | Some q => Returned q
      | None => Raised (ValueError ("could not convert string to float: " ++ s))
      end
  | _ => Raised (TypeError ("float() argument must be a string or a real number, not '"
                            ++ type_name v ++ "'"))
  end.

(** ** [src/tracing/writer.py]: the extractors *)

Module Writer.
(** [_extract_stage_duration(trace, stage_name)] *)
Definition _extract_stage_duration (trace : Trace.t) (stage_name : string)
    : option Qc :=
  match Trace.stages trace !! stage_name with
  | Some stage =>
      match StageTrace.duration_seconds stage with
      | Some d => Some d
      | None => None
      end
  | None => None
  end.


Fixpoint kdict_set (k v : pyval) (d : list (pyval * pyval))
    : list (pyval * pyval) :=
  match d with
  | [] => [(k, v)]
  | (k', v') :: d' =>
      if py_eqb k k' then (k', v) :: d' else (k', v') :: kdict_set k v d'
  end.

(** [{item["id"]: item["score"] for item in raw_scores
      if isinstance(item, dict) and "id" in item and "score" in item}] *)
Fixpoint flatten_scores (raw_scores : list pyval) (acc : list (pyval * pyval))
    : outcome (list (pyval * pyval)) :=
  match raw_scores with
  | [] => Returned acc
  | item :: rest =>
      match item with
      | PDict d =>
          match dict_get "id" d, dict_get "score" d with
          | Some id, Some score =>
              if hashable id then flatten_scores rest (kdict_set id score acc)
              else Raised (TypeError ("unhashable type: '" ++ type_name id ++ "'"))
          | _, _ => flatten_scores rest acc
          end
      | _ => flatten_scores rest acc
      end
  end.

Record qg_data : Type := {
  principle_scores : option (list (pyval * pyval));
  gap_principles : pyval;
  strength_principles : pyval;
  overall_quality_score : option Qc;
  quality_gate_passed : option bool
}.

Definition qg_data_empty : qg_data :=
  {| principle_scores := None; gap_principles := PNone;
     strength_principles := PNone; overall_quality_score := None;
     quality_gate_passed := None |}.

(** [_extract_quality_gate_data(trace)]. [float(outputs["overall_score"])]
    and the comprehension may raise. *)
Definition _extract_quality_gate_data (parse : string -> option Qc)
    (trace : Trace.t) : outcome qg_data :=
  match Trace.stages trace !! "quality_gate" with
  | None => Returned qg_data_empty
  | Some qg_stage =>
      let outputs := StageTrace.outputs qg_stage in
      let passed :=
        match dict_get "passed" outputs with
        | Some v => Some (truthy v)
        | None => None
        end in
      match
        match dict_get "overall_score" outputs with
        | Some v =>
            match py_float parse v with
            | Returned q => Returned (Some q)
            | Raised e => Raised e
            end
        | None => Returned None
        end
      with
      | Raised e => Raised e
      | Returned score =>
          match
            match dict_get "principle_scores" outputs with
            | Some (PList raw_scores) =>
                match flatten_scores raw_scores [] with
                | Returned d => Returned (Some d)
                | Raised e => Raised e
                end
            | Some (PDict raw_scores) =>
                Returned (Some (map (fun kv => (PStr (fst kv), snd kv)) raw_scores))
            | _ => Returned None
            end
          with
          | Raised e => Raised e
          | Returned scores =>
              Returned
                {| principle_scores := scores;
                   gap_principles :=
                     py_of_option (dict_get "gap_principles" outputs);
                   strength_principles :=
                     py_of_option (dict_get "strength_principles" outputs);
                   overall_quality_score := score;
                   quality_gate_passed := passed |}
          end
      end
  end.

Record synthesis_data : Type := {
  synthesis_model : pyval;
  synthesis_input_tokens : pyval;
  synthesis_output_tokens : pyval;
  synthesis_cost_usd : pyval
}.

(** [_extract_synthesis_data(trace)] *)
Definition _extract_synthesis_data (trace : Trace.t) : synthesis_data :=
  match Trace.stages trace !! "synthesis" with
  | None =>
      {| synthesis_model := PNone; synthesis_input_tokens := PNone;
         synthesis_output_tokens := PNone; synthesis_cost_usd := PNone |}
  | Some synth_stage =>
      let outputs := StageTrace.outputs synth_stage in
      let token_usage := dict_get_default "token_usage" (PDict []) outputs in
      {| synthesis_model := py_of_option (dict_get "model" outputs);
         synthesis_input_tokens :=
           match token_usage with
           | PDict u => py_of_option (dict_get "input_tokens" u)
           | _ => PNone
           end;
         synthesis_output_tokens :=
           match token_usage with
           | PDict u => py_of_option (dict_get "output_tokens" u)
           | _ => PNone
           end;
         synthesis_cost_usd := py_of_option (dict_get "cost_usd" outputs) |}
  end.

Record evidence_data : Type := {
  evidence_collected : pyval;
  evidence_passed : pyval;
  evidence_filtered : pyval
}.

(** [_extract_evidence_data(trace)] *)
Definition _extract_evidence_data (trace : Trace.t) : evidence_data :=
  match Trace.stages trace !! "collection" with
  | None =>
      {| evidence_collected := PNone; evidence_passed := PNone;
         evidence_filtered := PNone |}
  | Some coll_stage =>
      {| evidence_collected :=
           py_of_option (dict_get "collected_count" (StageTrace.evidence coll_stage));
         evidence_passed :=
           py_of_option (dict_get "evidence_passed" (StageTrace.outputs coll_stage));
         evidence_filtered :=
           py_of_option (dict_get "evidence_filtered" (StageTrace.outputs coll_stage)) |}
  end.

(** [isinstance(val, str) and ("/" in val or "\\" in val)] *)
Definition is_path_value (val : pyval) : bool :=
  match val with
  | PStr s => is_substring "/" s || is_substring "\" s
  | _ => false
  end.

Definition str_value (val : pyval) : string :=
  match val with PStr s => s | _ => "" end.

(** The [output_file_paths] parameter of the row, in [write_trace_metadata]. *)
Definition output_file_paths (trace : Trace.t) : option (list string) :=
  if truthy (PDict (Trace.outputs trace)) then
    let paths :=
      map str_value (List.filter is_path_value (map snd (Trace.outputs trace))) in
    match paths with
    | [] => None
    | _ :: _ => Some paths
    end
  else None.
End Writer.

(** ** [src/tracing/summary.py]: the getters *)

Module Summary.
Record quality_data : Type := {
  passed : pyval; score : pyval; gaps : pyval; strengths : pyval
}.

(** [x or []] *)
Definition or_empty_list (v : pyval) : pyval :=
  if truthy v then v else PList [].

(** [_get_quality_data(trace)] *)
Definition _get_quality_data (trace : Trace.t) : quality_data :=
  match Trace.stages trace !! "quality_gate" with
  | None =>
      {| passed := PNone; score := PNone; gaps := PList [];
         strengths := PList [] |}
  | Some qg =>
      let outputs := StageTrace.outputs qg in
      {| passed := py_of_option (dict_get "passed" outputs);
         score := py_of_option (dict_get "overall_score" outputs);
         gaps := or_empty_list (py_of_option (dict_get "gap_principles" outputs));
         strengths :=
           or_empty_list (py_of_option (dict_get "strength_principles" outputs)) |}
  end.

Record evidence_counts : Type := {
  collected : pyval; evidence_passed : pyval; filtered : pyval
}.

(** [_get_evidence_data(trace)] *)
Definition _get_evidence_data (trace : Trace.t) : evidence_counts :=
  match Trace.stages trace !! "collection" with
  | None => {| collected := PNone; evidence_passed := PNone; filtered := PNone |}
  | Some coll =>
      {| collected :=
           py_of_option (dict_get "collected_count" (StageTrace.evidence coll));
         evidence_passed :=
           py_of_option (dict_get "evidence_passed" (StageTrace.outputs coll));
         filtered :=
           py_of_option (dict_get "evidence_filtered" (StageTrace.outputs coll)) |}
  end.

(** [_get_cost_data(trace)] *)
Definition _get_cost_data (trace : Trace.t) : pyval :=
  match Trace.stages trace !! "synthesis" with
  | None => PNone
  | Some synth => py_of_option (dict_get "cost_usd" (StageTrace.outputs synth))
  end.
End Summary.

(** ** [src/tracing/interface.py] *)

Module Interface.
(** A component: its [component_name] property and what its
    [get_trace_schema()] returns. *)
Record TracingComponent : Type := {
  component_name : string;
  get_trace_schema : pyval
}.

Record validation : Type := { valid : bool; errors : list string }.

(** The check of one required key of the schema. *)
Definition check_list_key (key : string) (schema : pydict) : list string :=
  match dict_get key schema with
  | None => ["Schema missing required key: '" ++ key ++ "'"]
  | Some (PList _) => []
  | Some _ => ["'" ++ key ++ "' must be a list"]
  end.

(** [validate_trace_schema(component)] *)
Definition validate_trace_schema (component : TracingComponent) : validation :=
  match get_trace_schema component with
  | PDict schema =>
      let errors :=
        (check_list_key "decisions" schema ++ check_list_key "outputs" schema)%list in
      {| valid := Nat.eqb (length errors) 0; errors := errors |}
  | _ =>
      {| valid := false; errors := ["get_trace_schema() must return a dict"] |}
  end.

(** An entry of [REGISTERED_COMPONENTS]:
    [{"component_name": ..., "schema": ...}]. *)
Record registration : Type := {
  reg_component_name : string;
  reg_schema : pyval
}.

(** [', '.join(errors)] *)
Fixpoint join_comma (l : list string) : string :=
  match l with
  | [] => ""
  | [x] => x
  | x :: rest => x ++ ", " ++ join_comma rest
  end.

(** [register_component(component)], on the registry [REGISTERED_COMPONENTS]:
    the registry after the call, or the [ValueError] raised. *)
Definition register_component (component : TracingComponent)
    (registry : gmap string registration) : outcome (gmap string registration) :=
  let validation := validate_trace_schema component in
  if negb (valid validation) then
    Raised (ValueError ("Invalid trace schema for '" ++ component_name component
                        ++ "': " ++ join_comma (errors validation)))
  else
    Returned
      (<[component_name component :=
           {| reg_component_name := component_name component;
              reg_schema := get_trace_schema component |}]> registry).
End Interface.

(** ** [traced_research]

    The body of the [async with] block is the recording calls it makes on
    the yielded trace, followed by the exception it raises, if any. The
    second component of the result is the exception the context manager
    lets through. [mark_now], [mark_mono] are the clock readings of
    [mark_complete] or [mark_failed]; [finish_now], [finish_mono] those
    [finish] takes. *)
Definition traced_research (e : TraceContext.env)
    (query : option string)
    (project_id project_name intent domain report_type research_type
     : option string) (verbose enabled : bool)
    (now_id : datetime) (uuid4 : N) (started_at : string) (start_mono : Qc)
    (body : list op) (body_raises : option exn)
    (mark_now : string) (mark_mono : Qc)
    (finish_now : string) (finish_mono : Qc)
    : TraceContext.finished * option exn :=
  let trace :=
    fst (TraceContext.start project_id project_name query intent domain
           report_type research_type enabled now_id uuid4 started_at start_mono) in
  let trace := fold_left (fun o c => call c o) body trace in
  match body_raises with
  | None =>
      let trace :=
        if String.eqb (Trace.status (obj_state trace)) "in_progress"
        then call (OpMarkComplete mark_now mark_mono) trace
        else trace in
      (TraceContext.finish e trace verbose finish_now finish_mono, None)
  | Some ex =>
      let trace := call (OpMarkFailed (exn_msg ex) mark_now mark_mono) trace in
      (TraceContext.finish e trace verbose finish_now finish_mono, Some ex)
  end.

(** * Definitions used by the further statements *)

(** The [Decision] that [Trace.record] appends. *)
Definition decision_of (decision_type : string) (data : pydict) (now : string)
    : Decision.t :=
  Decision.mk decision_type
    (dict_get_default "what" PNone data)
    (dict_get_default "why" (PStr "") data)
    (dict_get_default "confidence" (PFloat 1%Qc) data)
    (dict_get_default "alternatives_considered" (PList []) data)
    (dict_get_default "inputs" (PDict []) data)
    now.

(** The decisions of the stage [n], none when the stage does not exist. *)
Definition decisions_of (n : string) (t : Trace.t) : list Decision.t :=
  match Trace.stages t !! n with
  | Some stage => StageTrace.decisions stage
  | None => []
  end.

(** The decisions a sequence of calls records against the stage [n]. *)
Definition recorded (n : string) (ops : list op) : list Decision.t :=
  flat_map
    (fun o =>
       match o with
       | OpRecord n' ty data now =>
           if String.eqb n' n then [decision_of ty data now] else []
       | _ => []
       end) ops.

(** The status, timestamp and monotonic reading of a [mark_*] call. *)
Definition mark_of (o : op) : option (string * string * Qc) :=
  match o with
  | OpMarkComplete now mono => Some ("complete", now, mono)
  | OpMarkFailed _ now mono => Some ("failed", now, mono)
  | OpMarkIncomplete now mono => Some ("incomplete", now, mono)
  | _ => None
  end.

(** The last [mark_*] call of a sequence. *)
Definition last_mark (ops : list op) : option (string * string * Qc) :=
  fold_left (fun acc o => match mark_of o with Some m => Some m | None => acc end)
    ops None.

(** The trace with the quality-gate stage's [gap_principles] set to [v]. *)
Definition with_gaps (v : pyval) (t : Trace.t) : Trace.t :=
  Calibration.set_qg_outputs
    (dict_set "gap_principles" v (Calibration.qg_outputs t)) t.






(** What [check_calibration_flags] may leave of the trace [t]: the trace
    itself, or the trace with the stored gap list extended at its end. *)
Definition gap_extension (t t' : Trace.t) : Prop :=
  t' = t \/
  exists (l extra : list pyval),
    dict_get "gap_principles" (Calibration.qg_outputs t) = Some (PList l) /\
    extra <> [] /\
    t' = with_gaps (PList (l ++ extra)) t.

(** The states the scan of the scores can reach from the trace [t0]. *)
Definition scan_invariant (t0 : Trace.t) (s : Calibration.state) : Prop :=
  match snd s with
  | Calibration.Fresh _ => fst s = t0
  | Calibration.InTrace => gap_extension t0 (fst s)
  end.

Definition keeps_scan_invariant {A : Type} (t0 : Trace.t)
    (m : Calibration.M A) : Prop :=
  forall s, scan_invariant t0 s -> scan_invariant t0 (snd (m s)).

(** The reference designates a list. *)
Definition list_state (s : Calibration.state) : Prop :=
  exists l, Calibration.deref s = PList l.


(** What justifies each kind of flag. *)
Definition flag_justified (d : Calibration.db) (t : Trace.t)
    (f : Calibration.flag) : Prop :=
  match f with
  | Calibration.RepeatedFailure principle_id count =>
      Calibration._recent_failure_count d principle_id = Returned count /\
      3 <= count
  | Calibration.IntentDisparity intent a o =>
      Trace.intent t = Some intent /\ intent <> "" /\
      Calibration._intent_avg_score d intent = Returned (Some a) /\
      Calibration._overall_avg_score d Calibration.ForIntent = Returned (Some o) /\
      (Q2Qc (1 # 2) < o - a)%Qc
  | Calibration.DomainDisparity domain a o =>
      Trace.domain t = Some domain /\ domain <> "" /\
      Calibration._domain_avg_score d domain = Returned (Some a) /\
      Calibration._overall_avg_score d Calibration.ForDomain = Returned (Some o) /\
      (Q2Qc (1 # 2) < o - a)%Qc
  | Calibration.QualityRegression project =>
      dict_get "passed" (Calibration.qg_outputs t) = Some (PBool false) /\
      exists project_id started_at prev,
        Trace.project_id t = Some project_id /\ project_id <> "" /\
        Trace.started_at t = Some started_at /\ started_at <> "" /\
        Calibration._previous_trace_for_project d project_id started_at =
          Returned (Some prev) /\
        dict_get "quality_gate_passed" prev = Some (PBool true)
  end.

(** No element of [l] is [==] to an element before it, nor to one of
    [seen]. *)
Fixpoint distinct_from (seen l : list pyval) : bool :=
  match l with
  | [] => true
  | x :: l' => negb (existsb (py_eqb x) seen) && distinct_from (seen ++ [x]) l'
  end.

Definition distinct (l : list pyval) : bool := distinct_from [] l.

Definition distinct_state (s : Calibration.state) : Prop :=
  forall l, Calibration.deref s = PList l -> distinct l = true.

Definition keeps_distinct {A : Type} (m : Calibration.M A) : Prop :=
  forall s, distinct_state s ->
            distinct_state (snd (m s)) /\
            (snd s = Calibration.InTrace ->
             snd (snd (m s)) = Calibration.InTrace).


(** The trace with the artifact path stamped into its outputs. *)
Definition stamped (file_path : string) (t : Trace.t) : Trace.t :=
  Trace.set_outputs_field
    (dict_set "trace_file_path" (PStr file_path) (Trace.outputs t)) t.

(** The two persistence steps of [finish], from the initial result map. *)
Definition persisted (e : TraceContext.env) (t0 : Trace.t)
    : TraceContext.progress :=
  TraceContext.step_write_metadata e
    (TraceContext.step_write_file e
       {| TraceContext.result :=
            <["status" := TraceContext.VStr (Trace.status t0)]>
              (<["trace_id" := TraceContext.VStr (Trace.trace_id t0)]> ∅);
          TraceContext.trace := t0;
          TraceContext.calls := [] |}).

(** An environment in which both writes succeed; the row write needs the
    artifact path in the outputs. *)
Definition saving_env : TraceContext.env :=
  {| TraceContext.write_trace_file :=
       fun t => Returned ("brain/projects/cobot/_traces/" ++ Trace.trace_id t
                          ++ ".json");
     TraceContext.write_trace_metadata :=
       fun t =>
         match dict_get "trace_file_path" (Trace.outputs t) with
         | Some _ => Returned tt
         | None => Raised (Exn "RuntimeError" "no artifact path")
         end;
     TraceContext.print_summary := fun _ _ => Returned tt;
     TraceContext.write_summary_file := fun _ => Returned None;
     TraceContext.calibration_db := failing_count_db;
     TraceContext.print_flags := fun _ => Returned tt;
     TraceContext.set_flagged_for_review := fun _ => Returned tt;
     TraceContext._write_calibration_alert_file := fun _ _ => Returned tt |}.

(** A call names the stage [n]. *)
Definition mentions (n : string) (o : op) : bool :=
  match o with
  | OpStartStage n' _ _ | OpEndStage n' _ _ _ _ | OpRecord n' _ _ _
  | OpRecordEvidence n' _ | OpRecordPrompts n' _ => String.eqb n' n
  | _ => false
  end.

(** A call is [end_stage(n)]. *)
Definition ends (n : string) (o : op) : bool :=
  match o with
  | OpEndStage n' _ _ _ _ => String.eqb n' n
  | _ => false
  end.


(** * Properties *)

(** ** Sequences of recording calls *)

Lemma run_nil (t : Trace.t) : run [] t = t.
Proof. reflexivity. Qed.

Lemma run_cons (o : op) (ops : list op) (t : Trace.t) :
  run (o :: ops) t = run ops (apply_op o t).
Proof. reflexivity. Qed.

Lemma run_snoc (ops : list op) (o : op) (t : Trace.t) :
  run (ops ++ [o])%list t = apply_op o (run ops t).
Proof. unfold run. by rewrite fold_left_app. Qed.

Ltac unfold_trace_ops :=
  unfold apply_op, Trace.start_stage, Trace.end_stage, Trace.record,
    Trace.record_evidence, Trace.record_prompts, Trace.record_iteration,
    Trace.set_outputs, Trace.mark_complete, Trace.mark_failed,
    Trace.mark_incomplete, Trace.stamp_completion, Trace.ensure_stage.

(** Every recording call other than [record_iteration] leaves the iteration
    list and both counters alone. *)
Lemma apply_op_iterations_frame (o : op) (t : Trace.t) :
  is_record_iteration o = false ->
  Trace.iterations (apply_op o t) = Trace.iterations t /\
  Trace.iteration_count (apply_op o t) = Trace.iteration_count t /\
  Trace.quality_gate_failures (apply_op o t) = Trace.quality_gate_failures t.
Proof.
  destruct o; intros Hk; try discriminate Hk; unfold_trace_ops; cbn.
  - done.
  - destruct (Trace.stages t !! stage_name); done.
  - destruct (Trace.stages t !! stage_name); done.
  - destruct (Trace.stages t !! stage_name); done.
  - destruct (Trace.stages t !! stage_name); done.
  - done.
  - destruct (negb _); done.
  - destruct (negb _); done.
  - destruct (negb _); done.
Qed.

(** The identifier is not assigned by any recording call. *)
Lemma apply_op_trace_id (o : op) (t : Trace.t) :
  Trace.trace_id (apply_op o t) = Trace.trace_id t.
Proof.
  destruct o; unfold_trace_ops; cbn;
    repeat match goal with
      | |- context [Trace.stages ?x !! ?n] => destruct (Trace.stages x !! n); cbn
      | |- context [negb ?b] => destruct (negb b); cbn
      end; reflexivity.
Qed.

Lemma run_trace_id (ops : list op) (t : Trace.t) :
  Trace.trace_id (run ops t) = Trace.trace_id t.
Proof.
  revert t. induction ops as [|o ops IH]; intros t; [done|].
  rewrite run_cons, IH. apply apply_op_trace_id.
Qed.

(** ** Iteration counters (C1) *)

Lemma count_iterations_snoc (ops : list op) (o : op) :
  count_iterations (ops ++ [o])%list =
  (count_iterations ops + if is_record_iteration o then 1 else 0)%nat.
Proof.
  unfold count_iterations. rewrite List.filter_app, length_app. cbn.
  by destruct (is_record_iteration o).
Qed.

Lemma count_failed_iterations_snoc (ops : list op) (o : op) :
  count_failed_iterations (ops ++ [o])%list =
  (count_failed_iterations ops + if is_failed_iteration o then 1 else 0)%nat.
Proof.
  unfold count_failed_iterations. rewrite List.filter_app, length_app. cbn.
  by destruct (is_failed_iteration o).
Qed.

Lemma count_failed_le (ops : list op) :
  (count_failed_iterations ops <= count_iterations ops)%nat.
Proof.
  unfold count_failed_iterations, count_iterations.
  induction ops as [|o ops IH]; cbn; [lia|].
  destruct o; cbn; try lia.
  destruct (iteration_failed iteration_data); cbn; lia.
Qed.

Lemma counters_agree_step (ops : list op) (o : op) (t : Trace.t) :
  counters_agree ops t -> counters_agree (ops ++ [o])%list (apply_op o t).
Proof.
  intros (Hlen & Hcnt & Hfail). unfold counters_agree.
  rewrite count_iterations_snoc, count_failed_iterations_snoc.
  destruct (is_record_iteration o) eqn:Hk.
  - destruct o; try discriminate Hk. cbn [is_failed_iteration].
    unfold apply_op, Trace.record_iteration. fold (iteration_failed iteration_data).
    destruct (iteration_failed iteration_data); cbn;
      rewrite ?length_app, ?Hlen, ?Hfail; cbn;
      replace (count_iterations ops + 1 =? 0)%nat with false
        by (symmetry; apply Nat.eqb_neq; lia);
      repeat split; lia.
  - destruct (apply_op_iterations_frame o t Hk) as (-> & -> & ->).
    assert (is_failed_iteration o = false) as ->
      by (destruct o; try reflexivity; discriminate Hk).
    rewrite !Nat.add_0_r. done.
Qed.

Lemma counters_agree_run (ops : list op) (t : Trace.t) :
  counters_agree [] t -> counters_agree ops (run ops t).
Proof.
  intros H0. induction ops as [|o ops IH] using rev_ind; [done|].
  rewrite run_snoc. by apply counters_agree_step.
Qed.

(** C1, as the source has it. A trace is constructed with
    [iteration_count = 1] and an empty iteration list; from the first
    [record_iteration] call on, [iteration_count] is the length of the
    list, which is the number of [record_iteration] calls.
    [quality_gate_failures] is the number of [record_iteration] calls whose
    ["passed"] entry is present and falsy, and never exceeds
    [iteration_count]. *)
Theorem iteration_counters_after_run
    (trace_id : string)
    (project_id project_name query intent domain report_type research_type
     started_at : option string) (status : string) (start_time : Qc)
    (ops : list op) :
  let t := run ops (Trace.new trace_id project_id project_name query intent
                      domain report_type research_type started_at status
                      start_time) in
  length (Trace.iterations t) = count_iterations ops /\
  Trace.iteration_count t =
    (if Nat.eqb (count_iterations ops) 0 then 1
     else Z.of_nat (length (Trace.iterations t))) /\
  Trace.quality_gate_failures t = Z.of_nat (count_failed_iterations ops) /\
  Trace.quality_gate_failures t <= Trace.iteration_count t.
Proof.
  intros t.
  destruct (counters_agree_run ops
              (Trace.new trace_id project_id project_name query intent domain
                 report_type research_type started_at status start_time))
    as (Hlen & Hcnt & Hfail); [done|].
  fold t in Hlen, Hcnt, Hfail.
  pose proof (count_failed_le ops) as Hle.
  rewrite Hlen, Hcnt, Hfail. repeat split.
  destruct (Nat.eqb_spec (count_iterations ops) 0); lia.
Qed.

(** C1 as stated fails on the freshly constructed trace: no
    [record_iteration] call was made, the iteration list is empty, and
    [iteration_count] is 1. *)
Lemma fresh_trace_iteration_count_is_one :
  let t := Trace.new "trc_test_001" None None None None None None None None
             "in_progress" 0%Qc in
  Trace.iterations t = [] /\
  Trace.iteration_count t = 1 /\
  Trace.iteration_count t <> Z.of_nat (length (Trace.iterations t)).
Proof. cbn. repeat split. discriminate. Qed.

(** ** Ending a stage (C4, C6, C10) *)

(** C6. [end_stage] on a name that is not a key of [stages] returns the
    trace as it was: [stages] is unchanged, the model of the call is total
    (nothing is raised), and no stage of that name appears. *)
Theorem end_stage_unstarted_is_noop
    (t : Trace.t) (stage_name : string) (outputs : option pydict)
    (error : option string) (now : string) (mono : Qc) :
  Trace.stages t !! stage_name = None ->
  Trace.end_stage stage_name outputs error now mono t = t /\
  Trace.stages (Trace.end_stage stage_name outputs error now mono t) = Trace.stages t /\
  Trace.stages (Trace.end_stage stage_name outputs error now mono t) !! stage_name = None.
Proof.
  intros Hnone. unfold Trace.end_stage. rewrite Hnone. done.
Qed.

Lemma end_stage_unstarted_is_noop_witness :
  let t := Trace.start_stage "rubric" "2026-02-13T12:00:00+00:00" (Q2Qc 5)
             (Trace.new "trc_test" None None None None None None None None
                "in_progress" 0%Qc) in
  Trace.end_stage "never_started" (Some [("key", PStr "value")]) None
    "2026-02-13T12:00:01+00:00" (Q2Qc 6) t = t /\
  Trace.stages (Trace.end_stage "never_started" (Some [("key", PStr "value")])
                  None "2026-02-13T12:00:01+00:00" (Q2Qc 6) t) = Trace.stages t /\
  Trace.stages (Trace.end_stage "never_started" (Some [("key", PStr "value")])
                  None "2026-02-13T12:00:01+00:00" (Q2Qc 6) t) !! "never_started" = None.
Proof.
  apply (end_stage_unstarted_is_noop _ "never_started"). vm_compute. reflexivity.
Defined.

Lemma apply_op_start_time_frame (n : string) (o : op) (t : Trace.t) :
  restarts n o = false ->
  Trace._stage_start_times (apply_op o t) !! n = Trace._stage_start_times t !! n.
Proof.
  destruct o; intros Hr; unfold_trace_ops; cbn;
    repeat match goal with
      | |- context [Trace.stages ?x !! ?k] => destruct (Trace.stages x !! k); cbn
      | |- context [negb ?b] => destruct (negb b); cbn
      end; try reflexivity.
  cbn in Hr. apply String.eqb_neq in Hr. by rewrite lookup_insert_ne.
Qed.

Lemma run_start_time_frame (n : string) (ops : list op) (t : Trace.t) :
  forallb (fun o => negb (restarts n o)) ops = true ->
  Trace._stage_start_times (run ops t) !! n = Trace._stage_start_times t !! n.
Proof.
  revert t. induction ops as [|o ops IH]; intros t Hall; [done|].
  cbn in Hall. apply andb_true_iff in Hall as [Ho Hall].
  rewrite run_cons, IH by done.
  apply apply_op_start_time_frame. by destruct (restarts n o).
Qed.

(** No recording call removes a stage. *)
Lemma apply_op_stage_kept (n : string) (o : op) (t : Trace.t) :
  is_Some (Trace.stages t !! n) -> is_Some (Trace.stages (apply_op o t) !! n).
Proof.
  intros Hs. destruct o; unfold_trace_ops; cbn;
    repeat match goal with
      | |- context [match Trace.stages ?x !! ?k with _ => _ end] =>
          destruct (Trace.stages x !! k) eqn:?; cbn
      | |- context [negb ?b] => destruct (negb b); cbn
      end; try done.
  all: match goal with
       | |- is_Some (<[?k := _]> _ !! ?m) =>
           destruct (decide (k = m)) as [->|];
           [rewrite lookup_insert_eq; eauto | by rewrite !lookup_insert_ne by done]
       end.
Qed.

Lemma run_stage_kept (n : string) (ops : list op) (t : Trace.t) :
  is_Some (Trace.stages t !! n) -> is_Some (Trace.stages (run ops t) !! n).
Proof.
  revert t. induction ops as [|o ops IH]; intros t Hs; [done|].
  rewrite run_cons. apply IH. by apply apply_op_stage_kept.
Qed.

Lemma end_stage_existing
    (t : Trace.t) (stage_name : string) (stage : StageTrace.t)
    (outputs : option pydict) (error : option string) (now : string) (mono : Qc) :
  Trace.stages t !! stage_name = Some stage ->
  Trace.stages (Trace.end_stage stage_name outputs error now mono t) =
  <[stage_name :=
      ended_stage outputs error now
        match Trace._stage_start_times t !! stage_name with
        | Some t0 => Some (mono - t0)%Qc
        | None => StageTrace.duration_seconds stage
        end stage]> (Trace.stages t).
Proof.
  intros Hs. unfold Trace.end_stage. rewrite Hs. cbn. f_equal.
  unfold ended_stage.
  destruct (Trace._stage_start_times t !! stage_name);
    destruct outputs as [[|kv o]|]; destruct (truthy_str error); reflexivity.
Qed.

(** C4, as the source has it. For a stage started by [start_stage] and not
    restarted since, [end_stage] sets the completion timestamp, sets the
    duration to the monotonic reading minus the one captured at start,
    REPLACES the stage's outputs by the supplied ones when these are a
    non-empty map (and keeps the outputs otherwise), stores the supplied
    error when it is a non-empty string (and keeps the error otherwise),
    and touches nothing else. *)
Theorem end_stage_on_started_stage
    (t0 : Trace.t) (stage_name start_now : string) (start_mono : Qc)
    (ops : list op) (outputs : option pydict) (error : option string)
    (now : string) (mono : Qc) :
  forallb (fun o => negb (restarts stage_name o)) ops = true ->
  let t := run ops (Trace.start_stage stage_name start_now start_mono t0) in
  let t' := Trace.end_stage stage_name outputs error now mono t in
  exists stage stage' : StageTrace.t,
    Trace.stages t !! stage_name = Some stage /\
    Trace.stages t' !! stage_name = Some stage' /\
    StageTrace.completed_at stage' = Some now /\
    StageTrace.duration_seconds stage' = Some (mono - start_mono)%Qc /\
    StageTrace.outputs stage' =
      (if truthy_dict outputs then default [] outputs
       else StageTrace.outputs stage) /\
    StageTrace.error stage' =
      (if truthy_str error then error else StageTrace.error stage) /\
    StageTrace.name stage' = StageTrace.name stage /\
    StageTrace.started_at stage' = StageTrace.started_at stage /\
    StageTrace.decisions stage' = StageTrace.decisions stage /\
    StageTrace.evidence stage' = StageTrace.evidence stage /\
    StageTrace.prompts stage' = StageTrace.prompts stage /\
    (forall n, n <> stage_name -> Trace.stages t' !! n = Trace.stages t !! n).
Proof.
  intros Hops t t'.
  assert (is_Some (Trace.stages t !! stage_name)) as [stage Hstage].
  { apply run_stage_kept. unfold Trace.start_stage. cbn.
    rewrite lookup_insert_eq. eauto. }
  assert (Trace._stage_start_times t !! stage_name = Some start_mono) as Hst.
  { unfold t. rewrite run_start_time_frame by done.
    unfold Trace.start_stage. cbn. by rewrite lookup_insert_eq. }
  pose proof (end_stage_existing t stage_name stage outputs error now mono Hstage)
    as Hend.
  rewrite Hst in Hend. fold t' in Hend.
  exists stage, (ended_stage outputs error now (Some (mono - start_mono)%Qc) stage).
  rewrite Hend, lookup_insert_eq. repeat split; try done.
  intros n Hn. by rewrite lookup_insert_ne.
Qed.

Lemma end_stage_on_started_stage_witness :
  let t := run [OpRecord "rubric" "rubric_loaded" [("what", PInt 21)] "ts1"]
             (Trace.start_stage "rubric" "ts0" (Q2Qc 10)
                (Trace.new "trc_test" None None None None None None None None
                   "in_progress" 0%Qc)) in
  let t' := Trace.end_stage "rubric" (Some [("total_principles", PInt 21)])
              None "ts2" (Q2Qc 12) t in
  exists stage stage' : StageTrace.t,
    Trace.stages t !! "rubric" = Some stage /\
    Trace.stages t' !! "rubric" = Some stage' /\
    StageTrace.completed_at stage' = Some "ts2" /\
    StageTrace.duration_seconds stage' = Some (Q2Qc 12 - Q2Qc 10)%Qc /\
    StageTrace.outputs stage' =
      (if truthy_dict (Some [("total_principles", PInt 21)])
       then default [] (Some [("total_principles", PInt 21)])
       else StageTrace.outputs stage) /\
    StageTrace.error stage' =
      (if truthy_str None then None else StageTrace.error stage) /\
    StageTrace.name stage' = StageTrace.name stage /\
    StageTrace.started_at stage' = StageTrace.started_at stage /\
    StageTrace.decisions stage' = StageTrace.decisions stage /\
    StageTrace.evidence stage' = StageTrace.evidence stage /\
    StageTrace.prompts stage' = StageTrace.prompts stage /\
    (forall n, n <> "rubric" -> Trace.stages t' !! n = Trace.stages t !! n).
Proof.
  apply (end_stage_on_started_stage _ "rubric" "ts0" (Q2Qc 10)
           [OpRecord "rubric" "rubric_loaded" [("what", PInt 21)] "ts1"]).
  reflexivity.
Defined.

(** The second [end_stage] replaces the output map: the earlier key is
    gone. *)
Lemma end_stage_replaces_outputs : ~ end_stage_merges_outputs.
Proof.
  intros Hmerge.
  destruct (Hmerge twice_ended_trace "rubric"
              (StageTrace.mk "rubric" (Some "ts0") (Some "ts1")
                 (Some (Q2Qc 11 - Q2Qc 10)%Qc) []
                 [("total_principles", PInt 21)] [] [] None)
              (Some [("passed", PBool true)]) None "ts2" (Q2Qc 12)
              "total_principles" (PInt 21))
    as (stage' & Hlook & Hget).
  - vm_compute. reflexivity.
  - vm_compute. eauto.
  - reflexivity.
  - reflexivity.
  - unfold twice_ended_trace, Trace.end_stage, Trace.start_stage in Hlook.
    cbn in Hlook. rewrite !lookup_insert_eq in Hlook. cbn in Hlook.
    rewrite !lookup_insert_eq in Hlook. cbn in Hlook.
    rewrite lookup_insert_eq in Hlook.
    injection Hlook as <-. cbn in Hget. discriminate Hget.
Qed.

(** *** Stages created by recording (C10) *)

Lemma start_times_in_stages_apply_op (o : op) (t : Trace.t) :
  start_times_in_stages t -> start_times_in_stages (apply_op o t).
Proof.
  intros Hwf n Hn.
  destruct (restarts n o) eqn:Hr.
  - destruct o; try discriminate Hr. cbn in Hr. apply String.eqb_eq in Hr as ->.
    unfold apply_op, Trace.start_stage. cbn. rewrite lookup_insert_eq. eauto.
  - rewrite apply_op_start_time_frame in Hn by done.
    by apply apply_op_stage_kept, Hwf.
Qed.

Lemma start_times_in_stages_run (ops : list op) (t : Trace.t) :
  start_times_in_stages t -> start_times_in_stages (run ops t).
Proof.
  revert t. induction ops as [|o ops IH]; intros t Hwf; [done|].
  rewrite run_cons. by apply IH, start_times_in_stages_apply_op.
Qed.

Lemma auto_creates_unstarted (n : string) (o : op) (t : Trace.t) :
  start_times_in_stages t ->
  Trace.stages t !! n = None ->
  auto_creates n o = true ->
  unstarted n (apply_op o t) /\
  exists stage, Trace.stages (apply_op o t) !! n = Some stage /\
                StageTrace.completed_at stage = None.
Proof.
  intros Hwf Hnone Hc.
  assert (Trace._stage_start_times t !! n = None) as Hst.
  { destruct (Trace._stage_start_times t !! n) eqn:E; [|done].
    destruct (Hwf n) as [? ?]; [eauto | congruence]. }
  destruct o; try discriminate Hc; cbn in Hc; apply String.eqb_eq in Hc as ->;
    unfold unstarted, apply_op, Trace.record, Trace.record_evidence,
      Trace.record_prompts, Trace.ensure_stage; rewrite Hnone; cbn;
    rewrite lookup_insert_eq; eauto 10.
Qed.

Lemma unstarted_apply_op (n : string) (o : op) (t : Trace.t) :
  restarts n o = false -> unstarted n t -> unstarted n (apply_op o t).
Proof.
  intros Hr (Hst & stage & Hs & Hsa & Hdur). split.
  { by rewrite apply_op_start_time_frame. }
  destruct o; unfold_trace_ops; cbn;
    try (destruct (negb _); cbn; by eauto); try by eauto.
  - cbn in Hr. apply String.eqb_neq in Hr.
    rewrite lookup_insert_ne by done. eauto.
  - destruct (decide (stage_name = n)) as [->|Hne].
    + rewrite Hs, Hst. cbn. rewrite lookup_insert_eq. eexists. split; [done|].
      destruct outputs as [[|? ?]|]; destruct (truthy_str error); cbn; done.
    + destruct (Trace.stages t !! stage_name); cbn; eauto.
      rewrite lookup_insert_ne by done. eauto.
  - destruct (decide (stage_name = n)) as [->|Hne].
    + rewrite Hs. cbn. rewrite lookup_insert_eq. eauto.
    + destruct (Trace.stages t !! stage_name); cbn;
        rewrite !lookup_insert_ne by done; eauto.
  - destruct (decide (stage_name = n)) as [->|Hne].
    + rewrite Hs. cbn. rewrite lookup_insert_eq. eauto.
    + destruct (Trace.stages t !! stage_name); cbn;
        rewrite !lookup_insert_ne by done; eauto.
  - destruct (decide (stage_name = n)) as [->|Hne].
    + rewrite Hs. cbn. rewrite lookup_insert_eq. eauto.
    + destruct (Trace.stages t !! stage_name); cbn;
        rewrite !lookup_insert_ne by done; eauto.
Qed.

Lemma unstarted_run (n : string) (ops : list op) (t : Trace.t) :
  forallb (fun o => negb (restarts n o)) ops = true ->
  unstarted n t -> unstarted n (run ops t).
Proof.
  revert t. induction ops as [|o ops IH]; intros t Hall Hu; [done|].
  cbn in Hall. apply andb_true_iff in Hall as [Ho Hall].
  rewrite run_cons. apply IH; [done|].
  apply unstarted_apply_op; [by destruct (restarts n o) | done].
Qed.

(** C10. On a trace built by the recording API, a stage created by
    [record], [record_evidence] or [record_prompts] has no start timestamp
    and no captured monotonic start instant; as long as it is not started
    explicitly, an [end_stage] on it sets the completion timestamp (the
    call is total: nothing is raised) and leaves [duration_seconds] null. *)
Theorem auto_created_stage_end_has_no_duration
    (trace_id : string)
    (project_id project_name query intent domain report_type research_type
     started_at : option string) (status : string) (start_time : Qc)
    (before : list op) (creating : op) (later : list op)
    (stage_name : string) (outputs : option pydict) (error : option string)
    (now : string) (mono : Qc) :
  let t := run before (Trace.new trace_id project_id project_name query intent
                         domain report_type research_type started_at status
                         start_time) in
  let t1 := apply_op creating t in
  let t2 := Trace.end_stage stage_name outputs error now mono (run later t1) in
  Trace.stages t !! stage_name = None ->
  auto_creates stage_name creating = true ->
  forallb (fun o => negb (restarts stage_name o)) later = true ->
  (exists created,
      Trace.stages t1 !! stage_name = Some created /\
      StageTrace.started_at created = None /\
      StageTrace.completed_at created = None /\
      StageTrace.duration_seconds created = None) /\
  Trace._stage_start_times t1 !! stage_name = None /\
  (exists ended,
      Trace.stages t2 !! stage_name = Some ended /\
      StageTrace.started_at ended = None /\
      StageTrace.completed_at ended = Some now /\
      StageTrace.duration_seconds ended = None).
Proof.
  intros t t1 t2 Hnone Hc Hlater.
  assert (start_times_in_stages t) as Hwf.
  { apply start_times_in_stages_run. intros n [x Hx]. cbn in Hx.
    by rewrite lookup_empty in Hx. }
  destruct (auto_creates_unstarted stage_name creating t Hwf Hnone Hc)
    as [Hu (created & Hcr & Hcompl)].
  fold t1 in Hu, Hcr.
  pose proof Hu as (Hst1 & created' & Hcr' & Hsa & Hdur).
  rewrite Hcr in Hcr'. injection Hcr' as <-.
  split; [eauto 10|]. split; [done|].
  destruct (unstarted_run stage_name later t1 Hlater Hu)
    as (Hst2 & stage & Hs & Hsa2 & Hdur2).
  pose proof (end_stage_existing (run later t1) stage_name stage outputs error
                now mono Hs) as Hend.
  rewrite Hst2 in Hend. fold t2 in Hend.
  eexists. rewrite Hend, lookup_insert_eq. split; [done|]. cbn. done.
Qed.

Lemma auto_created_stage_end_has_no_duration_witness :
  let t := run [OpStartStage "intake" "ts0" (Q2Qc 3)]
             (Trace.new "trc_test" None None None None None None None None
                "in_progress" 1%Qc) in
  let t1 := apply_op (OpRecord "synthesis" "model_selected"
                        [("what", PStr "large")] "ts1") t in
  let t2 := Trace.end_stage "synthesis" (Some [("tokens", PInt 9)]) None "ts3"
              (Q2Qc 7)
              (run [OpRecordEvidence "synthesis" [("kept", PInt 4)];
                    OpEndStage "intake" None None "ts2" (Q2Qc 5)] t1) in
  (exists created,
      Trace.stages t1 !! "synthesis" = Some created /\
      StageTrace.started_at created = None /\
      StageTrace.completed_at created = None /\
      StageTrace.duration_seconds created = None) /\
  Trace._stage_start_times t1 !! "synthesis" = None /\
  (exists ended,
      Trace.stages t2 !! "synthesis" = Some ended /\
      StageTrace.started_at ended = None /\
      StageTrace.completed_at ended = Some "ts3" /\
      StageTrace.duration_seconds ended = None).
Proof.
  apply (auto_created_stage_end_has_no_duration "trc_test" None None None None
           None None None None "in_progress" 1%Qc
           [OpStartStage "intake" "ts0" (Q2Qc 3)]
           (OpRecord "synthesis" "model_selected" [("what", PStr "large")] "ts1")
           [OpRecordEvidence "synthesis" [("kept", PInt 4)];
            OpEndStage "intake" None None "ts2" (Q2Qc 5)]
           "synthesis").
  - vm_compute. reflexivity.
  - reflexivity.
  - reflexivity.
Defined.

(** ** Trace identifiers (C9) *)

Lemma string_append_cons (c : ascii) (s1 s2 : string) :
  String c s1 ++ s2 = String c (s1 ++ s2).
Proof. reflexivity. Qed.

Lemma string_append_assoc (s1 s2 s3 : string) :
  (s1 ++ s2) ++ s3 = s1 ++ (s2 ++ s3).
Proof.
  induction s1 as [|c s1 IH]; [done|].
  by rewrite !string_append_cons, IH.
Qed.

Lemma string_length_append (s1 s2 : string) :
  String.length (s1 ++ s2) = (String.length s1 + String.length s2)%nat.
Proof.
  induction s1 as [|c s1 IH]; [done|].
  rewrite string_append_cons. cbn. by rewrite IH.
Qed.

Lemma all_chars_append (p : ascii -> bool) (s1 s2 : string) :
  all_chars p (s1 ++ s2) = all_chars p s1 && all_chars p s2.
Proof.
  unfold all_chars. induction s1 as [|c s1 IH]; [done|].
  rewrite string_append_cons. cbn. by rewrite IH, andb_assoc.
Qed.

Lemma prefix_slice_length (n : nat) (s : string) :
  String.length (prefix_slice n s) = Nat.min n (String.length s).
Proof.
  unfold prefix_slice. revert s.
  induction n as [|n IH]; intros [|c s]; cbn; try done. by rewrite IH.
Qed.

Lemma all_chars_prefix_slice (p : ascii -> bool) (n : nat) (s : string) :
  all_chars p s = true -> all_chars p (prefix_slice n s) = true.
Proof.
  unfold all_chars, prefix_slice. revert s.
  induction n as [|n IH]; intros [|c s]; cbn; try done.
  intros [Hc Hs]%andb_true_iff. rewrite Hc. cbn. by apply IH.
Qed.

Lemma is_digit_digit_char (k : N) : (k < 10)%N -> is_digit (digit_char k) = true.
Proof.
  intros Hk. unfold is_digit, digit_char.
  rewrite N_ascii_embedding by lia.
  apply andb_true_iff. split; apply N.leb_le; lia.
Qed.

Lemma is_lower_hex_hex_char (k : N) :
  (k < 16)%N -> is_lower_hex (hex_char k) = true.
Proof.
  intros Hk. unfold is_lower_hex, hex_char.
  destruct (N.ltb_spec k 10); rewrite N_ascii_embedding by lia;
    apply orb_true_iff; [left | right];
    apply andb_true_iff; split; apply N.leb_le; lia.
Qed.

Lemma decw_length (w : nat) (n : N) : String.length (decw w n) = w.
Proof.
  revert n. induction w as [|w IH]; intros n; cbn; [done|].
  rewrite string_length_append, IH. cbn. lia.
Qed.

Lemma decw_digits (w : nat) (n : N) : all_chars is_digit (decw w n) = true.
Proof.
  revert n. induction w as [|w IH]; intros n; cbn [decw]; [done|].
  rewrite all_chars_append, IH. unfold all_chars. cbn.
  rewrite is_digit_digit_char; [done|]. apply N.mod_lt. lia.
Qed.

Lemma hexw_length (w : nat) (n : N) : String.length (hexw w n) = w.
Proof.
  revert n. induction w as [|w IH]; intros n; cbn; [done|].
  rewrite string_length_append, IH. cbn. lia.
Qed.

Lemma hexw_lower_hex (w : nat) (n : N) :
  all_chars is_lower_hex (hexw w n) = true.
Proof.
  revert n. induction w as [|w IH]; intros n; cbn [hexw]; [done|].
  rewrite all_chars_append, IH. unfold all_chars. cbn.
  rewrite is_lower_hex_hex_char; [done|]. apply N.mod_lt. lia.
Qed.

Lemma make_trace_id_format (now : datetime) (uuid4 : N) :
  trace_id_format (make_trace_id now uuid4).
Proof.
  exists (decw 4 (year now) ++ decw 2 (month now) ++ decw 2 (day now)),
         (decw 2 (hour now) ++ decw 2 (minute now) ++ decw 2 (second now)),
         (prefix_slice 8 (uuid_hex uuid4)).
  split.
  { unfold make_trace_id, strftime_Ymd_HMS.
    by rewrite !string_append_assoc. }
  rewrite !string_length_append, !decw_length, !all_chars_append, !decw_digits.
  rewrite prefix_slice_length. unfold uuid_hex. rewrite hexw_length.
  rewrite all_chars_prefix_slice by apply hexw_lower_hex.
  done.
Qed.

Lemma same_identity_refl (t : Trace.t) : same_identity t t.
Proof. by split. Qed.

Lemma same_identity_trans (t1 t2 t3 : Trace.t) :
  same_identity t1 t2 -> same_identity t2 t3 -> same_identity t1 t3.
Proof. intros [? ?] [? ?]. split; congruence. Qed.

Lemma update_same_identity (v : pyval) (s : Calibration.state) :
  same_identity (fst s) (fst (Calibration.update v s)).
Proof.
  destruct s as [t [|w]]; unfold Calibration.update; cbn; [|by split].
  unfold Calibration.set_qg_outputs.
  destruct (Trace.stages t !! "quality_gate"); by split.
Qed.

Lemma keeps_identity_ret {A : Type} (a : A) : keeps_identity (Calibration.ret a).
Proof. intros s. apply same_identity_refl. Qed.

Lemma keeps_identity_lift {A : Type} (o : outcome A) :
  keeps_identity (Calibration.lift o).
Proof. intros s. apply same_identity_refl. Qed.

Lemma keeps_identity_bind {A B : Type} (m : Calibration.M A)
    (k : A -> Calibration.M B) :
  keeps_identity m -> (forall a, keeps_identity (k a)) ->
  keeps_identity (Calibration.bind m k).
Proof.
  intros Hm Hk s. unfold Calibration.bind.
  specialize (Hm s). destruct (m s) as [[a|e] s']; cbn in *; [|done].
  eapply same_identity_trans; [exact Hm | apply Hk].
Qed.

Lemma keeps_identity_for_each {A : Type} (body : A -> Calibration.M unit)
    (l : list A) :
  (forall x, keeps_identity (body x)) ->
  keeps_identity (Calibration.for_each body l).
Proof.
  intros Hbody. induction l as [|x l IH]; cbn.
  - apply keeps_identity_ret.
  - apply keeps_identity_bind; [apply Hbody | intros _; apply IH].
Qed.

Lemma keeps_identity_not_in_gaps (pid : pyval) :
  keeps_identity (Calibration.not_in_gaps pid).
Proof.
  intros s. unfold Calibration.not_in_gaps.
  destruct (py_contains _ _); apply same_identity_refl.
Qed.

Lemma keeps_identity_append_gap (pid : pyval) :
  keeps_identity (Calibration.append_gap pid).
Proof.
  intros s. unfold Calibration.append_gap.
  destruct (py_append _ _); cbn;
    [apply update_same_identity | apply same_identity_refl].
Qed.

Create HintDb identity.
#[local] Hint Resolve keeps_identity_ret keeps_identity_lift
  keeps_identity_not_in_gaps keeps_identity_append_gap : identity.

Lemma keeps_identity_scan_scores (principle_scores : option pyval) :
  keeps_identity (Calibration.scan_scores principle_scores).
Proof.
  destruct principle_scores as [[]|]; cbn; auto with identity;
    apply keeps_identity_for_each.
  - intros [] ; cbn; auto with identity.
    apply keeps_identity_bind; [auto with identity|].
    intros [|]; [|auto with identity].
    destruct (truthy _); [|auto with identity].
    apply keeps_identity_bind; [auto with identity|].
    intros [|]; auto with identity.
  - intros [pid score]. cbn.
    apply keeps_identity_bind; [auto with identity|].
    intros [|]; [|auto with identity].
    apply keeps_identity_bind; [auto with identity|].
    intros [|]; auto with identity.
Qed.

Lemma check_calibration_flags_same_identity (d : Calibration.db) (t : Trace.t) :
  same_identity t (snd (Calibration.check_calibration_flags d t)).
Proof.
  unfold Calibration.check_calibration_flags.
  destruct (Trace.stages t !! "quality_gate"); [|apply same_identity_refl].
  match goal with
  | |- context [Calibration.scan_scores ?ps ?s] =>
      pose proof (keeps_identity_scan_scores ps s) as Hk;
      destruct (Calibration.scan_scores ps s) as [[u|e] s']
  end; cbn in *; [|done].
  destruct (py_iter _); done.
Qed.

(** ** [TraceContext.finish] (C5, C8, C9) *)

Lemma demoted_trace_id (now : string) (mono : Qc) (t : Trace.t) :
  Trace.trace_id (demoted now mono t) = Trace.trace_id t.
Proof.
  unfold demoted. destruct (String.eqb _ _); [|done].
  apply (apply_op_trace_id (OpMarkIncomplete now mono)).
Qed.

Lemma finish_unfold (e : TraceContext.env) (t : Trace.t) (verbose : bool)
    (now : string) (mono : Qc) :
  let p0 :=
    {| TraceContext.result :=
         <["status" := TraceContext.VStr (Trace.status (demoted now mono t))]>
           (<["trace_id" :=
                TraceContext.VStr (Trace.trace_id (demoted now mono t))]> ∅);
       TraceContext.trace := demoted now mono t;
       TraceContext.calls := [] |} in
  let p := post_persist e verbose
             (TraceContext.step_write_metadata e
                (TraceContext.step_write_file e p0)) in
  TraceContext.finish e (TraceObj t) verbose now mono =
  {| TraceContext.returned := TraceContext.result p;
     TraceContext.trace_after := TraceObj (TraceContext.trace p);
     TraceContext.current_after := None;
     TraceContext.external_calls := TraceContext.calls p |}.
Proof. reflexivity. Qed.

(** The later steps write only their own keys of the result map, extend
    the list of calls, and keep the identifier and status of the trace. *)
Lemma post_persist_frame (e : TraceContext.env) (verbose : bool)
    (p : TraceContext.progress) :
  let p' := post_persist e verbose p in
  (forall k, k <> "summary_file" -> k <> "calibration_flags" ->
             k <> "flagged_for_review" ->
             TraceContext.result p' !! k = TraceContext.result p !! k) /\
  (exists rest, TraceContext.calls p' =
                (TraceContext.calls p ++
                 [TraceContext.CallPrintSummary verbose;
                  TraceContext.CallWriteSummaryFile;
                  TraceContext.CallCheckCalibrationFlags] ++ rest)%list) /\
  same_identity (TraceContext.trace p) (TraceContext.trace p').
Proof.
  unfold post_persist, TraceContext.step_calibration,
    TraceContext.step_summary_file, TraceContext.step_print_summary.
  cbn.
  destruct (TraceContext.print_summary e verbose (TraceContext.trace p)); cbn.
  all: destruct (TraceContext.write_summary_file e (TraceContext.trace p))
         as [[path|]|]; cbn.
  all: pose proof (check_calibration_flags_same_identity
                     (TraceContext.calibration_db e) (TraceContext.trace p)) as Hid.
  all: destruct (Calibration.check_calibration_flags
                   (TraceContext.calibration_db e) (TraceContext.trace p))
         as [[[|f flags]|ex] t']; cbn in *.
  all: try destruct (TraceContext.print_flags e (f :: flags)); cbn.
  all: try destruct (TraceContext.set_flagged_for_review e (Trace.trace_id t'));
         cbn.
  all: try destruct (TraceContext._write_calibration_alert_file e t' (f :: flags));
         cbn.
  all: (split; [intros k H1 H2 H3; by rewrite ?lookup_insert_ne by done|]).
  all: (split; [|done]).
  all: rewrite <- ?app_assoc; cbn; eauto.
Qed.

(** C5. When the artifact-file write raises, [finish] records the message
    under [file_error] (and no [file_path]), still calls the row write
    right after it and records its outcome, clears the current binding, and
    returns a map with the trace identifier and the final status. *)
Theorem finish_isolates_file_write_failure
    (e : TraceContext.env) (t : Trace.t) (verbose : bool) (now : string)
    (mono : Qc) (ex : exn) :
  TraceContext.write_trace_file e (demoted now mono t) = Raised ex ->
  let r := TraceContext.finish e (TraceObj t) verbose now mono in
  TraceContext.returned r !! "file_error" = Some (TraceContext.VStr (exn_msg ex)) /\
  TraceContext.returned r !! "file_path" = None /\
  (exists rest,
      TraceContext.external_calls r =
      TraceContext.CallWriteTraceFile :: TraceContext.CallWriteTraceMetadata
        :: rest) /\
  match TraceContext.write_trace_metadata e (demoted now mono t) with
  | Returned _ =>
      TraceContext.returned r !! "supabase" = Some (TraceContext.VStr "saved")
  | Raised ex' =>
      TraceContext.returned r !! "supabase_error" =
      Some (TraceContext.VStr (exn_msg ex'))
  end /\
  TraceContext.current_after r = None /\
  TraceContext.returned r !! "trace_id" = Some (TraceContext.VStr (Trace.trace_id t)) /\
  TraceContext.returned r !! "status" =
    Some (TraceContext.VStr (Trace.status (demoted now mono t))) /\
  Trace.status (obj_state (TraceContext.trace_after r)) =
    Trace.status (demoted now mono t).
Proof.
  intros Hfile r. unfold r. rewrite finish_unfold. cbn zeta.
  match goal with
  | |- context [post_persist e verbose ?p] =>
      destruct (post_persist_frame e verbose p) as (Hres & [rest Hcalls] & Hid);
      cbn zeta in Hres, Hcalls, Hid; set (q := p) in *
  end.
  assert (TraceContext.trace q = demoted now mono t) as Htr.
  { unfold q, TraceContext.step_write_metadata, TraceContext.step_write_file.
    cbn. rewrite Hfile. cbn.
    by destruct (TraceContext.write_trace_metadata e (demoted now mono t)). }
  assert (TraceContext.calls q =
          [TraceContext.CallWriteTraceFile; TraceContext.CallWriteTraceMetadata])
    as Hq.
  { unfold q, TraceContext.step_write_metadata, TraceContext.step_write_file.
    cbn. rewrite Hfile. cbn.
    by destruct (TraceContext.write_trace_metadata e (demoted now mono t)). }
  assert (forall k,
             TraceContext.result q !! k =
             (<[match TraceContext.write_trace_metadata e (demoted now mono t) with
                | Returned _ => "supabase"
                | Raised _ => "supabase_error"
                end :=
                  match TraceContext.write_trace_metadata e (demoted now mono t) with
                  | Returned _ => TraceContext.VStr "saved"
                  | Raised ex' => TraceContext.VStr (exn_msg ex')
                  end]>
                (<["file_error" := TraceContext.VStr (exn_msg ex)]>
                   (<["status" :=
                        TraceContext.VStr (Trace.status (demoted now mono t))]>
                      (<["trace_id" :=
                           TraceContext.VStr (Trace.trace_id (demoted now mono t))]>
                         (∅ : gmap string TraceContext.value)))))
             !! k) as Hq_res.
  { intros k. unfold q, TraceContext.step_write_metadata,
      TraceContext.step_write_file. cbn. rewrite Hfile. cbn.
    by destruct (TraceContext.write_trace_metadata e (demoted now mono t)). }
  cbn [TraceContext.returned TraceContext.external_calls
       TraceContext.current_after TraceContext.trace_after obj_state].
  rewrite !Hres by done. rewrite !Hq_res, Hcalls, Hq.
  destruct Hid as [_ Hstatus]. rewrite Htr in Hstatus.
  rewrite demoted_trace_id.
  destruct (TraceContext.write_trace_metadata e (demoted now mono t));
    repeat split; try done; cbn; eauto.
Qed.

Lemma finish_isolates_file_write_failure_witness :
  let ex := Exn "OSError" "No space left on device" in
  let t := running_trace in
  let r := TraceContext.finish disk_full_env (TraceObj t) false
             "2026-02-13T12:05:00+00:00" (Q2Qc 301) in
  TraceContext.returned r !! "file_error" = Some (TraceContext.VStr (exn_msg ex)) /\
  TraceContext.returned r !! "file_path" = None /\
  (exists rest,
      TraceContext.external_calls r =
      TraceContext.CallWriteTraceFile :: TraceContext.CallWriteTraceMetadata
        :: rest) /\
  match TraceContext.write_trace_metadata disk_full_env
          (demoted "2026-02-13T12:05:00+00:00" (Q2Qc 301) t) with
  | Returned _ =>
      TraceContext.returned r !! "supabase" = Some (TraceContext.VStr "saved")
  | Raised ex' =>
      TraceContext.returned r !! "supabase_error" =
      Some (TraceContext.VStr (exn_msg ex'))
  end /\
  TraceContext.current_after r = None /\
  TraceContext.returned r !! "trace_id" = Some (TraceContext.VStr (Trace.trace_id t)) /\
  TraceContext.returned r !! "status" =
    Some (TraceContext.VStr
            (Trace.status (demoted "2026-02-13T12:05:00+00:00" (Q2Qc 301) t))) /\
  Trace.status (obj_state (TraceContext.trace_after r)) =
    Trace.status (demoted "2026-02-13T12:05:00+00:00" (Q2Qc 301) t).
Proof.
  apply (finish_isolates_file_write_failure disk_full_env running_trace false
           "2026-02-13T12:05:00+00:00" (Q2Qc 301)
           (Exn "OSError" "No space left on device")).
  reflexivity.
Defined.

(** C8. With tracing disabled [start] returns the no-op trace; every
    recording call on it returns it with its state unchanged; [finish] on
    it clears the binding, makes no external call, and returns the "not
    saved" map, which has no [file_path]. *)
Theorem noop_trace_is_inert :
  (forall (project_id project_name query intent domain report_type
           research_type : option string) (now_id : datetime) (uuid4 : N)
          (started_at : string) (mono : Qc),
      TraceContext.start project_id project_name query intent domain
        report_type research_type false now_id uuid4 started_at mono =
      (NoOpTraceObj NoOpTrace.new, Some (NoOpTraceObj NoOpTrace.new))) /\
  (forall (c : op) (state : Trace.t),
      call c (NoOpTraceObj state) = NoOpTraceObj state) /\
  (forall (cs : list op) (state : Trace.t),
      fold_left (fun o c => call c o) cs (NoOpTraceObj state) =
      NoOpTraceObj state) /\
  (forall (e : TraceContext.env) (state : Trace.t) (verbose : bool)
          (now : string) (mono : Qc),
      let r := TraceContext.finish e (NoOpTraceObj state) verbose now mono in
      TraceContext.returned r !! "saved" = Some (TraceContext.VBool false) /\
      TraceContext.returned r !! "reason" =
        Some (TraceContext.VStr "tracing_disabled") /\
      TraceContext.returned r !! "file_path" = None /\
      dom (TraceContext.returned r) = {["saved"; "reason"]} /\
      TraceContext.trace_after r = NoOpTraceObj state /\
      TraceContext.external_calls r = [] /\
      TraceContext.current_after r = None).
Proof.
  assert (forall (c : op) (state : Trace.t),
             call c (NoOpTraceObj state) = NoOpTraceObj state) as Hcall.
  { intros [] state; reflexivity. }
  repeat split; try done.
  - intros cs state. induction cs as [|c cs IH]; [done|].
    cbn [fold_left]. by rewrite Hcall.
Qed.

(** C9. The identifier [start] gives a trace has the format [trc_], eight
    digits, [_], six digits, [_], eight lowercase hexadecimal characters
    (the clock reading having a four-digit year), and neither a recording
    call nor [finish] assigns it again. *)
Theorem trace_id_format_and_stability
    (project_id project_name query intent domain report_type research_type
     : option string) (now_id : datetime) (uuid4 : N) (started_at : string)
    (mono : Qc) :
  valid_datetime now_id ->
  exists t : Trace.t,
    TraceContext.start project_id project_name query intent domain
      report_type research_type true now_id uuid4 started_at mono =
    (TraceObj t, Some (TraceObj t)) /\
    Trace.trace_id t = make_trace_id now_id uuid4 /\
    trace_id_format (Trace.trace_id t) /\
    (forall ops : list op, Trace.trace_id (run ops t) = Trace.trace_id t) /\
    (forall (ops : list op) (e : TraceContext.env) (verbose : bool)
            (now : string) (mono' : Qc),
        Trace.trace_id
          (obj_state
             (TraceContext.trace_after
                (TraceContext.finish e (TraceObj (run ops t)) verbose now mono')))
        = Trace.trace_id t).
Proof.
  intros _. eexists. split; [reflexivity|]. cbn [Trace.trace_id Trace.new].
  split; [done|]. split; [apply make_trace_id_format|].
  split.
  - intros ops. by rewrite run_trace_id.
  - intros ops e verbose now mono'. rewrite finish_unfold. cbn zeta.
    cbn [TraceContext.trace_after obj_state].
    match goal with
    | |- context [post_persist e verbose ?p] =>
        destruct (post_persist_frame e verbose p) as (_ & _ & [Hid _]);
        cbn zeta in Hid; rewrite Hid
    end.
    unfold TraceContext.step_write_metadata, TraceContext.step_write_file. cbn.
    destruct (TraceContext.write_trace_file e _); cbn;
      destruct (TraceContext.write_trace_metadata e _); cbn;
      by rewrite demoted_trace_id, run_trace_id.
Qed.

Lemma trace_id_format_and_stability_witness :
  exists t : Trace.t,
    TraceContext.start None (Some "cobot") (Some "q") (Some "validating") None
      None None true
      {| year := 2026; month := 2; day := 13; hour := 9; minute := 5;
         second := 0 |}
      0xdeadbeef000000000000000000000001 "2026-02-13T09:05:00+00:00" 1%Qc =
    (TraceObj t, Some (TraceObj t)) /\
    Trace.trace_id t =
      make_trace_id
        {| year := 2026; month := 2; day := 13; hour := 9; minute := 5;
           second := 0 |} 0xdeadbeef000000000000000000000001 /\
    trace_id_format (Trace.trace_id t) /\
    (forall ops : list op, Trace.trace_id (run ops t) = Trace.trace_id t) /\
    (forall (ops : list op) (e : TraceContext.env) (verbose : bool)
            (now : string) (mono' : Qc),
        Trace.trace_id
          (obj_state
             (TraceContext.trace_after
                (TraceContext.finish e (TraceObj (run ops t)) verbose now mono')))
        = Trace.trace_id t).
Proof.
  apply (trace_id_format_and_stability None (Some "cobot") (Some "q")
           (Some "validating") None None None
           {| year := 2026; month := 2; day := 13; hour := 9; minute := 5;
              second := 0 |}).
  unfold valid_datetime. cbn. lia.
Defined.

Example trace_id_example :
  make_trace_id
    {| year := 2026; month := 2; day := 13; hour := 9; minute := 5; second := 0 |}
    0xdeadbeef000000000000000000000001 = "trc_20260213_090500_deadbeef".
Proof. vm_compute. reflexivity. Qed.

(** ** [TraceQuery.compare] (C7) *)

Lemma sorted_is_sorted (s : gset string) :
  Sorted String.le (TraceQuery.sorted s).
Proof. apply Sorted_merge_sort; apply _. Qed.

Lemma sorted_elements (s : gset string) (x : string) :
  x ∈ TraceQuery.sorted s <-> x ∈ s.
Proof.
  unfold TraceQuery.sorted. rewrite merge_sort_Permutation. apply elem_of_elements.
Qed.

Lemma delta_swap (x y : option Qc) :
  TraceQuery.delta y x = Qcopp <$> TraceQuery.delta x y.
Proof.
  destruct x as [x|], y as [y|]; cbn; try done. f_equal. ring.
Qed.

(** C7. For two stored rows whose quality scores are not null,
    [compare(b, a)] has the negated quality delta of [compare(a, b)]; the
    duration and cost deltas are negated likewise (or null on both sides);
    the a-only and b-only gap lists are exchanged and the list of common
    gaps is the same. *)
Theorem compare_swap
    (fetch_one : string -> option TraceQuery.row) (id_a id_b : string)
    (row_a row_b : TraceQuery.row) (score_a score_b : Qc) :
  fetch_one id_a = Some row_a ->
  fetch_one id_b = Some row_b ->
  TraceQuery.overall_quality_score row_a = Some score_a ->
  TraceQuery.overall_quality_score row_b = Some score_b ->
  exists ab ba : TraceQuery.comparison,
    TraceQuery.compare fetch_one id_a id_b = TraceQuery.Compared ab /\
    TraceQuery.compare fetch_one id_b id_a = TraceQuery.Compared ba /\
    TraceQuery.quality_delta ab = Some (score_b - score_a)%Qc /\
    TraceQuery.quality_delta ba = Some (- (score_b - score_a))%Qc /\
    TraceQuery.duration_delta ba = Qcopp <$> TraceQuery.duration_delta ab /\
    TraceQuery.cost_delta ba = Qcopp <$> TraceQuery.cost_delta ab /\
    TraceQuery.gaps_a_only ba = TraceQuery.gaps_b_only ab /\
    TraceQuery.gaps_b_only ba = TraceQuery.gaps_a_only ab /\
    TraceQuery.gaps_both ba = TraceQuery.gaps_both ab.
Proof.
  intros Ha Hb Hsa Hsb. unfold TraceQuery.compare. rewrite Ha, Hb.
  do 2 eexists. split; [reflexivity|]. split; [reflexivity|]. cbn.
  rewrite Hsa, Hsb. cbn. repeat split.
  - f_equal. ring.
  - apply delta_swap.
  - apply delta_swap.
  - f_equal. apply (comm_L (∩)).
Qed.

Lemma compare_swap_witness :
  exists ab ba : TraceQuery.comparison,
    TraceQuery.compare store_example "trc_a" "trc_b" = TraceQuery.Compared ab /\
    TraceQuery.compare store_example "trc_b" "trc_a" = TraceQuery.Compared ba /\
    TraceQuery.quality_delta ab = Some (Q2Qc (28 # 10) - Q2Qc 2)%Qc /\
    TraceQuery.quality_delta ba = Some (- (Q2Qc (28 # 10) - Q2Qc 2))%Qc /\
    TraceQuery.duration_delta ba = Qcopp <$> TraceQuery.duration_delta ab /\
    TraceQuery.cost_delta ba = Qcopp <$> TraceQuery.cost_delta ab /\
    TraceQuery.gaps_a_only ba = TraceQuery.gaps_b_only ab /\
    TraceQuery.gaps_b_only ba = TraceQuery.gaps_a_only ab /\
    TraceQuery.gaps_both ba = TraceQuery.gaps_both ab.
Proof.
  apply (compare_swap store_example "trc_a" "trc_b" row_a_example row_b_example);
    reflexivity.
Defined.

Example compare_example_gaps :
  match TraceQuery.compare store_example "trc_a" "trc_b" with
  | TraceQuery.Compared c =>
      TraceQuery.gaps_a_only c = ["META-5"] /\
      TraceQuery.gaps_b_only c = ["MR-1"] /\
      TraceQuery.gaps_both c = ["META-12"]
  | TraceQuery.Error _ => False
  end.
Proof. vm_compute. done. Qed.

(** ** [check_calibration_flags] (C2, C3) *)

(** *** The analyzer writes to the trace through an alias (C2) *)

(** C2 fails on the code. The stage's explicit gap list is non-empty, so
    the local [gap_principles] is that very list; the low-scoring [MR-1] is
    appended to it, and after the call the trace's quality-gate outputs
    hold a longer [gap_principles] list than before, whatever the
    historical lookups answer. *)
Theorem check_calibration_flags_extends_gap_principles (d : Calibration.db) :
  let before := aliased_gap_trace in
  let after := snd (Calibration.check_calibration_flags d before) in
  dict_get "gap_principles" (Calibration.qg_outputs before) =
    Some (PList [PStr "META-12"]) /\
  dict_get "gap_principles" (Calibration.qg_outputs after) =
    Some (PList [PStr "META-12"; PStr "MR-1"]) /\
  after <> before.
Proof.
  intros before after.
  assert (dict_get "gap_principles" (Calibration.qg_outputs before) =
          Some (PList [PStr "META-12"])) as Hb by (vm_compute; reflexivity).
  assert (dict_get "gap_principles" (Calibration.qg_outputs after) =
          Some (PList [PStr "META-12"; PStr "MR-1"])) as Ha
    by (vm_compute; reflexivity).
  split; [exact Hb|]. split; [exact Ha|].
  intros Heq. rewrite Heq, Hb in Ha. discriminate Ha.
Qed.

Lemma fresh_keeps_trace_bind {A B : Type} (m : Calibration.M A)
    (k : A -> Calibration.M B) :
  fresh_keeps_trace m -> (forall a, fresh_keeps_trace (k a)) ->
  fresh_keeps_trace (Calibration.bind m k).
Proof.
  intros Hm Hk t v. unfold Calibration.bind.
  destruct (Hm t v) as [v' Hv'].
  destruct (m (t, Calibration.Fresh v)) as [[a|e] s']; cbn in *; subst s'.
  - apply Hk.
  - eauto.
Qed.

Lemma fresh_keeps_trace_for_each {A : Type} (body : A -> Calibration.M unit)
    (l : list A) :
  (forall x, fresh_keeps_trace (body x)) ->
  fresh_keeps_trace (Calibration.for_each body l).
Proof.
  intros Hbody. induction l as [|x l IH]; cbn.
  - intros t v. cbn. eauto.
  - apply fresh_keeps_trace_bind; [apply Hbody | intros _; apply IH].
Qed.

Lemma fresh_keeps_trace_ret {A : Type} (a : A) :
  fresh_keeps_trace (Calibration.ret a).
Proof. intros t v. cbn. eauto. Qed.

Lemma fresh_keeps_trace_lift {A : Type} (o : outcome A) :
  fresh_keeps_trace (Calibration.lift o).
Proof. intros t v. cbn. eauto. Qed.

Lemma fresh_keeps_trace_not_in_gaps (pid : pyval) :
  fresh_keeps_trace (Calibration.not_in_gaps pid).
Proof.
  intros t v. unfold Calibration.not_in_gaps.
  destruct (py_contains _ _); cbn; eauto.
Qed.

Lemma fresh_keeps_trace_append_gap (pid : pyval) :
  fresh_keeps_trace (Calibration.append_gap pid).
Proof.
  intros t v. unfold Calibration.append_gap.
  destruct (py_append _ _); cbn; eauto.
Qed.

Create HintDb fresh.
#[local] Hint Resolve fresh_keeps_trace_ret fresh_keeps_trace_lift
  fresh_keeps_trace_not_in_gaps fresh_keeps_trace_append_gap : fresh.

Lemma fresh_keeps_trace_scan_scores (principle_scores : option pyval) :
  fresh_keeps_trace (Calibration.scan_scores principle_scores).
Proof.
  destruct principle_scores as [[]|]; cbn; auto with fresh;
    apply fresh_keeps_trace_for_each.
  - intros [] ; cbn; auto with fresh.
    apply fresh_keeps_trace_bind; [auto with fresh|].
    intros [|]; [|auto with fresh].
    destruct (truthy _); [|auto with fresh].
    apply fresh_keeps_trace_bind; [auto with fresh|].
    intros [|]; auto with fresh.
  - intros [pid score]. cbn.
    apply fresh_keeps_trace_bind; [auto with fresh|].
    intros [|]; [|auto with fresh].
    apply fresh_keeps_trace_bind; [auto with fresh|].
    intros [|]; auto with fresh.
Qed.

Lemma check_calibration_flags_frame_without_gap_list
    (d : Calibration.db) (t : Trace.t) :
  truthy (dict_get_default "gap_principles" PNone (Calibration.qg_outputs t))
    = false ->
  snd (Calibration.check_calibration_flags d t) = t.
Proof.
  intros Hgap. unfold Calibration.check_calibration_flags.
  destruct (Trace.stages t !! "quality_gate"); [|done].
  rewrite Hgap.
  match goal with
  | |- context [Calibration.scan_scores ?ps (t, Calibration.Fresh ?v)] =>
      destruct (fresh_keeps_trace_scan_scores ps t v) as [v' Hv'];
      destruct (Calibration.scan_scores ps (t, Calibration.Fresh v))
        as [[u|e] s']
  end; cbn in *; subst s'; cbn; [|done].
  by destruct (py_iter v').
Qed.

(** *** A score that is not a number makes the analyzer raise (C3) *)

(** C3 fails on the code. The comparison [score < 2] is made outside
    every [try]; on a score that is a string, or [None], it raises
    [TypeError], and the call raises it to its caller: no list of flags is
    returned, whatever the historical lookups answer. This holds for both
    shapes of the score data. *)
Theorem check_calibration_flags_raises_on_non_numeric_score
    (d : Calibration.db) :
  fst (Calibration.check_calibration_flags d (flat_scores_trace (PStr "high"))) =
    Raised (TypeError "'<' not supported between instances of 'str' and 'int'") /\
  fst (Calibration.check_calibration_flags d (flat_scores_trace PNone)) =
    Raised (TypeError
              "'<' not supported between instances of 'NoneType' and 'int'") /\
  fst (Calibration.check_calibration_flags d (record_scores_trace (PStr "high"))) =
    Raised (TypeError "'<' not supported between instances of 'str' and 'int'").
Proof. repeat split; vm_compute; reflexivity. Qed.

Example partial_flags_when_lookups_fail :
  fst (Calibration.check_calibration_flags failing_count_db
         (trace_with_quality_gate
            [("passed", PBool false);
             ("principle_scores", PDict [("META-12", PInt 1)])])) =
  Returned
    [Calibration.IntentDisparity "validating" (Q2Qc (15 # 10)) (Q2Qc (23 # 10));
     Calibration.QualityRegression "test-project"].
Proof. vm_compute. reflexivity. Qed.


(** * Further properties of the trace model *)

(** ** Dictionaries *)

Lemma dict_get_set_eq (k : string) (v : pyval) (d : pydict) :
  dict_get k (dict_set k v d) = Some v.
Proof.
  induction d as [|[k' v'] d IH]; cbn.
  - by rewrite String.eqb_refl.
  - destruct (String.eqb k k') eqn:E; cbn; rewrite E; done.
Qed.

Lemma dict_get_set_ne (k k' : string) (v : pyval) (d : pydict) :
  k' <> k -> dict_get k' (dict_set k v d) = dict_get k' d.
Proof.
  intros Hne. induction d as [|[k0 v0] d IH]; cbn.
  - apply String.eqb_neq in Hne. by rewrite Hne.
  - destruct (String.eqb k k0) eqn:E; cbn.
    + apply String.eqb_eq in E as ->.
      apply String.eqb_neq in Hne. by rewrite Hne.
    + by rewrite IH.
Qed.

Lemma dict_set_set (k : string) (v1 v2 : pyval) (d : pydict) :
  dict_set k v2 (dict_set k v1 d) = dict_set k v2 d.
Proof.
  induction d as [|[k' v'] d IH]; cbn.
  - by rewrite String.eqb_refl.
  - destruct (String.eqb k k') eqn:E; cbn; rewrite E; [done | by rewrite IH].
Qed.

(** ** Decisions keep the order of the calls *)

Lemma recorded_snoc (n : string) (ops : list op) (o : op) :
  recorded n (ops ++ [o])%list = (recorded n ops ++ recorded n [o])%list.
Proof. unfold recorded. by rewrite flat_map_app. Qed.

Lemma decisions_of_apply_op (n : string) (o : op) (t : Trace.t) :
  restarts n o = false ->
  decisions_of n (apply_op o t) = (decisions_of n t ++ recorded n [o])%list.
Proof.
  intros Hr. unfold decisions_of, recorded.
  destruct o; unfold_trace_ops; cbn [flat_map]; rewrite ?app_nil_r; cbn;
    try (destruct (negb _); cbn; reflexivity); try reflexivity.
  - cbn in Hr. apply String.eqb_neq in Hr. by rewrite lookup_insert_ne.
  - destruct (Trace.stages t !! stage_name) as [st|] eqn:Hs; cbn; [|done].
    destruct (decide (stage_name = n)) as [->|Hne].
    + rewrite lookup_insert_eq, Hs.
      destruct (Trace._stage_start_times t !! n);
        destruct outputs as [[|? ?]|]; destruct (truthy_str error); done.
    + by rewrite lookup_insert_ne.
  - destruct (String.eqb_spec stage_name n) as [->|Hne].
    + destruct (Trace.stages t !! n) as [st|] eqn:Hs; cbn;
        rewrite lookup_insert_eq; cbn; rewrite ?app_nil_r; done.
    + rewrite app_nil_r.
      destruct (Trace.stages t !! stage_name) as [st|] eqn:Hs; cbn;
        by rewrite !lookup_insert_ne by done.
  - destruct (decide (stage_name = n)) as [->|Hne].
    + destruct (Trace.stages t !! n) as [st|] eqn:Hs; cbn;
        rewrite lookup_insert_eq; done.
    + destruct (Trace.stages t !! stage_name) as [st|] eqn:Hs; cbn;
        by rewrite !lookup_insert_ne by done.
  - destruct (decide (stage_name = n)) as [->|Hne].
    + destruct (Trace.stages t !! n) as [st|] eqn:Hs; cbn;
        rewrite lookup_insert_eq; done.
    + destruct (Trace.stages t !! stage_name) as [st|] eqn:Hs; cbn;
        by rewrite !lookup_insert_ne by done.
Qed.

(** X1. As long as the stage is not restarted, the decisions of a stage
    after a sequence of recording calls are its decisions before, followed
    by one decision per [record] call against that stage, in call order
    (whatever other calls are interleaved, and whether or not the stage
    existed before). *)
Theorem decisions_keep_call_order (n : string) (ops : list op) (t : Trace.t) :
  forallb (fun o => negb (restarts n o)) ops = true ->
  decisions_of n (run ops t) = (decisions_of n t ++ recorded n ops)%list.
Proof.
  induction ops as [|o ops IH] using rev_ind; intros Hall.
  - cbn. by rewrite app_nil_r.
  - rewrite forallb_app in Hall. apply andb_true_iff in Hall as [Hops Ho].
    cbn in Ho. rewrite andb_true_r in Ho.
    rewrite run_snoc, decisions_of_apply_op by (by destruct (restarts n o)).
    rewrite IH by done. by rewrite recorded_snoc, app_assoc.
Qed.

Lemma decisions_keep_call_order_witness :
  decisions_of "rubric"
    (run [OpRecord "rubric" "rubric_loaded" [("what", PInt 21)] "ts1";
          OpRecordEvidence "collection" [("collected_count", PInt 40)];
          OpRecord "rubric" "intent_activation" [("why", PStr "validating")] "ts2"]
       running_trace) =
  (decisions_of "rubric" running_trace ++
   recorded "rubric"
     [OpRecord "rubric" "rubric_loaded" [("what", PInt 21)] "ts1";
      OpRecordEvidence "collection" [("collected_count", PInt 40)];
      OpRecord "rubric" "intent_activation" [("why", PStr "validating")] "ts2"])%list.
Proof. apply decisions_keep_call_order. reflexivity. Defined.

(** [start_stage] discards what the stage held. *)
Lemma start_stage_resets (n now : string) (mono : Qc) (t : Trace.t) :
  Trace.stages (Trace.start_stage n now mono t) !! n =
    Some (StageTrace.new n (Some now)) /\
  decisions_of n (Trace.start_stage n now mono t) = [].
Proof.
  unfold decisions_of, Trace.start_stage. cbn. by rewrite lookup_insert_eq.
Qed.

(** ** The last [mark_*] call decides the completion fields *)

Lemma last_mark_snoc (ops : list op) (o : op) :
  last_mark (ops ++ [o])%list =
  match mark_of o with Some m => Some m | None => last_mark ops end.
Proof. unfold last_mark. by rewrite fold_left_app. Qed.

Lemma apply_op_start_time (o : op) (t : Trace.t) :
  Trace._start_time (apply_op o t) = Trace._start_time t.
Proof.
  destruct o; unfold_trace_ops; cbn;
    repeat match goal with
      | |- context [Trace.stages ?x !! ?n] => destruct (Trace.stages x !! n); cbn
      | |- context [negb ?b] => destruct (negb b); cbn
      end; reflexivity.
Qed.

Lemma run_start_time (ops : list op) (t : Trace.t) :
  Trace._start_time (run ops t) = Trace._start_time t.
Proof.
  revert t. induction ops as [|o ops IH]; intros t; [done|].
  rewrite run_cons, IH. apply apply_op_start_time.
Qed.

Lemma apply_op_no_mark (o : op) (t : Trace.t) :
  mark_of o = None ->
  Trace.status (apply_op o t) = Trace.status t /\
  Trace.completed_at (apply_op o t) = Trace.completed_at t /\
  Trace.duration_seconds (apply_op o t) = Trace.duration_seconds t.
Proof.
  destruct o; intros Hm; try discriminate Hm; unfold_trace_ops; cbn;
    repeat match goal with
      | |- context [Trace.stages ?x !! ?n] => destruct (Trace.stages x !! n); cbn
      | |- context [negb ?b] => destruct (negb b); cbn
      end; done.
Qed.

Lemma apply_op_mark (o : op) (t : Trace.t) (status now : string) (mono : Qc) :
  mark_of o = Some (status, now, mono) ->
  Trace.status (apply_op o t) = status /\
  Trace.completed_at (apply_op o t) = Some now /\
  Trace.duration_seconds (apply_op o t) =
    (if Qc_eq_bool (Trace._start_time t) 0%Qc then Trace.duration_seconds t
     else Some (mono - Trace._start_time t)%Qc).
Proof.
  destruct o; intros Hm; try discriminate Hm; injection Hm as <- <- <-;
    unfold_trace_ops; cbn;
    destruct (Qc_eq_bool (Trace._start_time t) 0%Qc); cbn; done.
Qed.

(** X2. The completion fields of a trace after any sequence of recording
    calls are decided by the last [mark_complete], [mark_failed] or
    [mark_incomplete] call: a terminal status is not final, a later mark
    overrides it. Without any mark call the three fields are unchanged.
    The duration is assigned only when the trace's monotonic start instant
    is not zero. *)
Theorem completion_fields_follow_last_mark (ops : list op) (t : Trace.t) :
  let t' := run ops t in
  match last_mark ops with
  | None =>
      Trace.status t' = Trace.status t /\
      Trace.completed_at t' = Trace.completed_at t /\
      Trace.duration_seconds t' = Trace.duration_seconds t
  | Some (status, now, mono) =>
      Trace.status t' = status /\
      Trace.completed_at t' = Some now /\
      Trace.duration_seconds t' =
        (if Qc_eq_bool (Trace._start_time t) 0%Qc then Trace.duration_seconds t
         else Some (mono - Trace._start_time t)%Qc)
  end.
Proof.
  cbn zeta. induction ops as [|o ops IH] using rev_ind; [done|].
  rewrite last_mark_snoc, run_snoc.
  destruct (mark_of o) as [[[status now] mono]|] eqn:Hm.
  - destruct (apply_op_mark o (run ops t) status now mono Hm) as (-> & -> & ->).
    rewrite run_start_time. repeat split.
    destruct (Qc_eq_bool (Trace._start_time t) 0%Qc); [|done].
    destruct (last_mark ops) as [[[s' n'] m']|]; by destruct IH as (_ & _ & ->).
  - destruct (apply_op_no_mark o (run ops t) Hm) as (-> & -> & ->). exact IH.
Qed.


(** * Further properties of the calibration analyzer *)

Lemma qg_outputs_set (o : pydict) (t : Trace.t) (st : StageTrace.t) :
  Trace.stages t !! "quality_gate" = Some st ->
  Calibration.qg_outputs (Calibration.set_qg_outputs o t) = o.
Proof.
  intros Hs. unfold Calibration.qg_outputs, Calibration.set_qg_outputs.
  rewrite Hs. cbn. by rewrite lookup_insert_eq.
Qed.

Lemma set_qg_outputs_twice (o1 o2 : pydict) (t : Trace.t) :
  Calibration.set_qg_outputs o2 (Calibration.set_qg_outputs o1 t) =
  Calibration.set_qg_outputs o2 t.
Proof.
  unfold Calibration.set_qg_outputs.
  destruct (Trace.stages t !! "quality_gate") as [st|] eqn:Hs; cbn.
  - rewrite lookup_insert_eq. cbn. by rewrite insert_insert_eq.
  - by rewrite Hs.
Qed.

Lemma set_qg_outputs_absent (o : pydict) (t : Trace.t) :
  Trace.stages t !! "quality_gate" = None ->
  Calibration.set_qg_outputs o t = t.
Proof. intros Hs. unfold Calibration.set_qg_outputs. by rewrite Hs. Qed.

Lemma with_gaps_twice (v1 v2 : pyval) (t : Trace.t) :
  with_gaps v2 (with_gaps v1 t) = with_gaps v2 t.
Proof.
  unfold with_gaps. rewrite set_qg_outputs_twice.
  destruct (Trace.stages t !! "quality_gate") as [st|] eqn:Hs.
  - erewrite qg_outputs_set by done. by rewrite dict_set_set.
  - by rewrite !set_qg_outputs_absent.
Qed.

Lemma gaps_of_with_gaps (v : pyval) (t : Trace.t) (st : StageTrace.t) :
  Trace.stages t !! "quality_gate" = Some st ->
  dict_get "gap_principles" (Calibration.qg_outputs (with_gaps v t)) = Some v.
Proof.
  intros Hs. unfold with_gaps. erewrite qg_outputs_set by done.
  apply dict_get_set_eq.
Qed.

(** A stored list implies the quality-gate stage exists. *)
Lemma stored_gaps_stage (t : Trace.t) (v : pyval) :
  dict_get "gap_principles" (Calibration.qg_outputs t) = Some v ->
  exists st, Trace.stages t !! "quality_gate" = Some st.
Proof.
  unfold Calibration.qg_outputs.
  destruct (Trace.stages t !! "quality_gate"); [eauto | discriminate].
Qed.

Lemma update_scan_invariant (t0 : Trace.t) (s : Calibration.state)
    (l : list pyval) (x : pyval) :
  scan_invariant t0 s ->
  Calibration.deref s = PList l ->
  scan_invariant t0 (Calibration.update (PList (l ++ [x])) s).
Proof.
  destruct s as [t [|v]]; unfold scan_invariant, Calibration.update,
    Calibration.deref; cbn; [|done].
  intros Hext Hd. fold (with_gaps (PList (l ++ [x])) t).
  unfold dict_get_default in Hd.
  destruct (dict_get "gap_principles" (Calibration.qg_outputs t)) as [g|] eqn:Hg;
    [subst g | discriminate].
  destruct Hext as [->|(l0 & extra & Hl0 & Hne & ->)].
  - right. exists l, [x]. done.
  - destruct (stored_gaps_stage _ _ Hl0) as [st Hst].
    erewrite gaps_of_with_gaps in Hg by done. injection Hg as <-.
    right. exists l0, (extra ++ [x])%list. split; [done|]. split.
    + by destruct extra.
    + by rewrite with_gaps_twice, app_assoc.
Qed.

Lemma keeps_scan_invariant_ret {A : Type} (t0 : Trace.t) (a : A) :
  keeps_scan_invariant t0 (Calibration.ret a).
Proof. by intros s Hs. Qed.

Lemma keeps_scan_invariant_lift {A : Type} (t0 : Trace.t) (o : outcome A) :
  keeps_scan_invariant t0 (Calibration.lift o).
Proof. by intros s Hs. Qed.

Lemma keeps_scan_invariant_bind {A B : Type} (t0 : Trace.t)
    (m : Calibration.M A) (k : A -> Calibration.M B) :
  keeps_scan_invariant t0 m -> (forall a, keeps_scan_invariant t0 (k a)) ->
  keeps_scan_invariant t0 (Calibration.bind m k).
Proof.
  intros Hm Hk s Hs. unfold Calibration.bind.
  specialize (Hm s Hs). destruct (m s) as [[a|e] s']; cbn in *; [|done].
  by apply Hk.
Qed.

Lemma keeps_scan_invariant_for_each {A : Type} (t0 : Trace.t)
    (body : A -> Calibration.M unit) (l : list A) :
  (forall x, keeps_scan_invariant t0 (body x)) ->
  keeps_scan_invariant t0 (Calibration.for_each body l).
Proof.
  intros Hbody. induction l as [|x l IH]; cbn.
  - apply keeps_scan_invariant_ret.
  - apply keeps_scan_invariant_bind; [apply Hbody | intros _; apply IH].
Qed.

Lemma keeps_scan_invariant_not_in_gaps (t0 : Trace.t) (pid : pyval) :
  keeps_scan_invariant t0 (Calibration.not_in_gaps pid).
Proof.
  intros s Hs. unfold Calibration.not_in_gaps. by destruct (py_contains _ _).
Qed.

Lemma keeps_scan_invariant_append_gap (t0 : Trace.t) (pid : pyval) :
  keeps_scan_invariant t0 (Calibration.append_gap pid).
Proof.
  intros s Hs. unfold Calibration.append_gap, py_append.
  destruct (Calibration.deref s) eqn:Hd; cbn; try done.
  by apply update_scan_invariant.
Qed.

Create HintDb scan.
#[local] Hint Resolve keeps_scan_invariant_ret keeps_scan_invariant_lift
  keeps_scan_invariant_not_in_gaps keeps_scan_invariant_append_gap : scan.

Lemma keeps_scan_invariant_scan_scores (t0 : Trace.t)
    (principle_scores : option pyval) :
  keeps_scan_invariant t0 (Calibration.scan_scores principle_scores).
Proof.
  destruct principle_scores as [[]|]; cbn; auto with scan;
    apply keeps_scan_invariant_for_each.
  - intros [] ; cbn; auto with scan.
    apply keeps_scan_invariant_bind; [auto with scan|].
    intros [|]; [|auto with scan].
    destruct (truthy _); [|auto with scan].
    apply keeps_scan_invariant_bind; [auto with scan|].
    intros [|]; auto with scan.
  - intros [pid score]. cbn.
    apply keeps_scan_invariant_bind; [auto with scan|].
    intros [|]; [|auto with scan].
    apply keeps_scan_invariant_bind; [auto with scan|].
    intros [|]; auto with scan.
Qed.

Lemma check_calibration_flags_gap_extension
    (d : Calibration.db) (t : Trace.t) :
  gap_extension t (snd (Calibration.check_calibration_flags d t)).
Proof.
  unfold Calibration.check_calibration_flags.
  destruct (Trace.stages t !! "quality_gate") as [st|] eqn:Hst; [|by left].
  match goal with
  | |- context [Calibration.scan_scores ?ps ?s] =>
      pose proof (keeps_scan_invariant_scan_scores t ps s) as Hk;
      destruct (Calibration.scan_scores ps s) as [[u|e] [t' b]] eqn:Hscan
  end; cbn in *.
  - assert (gap_extension t t') as Hext.
    { destruct (truthy _); specialize (Hk ltac:(by (try left))); cbn in Hk;
        destruct b; cbn in Hk; [done | by left; subst | done | by left; subst]. }
    by destruct (py_iter _).
  - destruct (truthy _); specialize (Hk ltac:(by (try left))); cbn in Hk;
      destruct b; cbn in Hk; try done; by left; subst.
Qed.

Lemma gap_extension_fields (t t' : Trace.t) :
  gap_extension t t' ->
  Trace.trace_id t' = Trace.trace_id t /\
  Trace.status t' = Trace.status t /\
  Trace.intent t' = Trace.intent t /\
  Trace.domain t' = Trace.domain t /\
  Trace.project_id t' = Trace.project_id t /\
  Trace.project_name t' = Trace.project_name t /\
  Trace.started_at t' = Trace.started_at t /\
  Trace.outputs t' = Trace.outputs t /\
  Trace.iterations t' = Trace.iterations t /\
  Trace.iteration_count t' = Trace.iteration_count t /\
  Trace.quality_gate_failures t' = Trace.quality_gate_failures t /\
  (forall k, k <> "gap_principles" ->
             dict_get k (Calibration.qg_outputs t') =
             dict_get k (Calibration.qg_outputs t)) /\
  (forall n, n <> "quality_gate" ->
             Trace.stages t' !! n = Trace.stages t !! n) /\
  (forall n, decisions_of n t' = decisions_of n t).
Proof.
  intros [->|(l & extra & Hl & _ & ->)]; [done|].
  destruct (stored_gaps_stage _ _ Hl) as [st Hst].
  unfold with_gaps. split_and!;
    try (unfold Calibration.set_qg_outputs; rewrite Hst; reflexivity).
  - intros k Hk. erewrite qg_outputs_set by done. by apply dict_get_set_ne.
  - intros n Hn. unfold Calibration.set_qg_outputs. rewrite Hst. cbn.
    by rewrite lookup_insert_ne.
  - intros n. unfold decisions_of, Calibration.set_qg_outputs. rewrite Hst. cbn.
    destruct (decide (n = "quality_gate")) as [->|Hn].
    + by rewrite lookup_insert_eq, Hst.
    + by rewrite lookup_insert_ne.
Qed.



(** ** When the analyzer returns *)

Lemma list_state_update (s : Calibration.state) (l l' : list pyval) :
  Calibration.deref s = PList l ->
  list_state (Calibration.update (PList l') s).
Proof.
  destruct s as [t [|v]]; unfold list_state, Calibration.update,
    Calibration.deref; cbn; [|eauto].
  unfold dict_get_default.
  destruct (dict_get "gap_principles" (Calibration.qg_outputs t)) eqn:Hg;
    [|discriminate].
  intros _. destruct (stored_gaps_stage _ _ Hg) as [st Hst].
  erewrite qg_outputs_set by done. rewrite dict_get_set_eq. eauto.
Qed.












(** ** Every flag is justified *)

Lemma disparity_spec (avg overall_avg : option Qc) (a o : Qc) :
  Calibration.disparity avg overall_avg = Some (a, o) ->
  avg = Some a /\ overall_avg = Some o /\ (Q2Qc (1 # 2) < o - a)%Qc.
Proof.
  unfold Calibration.disparity.
  destruct avg as [x|], overall_avg as [y|]; try discriminate.
  destruct (y - x ?= Q2Qc (1 # 2))%Qc eqn:Hc; try discriminate.
  intros [= <- <-]. repeat split. by apply Qcgt_alt.
Qed.

Lemma truthy_str_nonempty (s : string) :
  truthy_str (Some s) = true -> s <> "".
Proof.
  cbn. intros H ->. discriminate H.
Qed.

Lemma check_principle_justified (d : Calibration.db) (t : Trace.t) (pid : pyval) :
  Forall (flag_justified d t) (Calibration.check_principle d pid).
Proof.
  unfold Calibration.check_principle.
  destruct (Calibration._recent_failure_count d pid) as [count|] eqn:Hc;
    [|constructor].
  destruct (Z.leb_spec 3 count); constructor; [|constructor]. by split.
Qed.

Lemma check_intent_justified (d : Calibration.db) (t : Trace.t) :
  Forall (flag_justified d t) (Calibration.check_intent d t).
Proof.
  unfold Calibration.check_intent.
  destruct (Trace.intent t) as [intent|] eqn:Hi; [|constructor].
  destruct (truthy_str (Some intent)) eqn:Ht; [|constructor].
  destruct (Calibration._intent_avg_score d intent) as [ia|] eqn:Hia;
    [|constructor].
  destruct (Calibration._overall_avg_score d Calibration.ForIntent) as [oa|]
    eqn:Hoa; [|constructor].
  destruct (Calibration.disparity ia oa) as [[a o]|] eqn:Hd; [|constructor].
  apply disparity_spec in Hd as (-> & -> & Hlt).
  constructor; [|constructor]. cbn. rewrite Hi.
  repeat split; try done. by apply truthy_str_nonempty.
Qed.

Lemma check_domain_justified (d : Calibration.db) (t : Trace.t) :
  Forall (flag_justified d t) (Calibration.check_domain d t).
Proof.
  unfold Calibration.check_domain.
  destruct (Trace.domain t) as [domain|] eqn:Hi; [|constructor].
  destruct (truthy_str (Some domain)) eqn:Ht; [|constructor].
  destruct (Calibration._domain_avg_score d domain) as [ia|] eqn:Hia;
    [|constructor].
  destruct (Calibration._overall_avg_score d Calibration.ForDomain) as [oa|]
    eqn:Hoa; [|constructor].
  destruct (Calibration.disparity ia oa) as [[a o]|] eqn:Hd; [|constructor].
  apply disparity_spec in Hd as (-> & -> & Hlt).
  constructor; [|constructor]. cbn. rewrite Hi.
  repeat split; try done. by apply truthy_str_nonempty.
Qed.

Lemma check_regression_justified (d : Calibration.db) (t : Trace.t) :
  Forall (flag_justified d t) (Calibration.check_regression d t).
Proof.
  unfold Calibration.check_regression.
  destruct (Calibration.is_False _) eqn:Hf; cbn; [|constructor].
  destruct (Trace.project_id t) as [project_id|] eqn:Hp; cbn; [|constructor].
  destruct (negb (String.eqb project_id "")) eqn:Hpne; cbn; [|constructor].
  destruct (Trace.started_at t) as [started_at|] eqn:Hs; cbn; [|constructor].
  destruct (negb (String.eqb started_at "")) eqn:Hsne; cbn; [|constructor].
  destruct (Calibration._previous_trace_for_project d project_id started_at)
    as [[prev|]|] eqn:Hprev; try constructor.
  destruct (match prev with [] => false | _ => true end) eqn:Htr; cbn;
    [|constructor].
  destruct (Calibration.is_True _) eqn:HT; [|constructor].
  constructor; [|constructor]. cbn. split.
  - unfold Calibration.is_False in Hf.
    destruct (dict_get "passed" (Calibration.qg_outputs t)) as [[| [|] | | | | |]|];
      done.
  - exists project_id, started_at, prev. repeat split; try done.
    + by apply truthy_str_nonempty.
    + by apply truthy_str_nonempty.
    + unfold Calibration.is_True in HT.
      destruct (dict_get "quality_gate_passed" prev) as [[| [|] | | | | |]|];
        done.
Qed.

Lemma flag_justified_extension (d : Calibration.db) (t t' : Trace.t)
    (f : Calibration.flag) :
  gap_extension t t' -> flag_justified d t' f -> flag_justified d t f.
Proof.
  intros Hext.
  destruct (gap_extension_fields t t' Hext)
    as (_ & _ & Hi & Hd & Hp & _ & Hs & _ & _ & _ & _ & Hk & _).
  destruct f; cbn; rewrite ?Hi, ?Hd, ?Hp, ?Hs, ?Hk by done; done.
Qed.

(** X5. Every flag [check_calibration_flags] returns is justified by the
    trace and by the lookups that returned: a repeated-failure flag
    carries a count of at least 3 that the lookup returned for that
    principle; a disparity flag is for the trace's own non-empty intent
    (domain) and the overall average exceeds that intent's (domain's)
    average by strictly more than 0.5; a regression flag appears only when
    the stage's ["passed"] is exactly [False], the trace has a non-empty
    project id and start time, and the previous run's
    ["quality_gate_passed"] is exactly [True]. *)
Theorem flags_are_justified
    (d : Calibration.db) (t : Trace.t) (flags : list Calibration.flag) :
  fst (Calibration.check_calibration_flags d t) = Returned flags ->
  Forall (flag_justified d t) flags.
Proof.
  pose proof (check_calibration_flags_gap_extension d t) as Hext.
  revert Hext. unfold Calibration.check_calibration_flags.
  destruct (Trace.stages t !! "quality_gate") as [st|] eqn:Hst;
    [|cbn; intros _ [= <-]; constructor].
  destruct (Calibration.scan_scores _ _) as [[u|e] s]; cbn; [|discriminate].
  destruct (py_iter _) as [ids|]; cbn; [|discriminate].
  intros Hext [= <-].
  eapply Forall_impl; [|intros f; apply (flag_justified_extension d t (fst s) f Hext)].
  rewrite !Forall_app. repeat split.
  - apply Forall_flat_map, Forall_forall. intros pid _.
    apply check_principle_justified.
  - apply check_intent_justified.
  - apply check_domain_justified.
  - apply check_regression_justified.
Qed.

Lemma flags_are_justified_witness :
  Forall (flag_justified failing_count_db
            (trace_with_quality_gate
               [("passed", PBool false);
                ("principle_scores", PDict [("META-12", PInt 1)])]))
    [Calibration.IntentDisparity "validating" (Q2Qc (15 # 10)) (Q2Qc (23 # 10));
     Calibration.QualityRegression "test-project"].
Proof.
  apply flags_are_justified. vm_compute. reflexivity.
Defined.


(** ** No duplicate enters the gap list *)

Lemma distinct_from_snoc (seen l : list pyval) (x : pyval) :
  distinct_from seen (l ++ [x]) =
  distinct_from seen l && negb (existsb (py_eqb x) (seen ++ l)).
Proof.
  revert seen. induction l as [|y l IH]; intros seen; cbn.
  - by rewrite app_nil_r, andb_true_r.
  - rewrite IH, <- app_assoc. cbn. by rewrite andb_assoc.
Qed.

Lemma keeps_distinct_ret {A : Type} (a : A) : keeps_distinct (Calibration.ret a).
Proof. by intros s Hs. Qed.

Lemma keeps_distinct_lift {A : Type} (o : outcome A) :
  keeps_distinct (Calibration.lift o).
Proof. by intros s Hs. Qed.

Lemma keeps_distinct_bind {A B : Type} (m : Calibration.M A)
    (k : A -> Calibration.M B) :
  keeps_distinct m -> (forall a, keeps_distinct (k a)) ->
  keeps_distinct (Calibration.bind m k).
Proof.
  intros Hm Hk s Hs. unfold Calibration.bind.
  destruct (Hm s Hs) as [Hs' Hb]. destruct (m s) as [[a|e] s']; cbn in *; [|done].
  destruct (Hk a s' Hs') as [Hs'' Hb']. split; [done | auto].
Qed.

Lemma keeps_distinct_for_each {A : Type} (body : A -> Calibration.M unit)
    (l : list A) :
  (forall x, keeps_distinct (body x)) ->
  keeps_distinct (Calibration.for_each body l).
Proof.
  intros Hbody. induction l as [|x l IH]; cbn.
  - apply keeps_distinct_ret.
  - apply keeps_distinct_bind; [apply Hbody | intros _; apply IH].
Qed.

(** [if pid not in gap_principles: gap_principles.append(pid)] *)
Lemma keeps_distinct_consider (pid : pyval) :
  keeps_distinct
    (Calibration.bind (Calibration.not_in_gaps pid)
       (fun fresh => if fresh then Calibration.append_gap pid
                     else Calibration.ret tt)).
Proof.
  intros s Hs. unfold Calibration.bind, Calibration.not_in_gaps.
  destruct (py_contains (Calibration.deref s) pid) as [b|e] eqn:Hc; cbn; [|done].
  destruct b; cbn; [done|].
  unfold Calibration.append_gap, py_append.
  destruct (Calibration.deref s) as [| | | | |l|] eqn:Hd; cbn; try done.
  cbn in Hc. injection Hc as Hc.
  split.
  - intros l' Hl'.
    destruct (list_state_update s l (l ++ [pid]) Hd) as [l'' Hl''].
    assert (Calibration.deref (Calibration.update (PList (l ++ [pid])) s)
            = PList (l ++ [pid])) as Heq.
    { destruct s as [t [|v]]; unfold Calibration.update, Calibration.deref in *;
        cbn in *; [|done].
      unfold dict_get_default in Hd.
      destruct (dict_get "gap_principles" (Calibration.qg_outputs t)) eqn:Hg;
        [|discriminate].
      destruct (stored_gaps_stage _ _ Hg) as [st Hst].
      erewrite qg_outputs_set by done. unfold dict_get_default.
      by rewrite dict_get_set_eq. }
    rewrite Heq in Hl'. injection Hl' as <-.
    unfold distinct. rewrite distinct_from_snoc. cbn. rewrite Hc.
    rewrite andb_true_r. by apply Hs.
  - by destruct s as [t [|v]].
Qed.

Lemma keeps_distinct_scan_scores (principle_scores : option pyval) :
  keeps_distinct (Calibration.scan_scores principle_scores).
Proof.
  destruct principle_scores as [[]|]; cbn; try apply keeps_distinct_ret;
    apply keeps_distinct_for_each.
  - intros []; cbn; try apply keeps_distinct_ret.
    apply keeps_distinct_bind; [apply keeps_distinct_lift|].
    intros [|]; [|apply keeps_distinct_ret].
    destruct (truthy _); [|apply keeps_distinct_ret].
    apply keeps_distinct_consider.
  - intros [pid score]. cbn.
    apply keeps_distinct_bind; [apply keeps_distinct_lift|].
    intros [|]; [|apply keeps_distinct_ret].
    apply keeps_distinct_consider.
Qed.

(** X6. The guard [pid not in gap_principles] keeps duplicates out: when
    the gap list stored in the quality-gate stage has no two equal
    elements before the call, the list stored after the call (extended or
    not, and whether or not the call raised) has none either. *)
Theorem check_calibration_flags_keeps_gaps_distinct
    (d : Calibration.db) (t : Trace.t) (l : list pyval) :
  dict_get "gap_principles" (Calibration.qg_outputs t) = Some (PList l) ->
  distinct l = true ->
  exists l',
    dict_get "gap_principles"
      (Calibration.qg_outputs (snd (Calibration.check_calibration_flags d t)))
    = Some (PList l') /\
    distinct l' = true.
Proof.
  intros Hl Hd.
  destruct (stored_gaps_stage _ _ Hl) as [st Hst].
  unfold Calibration.check_calibration_flags. rewrite Hst.
  unfold dict_get_default at 1. rewrite Hl.
  destruct l as [|x l]; cbn [truthy].
  - match goal with
    | |- context [Calibration.scan_scores ?ps (t, Calibration.Fresh ?v)] =>
        destruct (fresh_keeps_trace_scan_scores ps t v) as [v' Hv'];
        destruct (Calibration.scan_scores ps (t, Calibration.Fresh v))
          as [[u|e] s']
    end; cbn in *; subst s'; cbn.
    + destruct (py_iter v'); cbn; eauto.
    + eauto.
  - match goal with
    | |- context [Calibration.scan_scores ?ps ?s] =>
        destruct (keeps_distinct_scan_scores ps s) as [Hds Hb];
        [| destruct (Calibration.scan_scores ps s) as [[u|e] [t' b]] eqn:Hscan ]
    end.
    + intros l0. unfold Calibration.deref, dict_get_default. cbn. rewrite Hl.
      by intros [= <-].
    + cbn in *. specialize (Hb eq_refl). subst b.
      pose proof (keeps_scan_invariant_scan_scores t
                    (dict_get "principle_scores" (Calibration.qg_outputs t))
                    (t, Calibration.InTrace) (or_introl eq_refl)) as Hinv.
      rewrite Hscan in Hinv. cbn in Hinv.
      assert (exists l', dict_get "gap_principles" (Calibration.qg_outputs t')
                         = Some (PList l')) as [l' Hl'].
      { destruct Hinv as [->|(l0 & extra & Hl0 & _ & ->)]; [eauto|].
        erewrite gaps_of_with_gaps by done. eauto. }
      exists l'. split.
      * by destruct (py_iter _).
      * apply Hds. unfold Calibration.deref, dict_get_default. cbn.
        by rewrite Hl'.
    + cbn in *. specialize (Hb eq_refl). subst b.
      pose proof (keeps_scan_invariant_scan_scores t
                    (dict_get "principle_scores" (Calibration.qg_outputs t))
                    (t, Calibration.InTrace) (or_introl eq_refl)) as Hinv.
      rewrite Hscan in Hinv. cbn in Hinv.
      assert (exists l', dict_get "gap_principles" (Calibration.qg_outputs t')
                         = Some (PList l')) as [l' Hl'].
      { destruct Hinv as [->|(l0 & extra & Hl0 & _ & ->)]; [eauto|].
        erewrite gaps_of_with_gaps by done. eauto. }
      exists l'. split; [done|].
      apply Hds. unfold Calibration.deref, dict_get_default. cbn.
      by rewrite Hl'.
Qed.

Lemma check_calibration_flags_keeps_gaps_distinct_witness :
  exists l',
    dict_get "gap_principles"
      (Calibration.qg_outputs
         (snd (Calibration.check_calibration_flags quiet_db aliased_gap_trace)))
    = Some (PList l') /\
    distinct l' = true.
Proof.
  apply (check_calibration_flags_keeps_gaps_distinct quiet_db aliased_gap_trace
           [PStr "META-12"]); vm_compute; reflexivity.
Defined.


(** * Further properties of [TraceContext.finish] and [traced_research] *)


Lemma finish_unfold_persisted (e : TraceContext.env) (t : Trace.t)
    (verbose : bool) (now : string) (mono : Qc) :
  let p := post_persist e verbose (persisted e (demoted now mono t)) in
  TraceContext.finish e (TraceObj t) verbose now mono =
  {| TraceContext.returned := TraceContext.result p;
     TraceContext.trace_after := TraceObj (TraceContext.trace p);
     TraceContext.current_after := None;
     TraceContext.external_calls := TraceContext.calls p |}.
Proof. reflexivity. Qed.

(** The state after the two writes. *)
Lemma persisted_spec (e : TraceContext.env) (t0 : Trace.t) :
  let q := persisted e t0 in
  TraceContext.calls q =
    [TraceContext.CallWriteTraceFile; TraceContext.CallWriteTraceMetadata] /\
  TraceContext.result q !! "trace_id" = Some (TraceContext.VStr (Trace.trace_id t0)) /\
  TraceContext.result q !! "status" = Some (TraceContext.VStr (Trace.status t0)) /\
  TraceContext.result q !! "calibration_flags" = None /\
  TraceContext.result q !! "flagged_for_review" = None /\
  TraceContext.result q !! "summary_file" = None /\
  match TraceContext.write_trace_file e t0 with
  | Returned file_path =>
      TraceContext.trace q = stamped file_path t0 /\
      TraceContext.result q !! "file_path" = Some (TraceContext.VStr file_path) /\
      TraceContext.result q !! "file_error" = None
  | Raised ex =>
      TraceContext.trace q = t0 /\
      TraceContext.result q !! "file_path" = None /\
      TraceContext.result q !! "file_error" =
        Some (TraceContext.VStr (exn_msg ex))
  end /\
  match TraceContext.write_trace_metadata e (TraceContext.trace q) with
  | Returned _ =>
      TraceContext.result q !! "supabase" = Some (TraceContext.VStr "saved") /\
      TraceContext.result q !! "supabase_error" = None
  | Raised ex =>
      TraceContext.result q !! "supabase" = None /\
      TraceContext.result q !! "supabase_error" =
        Some (TraceContext.VStr (exn_msg ex))
  end.
Proof.
  unfold persisted, TraceContext.step_write_metadata,
    TraceContext.step_write_file, stamped. cbn.
  destruct (TraceContext.write_trace_file e t0) as [path|ex]; cbn;
    match goal with
    | |- context [TraceContext.write_trace_metadata e ?x] =>
        destruct (TraceContext.write_trace_metadata e x) as [u|ex'] eqn:Hm
    end; cbn; rewrite ?Hm; repeat split; done.
Qed.

(** What the calibration step adds to the result and to the calls. *)
Lemma post_persist_calibration (e : TraceContext.env) (verbose : bool)
    (p : TraceContext.progress) :
  TraceContext.result p !! "flagged_for_review" = None ->
  let p' := post_persist e verbose p in
  exists (flags : list Calibration.flag) (rest : list TraceContext.call_event),
    TraceContext.result p' !! "calibration_flags" =
      Some (TraceContext.VFlags flags) /\
    TraceContext.calls p' =
      (TraceContext.calls p ++
       [TraceContext.CallPrintSummary verbose; TraceContext.CallWriteSummaryFile;
        TraceContext.CallCheckCalibrationFlags] ++ rest)%list /\
    gap_extension (TraceContext.trace p) (TraceContext.trace p') /\
    ((TraceContext.result p' !! "flagged_for_review" = None /\
      (flags = [] -> rest = [] \/ rest = [TraceContext.CallPrintFlags]) /\
      (flags <> [] ->
       rest = [TraceContext.CallPrintFlags; TraceContext.CallSetFlaggedForReview;
               TraceContext.CallWriteCalibrationAlertFile] /\
       is_raised (TraceContext.set_flagged_for_review e
                    (Trace.trace_id (TraceContext.trace p))) = true))
     \/
     (TraceContext.result p' !! "flagged_for_review" =
        Some (TraceContext.VBool true) /\
      flags <> [] /\
      rest = [TraceContext.CallPrintFlags; TraceContext.CallSetFlaggedForReview;
              TraceContext.CallWriteCalibrationAlertFile] /\
      TraceContext.set_flagged_for_review e
        (Trace.trace_id (TraceContext.trace p)) = Returned tt)).
Proof.
  intros Hnone.
  unfold post_persist, TraceContext.step_calibration,
    TraceContext.step_summary_file, TraceContext.step_print_summary.
  cbn.
  pose proof (check_calibration_flags_gap_extension
                (TraceContext.calibration_db e) (TraceContext.trace p)) as Hext.
  pose proof (gap_extension_fields _ _ Hext) as (Hid & _).
  destruct (TraceContext.print_summary e verbose (TraceContext.trace p)); cbn.
  all: destruct (TraceContext.write_summary_file e (TraceContext.trace p))
         as [[path|]|]; cbn.
  all: destruct (Calibration.check_calibration_flags
                   (TraceContext.calibration_db e) (TraceContext.trace p))
         as [[[|f flags]|ex] t']; cbn in *.
  all: try destruct (TraceContext.print_flags e (f :: flags)); cbn.
  all: rewrite ?Hid.
  all: try destruct (TraceContext.set_flagged_for_review e
                       (Trace.trace_id (TraceContext.trace p))) as [[]|];
         cbn.
  all: try destruct (TraceContext._write_calibration_alert_file e t' (f :: flags));
         cbn.
  all: rewrite <- ?app_assoc; cbn.
  all: eexists _, _; (split; [by rewrite ?lookup_insert_ne by done;
                                  rewrite lookup_insert_eq|]).
  all: (split; [reflexivity|]); (split; [exact Hext|]).
  all: rewrite ?lookup_insert_eq, ?lookup_insert_ne by done.
  all: first [ by right | left; split; [done|]; split; [by auto|]; by intros ].
Qed.



(** X8. When the file write returns a path, [finish] stores it under
    [file_path], stamps it into the trace's outputs under
    [trace_file_path] (the other output keys are kept), and the row write
    is called on the stamped trace: the row can refer to the artifact. The
    outputs of the trace [finish] leaves are exactly the stamped ones. *)
Theorem finish_stamps_file_path
    (e : TraceContext.env) (t : Trace.t) (verbose : bool) (now : string)
    (mono : Qc) (file_path : string) :
  TraceContext.write_trace_file e (demoted now mono t) = Returned file_path ->
  let r := TraceContext.finish e (TraceObj t) verbose now mono in
  let t0 := demoted now mono t in
  TraceContext.returned r !! "file_path" = Some (TraceContext.VStr file_path) /\
  Trace.outputs (obj_state (TraceContext.trace_after r)) =
    dict_set "trace_file_path" (PStr file_path) (Trace.outputs t0) /\
  dict_get "trace_file_path" (Trace.outputs (obj_state (TraceContext.trace_after r)))
    = Some (PStr file_path) /\
  (forall k, k <> "trace_file_path" ->
             dict_get k (Trace.outputs (obj_state (TraceContext.trace_after r)))
             = dict_get k (Trace.outputs t0)) /\
  match TraceContext.write_trace_metadata e (stamped file_path t0) with
  | Returned _ =>
      TraceContext.returned r !! "supabase" = Some (TraceContext.VStr "saved")
  | Raised ex =>
      TraceContext.returned r !! "supabase_error" =
      Some (TraceContext.VStr (exn_msg ex))
  end.
Proof.
  intros Hfile r t0. unfold r. rewrite finish_unfold_persisted. cbn zeta.
  cbn [TraceContext.returned TraceContext.trace_after obj_state].
  fold t0. fold t0 in Hfile.
  destruct (persisted_spec e t0)
    as (_ & _ & _ & _ & Hnoflag & _ & Hf & Hrow).
  cbn zeta in *. rewrite Hfile in Hf. destruct Hf as (Htr & Hpath & _).
  rewrite Htr in Hrow.
  destruct (post_persist_frame e verbose (persisted e t0)) as (Hframe & _ & _).
  destruct (post_persist_calibration e verbose (persisted e t0) Hnoflag)
    as (flags & rest & _ & _ & Hext & _).
  cbn zeta in *.
  apply gap_extension_fields in Hext as (_ & _ & _ & _ & _ & _ & _ & Hout & _).
  rewrite !Hframe by done. rewrite Hout, Htr. unfold stamped at 1 2 3. cbn.
  split; [done|]. split; [done|]. split; [apply dict_get_set_eq|].
  split; [intros k Hk; by apply dict_get_set_ne|].
  destruct (TraceContext.write_trace_metadata e (stamped file_path t0));
    by destruct Hrow.
Qed.

Lemma finish_stamps_file_path_witness :
  let file_path :=
    "brain/projects/cobot/_traces/trc_20260213_120000_0a1b2c3d.json" in
  let r := TraceContext.finish saving_env (TraceObj running_trace) false
             "2026-02-13T12:05:00+00:00" (Q2Qc 301) in
  let t0 := demoted "2026-02-13T12:05:00+00:00" (Q2Qc 301) running_trace in
  TraceContext.returned r !! "file_path" = Some (TraceContext.VStr file_path) /\
  Trace.outputs (obj_state (TraceContext.trace_after r)) =
    dict_set "trace_file_path" (PStr file_path) (Trace.outputs t0) /\
  dict_get "trace_file_path" (Trace.outputs (obj_state (TraceContext.trace_after r)))
    = Some (PStr file_path) /\
  (forall k, k <> "trace_file_path" ->
             dict_get k (Trace.outputs (obj_state (TraceContext.trace_after r)))
             = dict_get k (Trace.outputs t0)) /\
  match TraceContext.write_trace_metadata saving_env (stamped file_path t0) with
  | Returned _ =>
      TraceContext.returned r !! "supabase" = Some (TraceContext.VStr "saved")
  | Raised ex =>
      TraceContext.returned r !! "supabase_error" =
      Some (TraceContext.VStr (exn_msg ex))
  end.
Proof.
  apply (finish_stamps_file_path saving_env running_trace false
           "2026-02-13T12:05:00+00:00" (Q2Qc 301)).
  vm_compute. reflexivity.
Defined.

(** X9. The review flag is set only on evidence: [flagged_for_review]
    appears in the result (as [True]) only when the calibration check
    returned a non-empty list of flags, these were printed, and the update
    of the row succeeded. When the returned [calibration_flags] list is
    empty, neither the row update nor the alert-file write is called. *)
Theorem finish_review_flag_needs_flags
    (e : TraceContext.env) (t : Trace.t) (verbose : bool) (now : string)
    (mono : Qc) :
  let r := TraceContext.finish e (TraceObj t) verbose now mono in
  exists flags,
    TraceContext.returned r !! "calibration_flags" =
      Some (TraceContext.VFlags flags) /\
    (TraceContext.returned r !! "flagged_for_review" = None \/
     (TraceContext.returned r !! "flagged_for_review" =
        Some (TraceContext.VBool true) /\
      flags <> [] /\
      TraceContext.set_flagged_for_review e (Trace.trace_id t) = Returned tt)) /\
    (flags = [] ->
     TraceContext.returned r !! "flagged_for_review" = None /\
     ~ In TraceContext.CallSetFlaggedForReview (TraceContext.external_calls r) /\
     ~ In TraceContext.CallWriteCalibrationAlertFile
         (TraceContext.external_calls r)).
Proof.
  intros r. unfold r. rewrite finish_unfold_persisted. cbn zeta.
  cbn [TraceContext.returned TraceContext.external_calls].
  set (t0 := demoted now mono t).
  destruct (persisted_spec e t0)
    as (Hcalls & _ & _ & _ & Hnoflag & _ & Hfile & _).
  cbn zeta in *.
  assert (Trace.trace_id (TraceContext.trace (persisted e t0)) = Trace.trace_id t)
    as Hid.
  { destruct (TraceContext.write_trace_file e t0); destruct Hfile as (-> & _);
      unfold t0; cbn; apply demoted_trace_id. }
  destruct (post_persist_calibration e verbose (persisted e t0) Hnoflag)
    as (flags & rest & Hflags & Hcalls' & _ & Hcases).
  cbn zeta in *. rewrite Hid in Hcases.
  exists flags. split; [done|]. rewrite Hcalls', Hcalls.
  destruct Hcases as [(Hnone & Hempty & _)|(Hsome & Hne & -> & Hset)].
  - split; [by left|]. intros Hfl. split; [done|].
    destruct (Hempty Hfl) as [-> | ->]; split; cbn; intuition discriminate.
  - split; [by right|]. done.
Qed.



Lemma fold_call_noop (ops : list op) (t : Trace.t) :
  fold_left (fun o c => call c o) ops (NoOpTraceObj t) = NoOpTraceObj t.
Proof.
  induction ops as [|o ops IH]; [done|].
  cbn [fold_left]. by destruct o.
Qed.










(** With tracing disabled [traced_research] records nothing, makes no
    external call, and still lets the body's exception through. *)
Lemma traced_research_disabled
    (e : TraceContext.env) (query : option string)
    (project_id project_name intent domain report_type research_type
     : option string) (verbose : bool)
    (now_id : datetime) (uuid4 : N) (started_at : string) (start_mono : Qc)
    (body : list op) (body_raises : option exn)
    (mark_now : string) (mark_mono : Qc)
    (finish_now : string) (finish_mono : Qc) :
  let out :=
    traced_research e query project_id project_name intent domain report_type
      research_type verbose false now_id uuid4 started_at start_mono body
      body_raises mark_now mark_mono finish_now finish_mono in
  snd out = body_raises /\
  TraceContext.trace_after (fst out) = NoOpTraceObj NoOpTrace.new /\
  TraceContext.external_calls (fst out) = [] /\
  TraceContext.returned (fst out) !! "saved" = Some (TraceContext.VBool false) /\
  TraceContext.current_after (fst out) = None.
Proof.
  unfold traced_research, TraceContext.start. cbn [negb fst].
  rewrite fold_call_noop. destruct body_raises; done.
Qed.


(** * Further properties of [TraceQuery.compare] *)

Lemma sorted_NoDup (s : gset string) : NoDup (TraceQuery.sorted s).
Proof.
  unfold TraceQuery.sorted. rewrite merge_sort_Permutation. apply NoDup_elements.
Qed.

Lemma elem_of_gap_set (r : TraceQuery.row) (x : string) :
  x ∈ TraceQuery.gap_set r <-> x ∈ default [] (TraceQuery.gap_principles r).
Proof. unfold TraceQuery.gap_set. apply elem_of_list_to_set. Qed.

(** X13. [compare] answers with the error exactly when one of the two
    identifiers has no row; otherwise its three gap lists partition the
    gaps of the two rows: a gap is in the a-only list iff it is a gap of
    [a] and not of [b], in the b-only list iff it is a gap of [b] and not
    of [a], in the common list iff it is a gap of both; each list is
    sorted and has no duplicate, even when a row's array repeats a gap. *)
Theorem compare_partitions_gaps
    (fetch_one : string -> option TraceQuery.row) (id_a id_b : string) :
  match TraceQuery.compare fetch_one id_a id_b with
  | TraceQuery.Error msg =>
      msg = "One or both traces not found" /\
      (fetch_one id_a = None \/ fetch_one id_b = None)
  | TraceQuery.Compared c =>
      exists row_a row_b,
        fetch_one id_a = Some row_a /\ fetch_one id_b = Some row_b /\
        let in_a x := x ∈ default [] (TraceQuery.gap_principles row_a) in
        let in_b x := x ∈ default [] (TraceQuery.gap_principles row_b) in
        (forall x, x ∈ TraceQuery.gaps_a_only c <-> in_a x /\ ~ in_b x) /\
        (forall x, x ∈ TraceQuery.gaps_b_only c <-> in_b x /\ ~ in_a x) /\
        (forall x, x ∈ TraceQuery.gaps_both c <-> in_a x /\ in_b x) /\
        Sorted String.le (TraceQuery.gaps_a_only c) /\
        Sorted String.le (TraceQuery.gaps_b_only c) /\
        Sorted String.le (TraceQuery.gaps_both c) /\
        NoDup (TraceQuery.gaps_a_only c) /\
        NoDup (TraceQuery.gaps_b_only c) /\
        NoDup (TraceQuery.gaps_both c)
  end.
Proof.
  unfold TraceQuery.compare.
  destruct (fetch_one id_a) as [row_a|]; [|by auto].
  destruct (fetch_one id_b) as [row_b|]; [|by auto].
  exists row_a, row_b. split; [done|]. split; [done|]. cbn.
  split_and!; try apply sorted_is_sorted; try apply sorted_NoDup.
  all: intros x; rewrite sorted_elements, ?elem_of_difference,
         ?elem_of_intersection, !elem_of_gap_set; tauto.
Qed.

(** X14. Comparing a stored row with itself: every delta whose figure is
    not null is zero, the a-only and b-only gap lists are empty, and the
    common list holds all its gaps. *)
Theorem compare_with_itself
    (fetch_one : string -> option TraceQuery.row) (id : string)
    (row : TraceQuery.row) :
  fetch_one id = Some row ->
  exists c,
    TraceQuery.compare fetch_one id id = TraceQuery.Compared c /\
    TraceQuery.quality_delta c =
      (fun _ => 0%Qc) <$> TraceQuery.overall_quality_score row /\
    TraceQuery.duration_delta c =
      (fun _ => 0%Qc) <$> TraceQuery.duration_seconds row /\
    TraceQuery.cost_delta c =
      (fun _ => 0%Qc) <$> TraceQuery.synthesis_cost_usd row /\
    TraceQuery.gaps_a_only c = [] /\
    TraceQuery.gaps_b_only c = [] /\
    (forall x, x ∈ TraceQuery.gaps_both c <->
               x ∈ default [] (TraceQuery.gap_principles row)).
Proof.
  intros Hrow. unfold TraceQuery.compare. rewrite Hrow. eexists.
  split; [reflexivity|]. cbn.
  assert (forall o : option Qc,
             TraceQuery.delta o o = (fun _ => 0%Qc) <$> o) as Hd.
  { intros [q|]; cbn; [|done]. f_equal. ring. }
  rewrite !Hd.
  assert (TraceQuery.gap_set row ∖ TraceQuery.gap_set row = ∅) as -> by apply difference_diag_L.
  split_and!; try done.
  intros x. rewrite sorted_elements, elem_of_intersection, elem_of_gap_set. tauto.
Qed.

Lemma compare_with_itself_witness :
  exists c,
    TraceQuery.compare store_example "trc_b" "trc_b" = TraceQuery.Compared c /\
    TraceQuery.quality_delta c =
      (fun _ => 0%Qc) <$> TraceQuery.overall_quality_score row_b_example /\
    TraceQuery.duration_delta c =
      (fun _ => 0%Qc) <$> TraceQuery.duration_seconds row_b_example /\
    TraceQuery.cost_delta c =
      (fun _ => 0%Qc) <$> TraceQuery.synthesis_cost_usd row_b_example /\
    TraceQuery.gaps_a_only c = [] /\
    TraceQuery.gaps_b_only c = [] /\
    (forall x, x ∈ TraceQuery.gaps_both c <->
               x ∈ default [] (TraceQuery.gap_principles row_b_example)).
Proof. apply (compare_with_itself store_example "trc_b"). reflexivity. Defined.

(** * Properties of the component registry *)

Lemma check_list_key_nil (key : string) (schema : pydict) :
  Interface.check_list_key key schema = [] <->
  exists l, dict_get key schema = Some (PList l).
Proof.
  unfold Interface.check_list_key.
  destruct (dict_get key schema) as [[]|]; split;
    try discriminate; try (intros [? [=]]); eauto.
Qed.

(** X15. [validate_trace_schema] reports [valid] exactly when the schema is
    a dict whose ["decisions"] and ["outputs"] entries are both lists, and
    exactly when it reports no error. *)
Theorem validate_trace_schema_valid_iff (component : Interface.TracingComponent) :
  (Interface.valid (Interface.validate_trace_schema component) = true <->
   exists schema decisions outputs,
     Interface.get_trace_schema component = PDict schema /\
     dict_get "decisions" schema = Some (PList decisions) /\
     dict_get "outputs" schema = Some (PList outputs)) /\
  (Interface.valid (Interface.validate_trace_schema component) = true <->
   Interface.errors (Interface.validate_trace_schema component) = []).
Proof.
  unfold Interface.validate_trace_schema.
  destruct (Interface.get_trace_schema component) as [| | | | | |schema]; cbn;
    try (split; split; [discriminate | by intros (? & ? & ? & [=] & _)
                        | discriminate | discriminate]).
  split.
  - rewrite Nat.eqb_eq, length_zero_iff_nil. split.
    + intros [H1 H2]%app_eq_nil.
      apply check_list_key_nil in H1 as [ds Hds].
      apply check_list_key_nil in H2 as [os Hos]. eauto 10.
    + intros (schema' & ds & os & [= <-] & Hds & Hos).
      rewrite (proj2 (check_list_key_nil "decisions" schema)) by eauto.
      by rewrite (proj2 (check_list_key_nil "outputs" schema)) by eauto.
  - by rewrite Nat.eqb_eq, length_zero_iff_nil.
Qed.

(** X16. [register_component] raises [ValueError] and registers nothing
    when the schema is not valid. When it is valid, the component's name
    is bound to its entry, every other name keeps its entry, and
    registering again under the same name only overwrites: registering
    the same component twice is registering it once. *)
Theorem register_component_spec
    (component : Interface.TracingComponent)
    (registry : gmap string Interface.registration) :
  if Interface.valid (Interface.validate_trace_schema component) then
    exists registry',
      Interface.register_component component registry = Returned registry' /\
      registry' !! Interface.component_name component =
        Some {| Interface.reg_component_name := Interface.component_name component;
                Interface.reg_schema := Interface.get_trace_schema component |} /\
      (forall name, name <> Interface.component_name component ->
                    registry' !! name = registry !! name) /\
      Interface.register_component component registry' = Returned registry' /\
      (forall other : Interface.TracingComponent,
          Interface.component_name other = Interface.component_name component ->
          Interface.register_component component registry =
          match Interface.register_component other registry with
          | Returned r => Interface.register_component component r
          | Raised _ => Interface.register_component component registry
          end)
  else
    exists msg,
      Interface.register_component component registry = Raised (ValueError msg).
Proof.
  unfold Interface.register_component.
  destruct (Interface.valid (Interface.validate_trace_schema component)) eqn:Hv;
    cbn; [|eauto].
  eexists. split; [reflexivity|]. split; [apply lookup_insert_eq|].
  split; [intros name Hn; by apply lookup_insert_ne|].
  split; [by rewrite insert_insert_eq|].
  intros other Hname.
  destruct (Interface.valid (Interface.validate_trace_schema other)); cbn;
    [|done].
  by rewrite Hname, insert_insert_eq.
Qed.


(** * Properties of stages under sequences of calls, and of the extractors *)

Lemma apply_op_stage_frame (n : string) (o : op) (t : Trace.t) :
  mentions n o = false ->
  Trace.stages (apply_op o t) !! n = Trace.stages t !! n /\
  Trace._stage_start_times (apply_op o t) !! n = Trace._stage_start_times t !! n.
Proof.
  intros Hm. split.
  2: { apply apply_op_start_time_frame. by destruct o. }
  destruct o; unfold_trace_ops; cbn; cbn in Hm;
    try apply String.eqb_neq in Hm;
    repeat match goal with
      | |- context [match Trace.stages ?x !! ?k with _ => _ end] =>
          destruct (Trace.stages x !! k) eqn:?; cbn
      | |- context [negb ?b] => destruct (negb b); cbn
      end; rewrite ?lookup_insert_ne by done; done.
Qed.



Lemma run_stage_absent (n : string) (ops : list op) (t : Trace.t) :
  forallb (fun o => negb (mentions n o)) ops = true ->
  Trace.stages t !! n = None ->
  Trace.stages (run ops t) !! n = None.
Proof.
  revert t. induction ops as [|o ops IH]; intros t Hall Hnone; [done|].
  cbn in Hall. apply andb_true_iff in Hall as [Ho Hall].
  rewrite run_cons. apply IH; [done|].
  destruct (apply_op_stage_frame n o t) as [-> _]; [by destruct (mentions n o)|].
  done.
Qed.

(** X18. Null projections. For a run that never named the quality-gate,
    synthesis or collection stage, the row extractors return all-null
    data without raising, and the duration of a stage never named is
    null. *)
Theorem extractors_null_without_stage
    (trace_id : string)
    (project_id project_name query intent domain report_type research_type
     started_at : option string) (status : string) (start_time : Qc)
    (ops : list op) (parse : string -> option Qc) :
  let t := run ops (Trace.new trace_id project_id project_name query intent
                      domain report_type research_type started_at status
                      start_time) in
  (forallb (fun o => negb (mentions "quality_gate" o)) ops = true ->
   Writer._extract_quality_gate_data parse t = Returned Writer.qg_data_empty /\
   Summary._get_quality_data t =
     {| Summary.passed := PNone; Summary.score := PNone;
        Summary.gaps := PList []; Summary.strengths := PList [] |}) /\
  (forallb (fun o => negb (mentions "synthesis" o)) ops = true ->
   Writer._extract_synthesis_data t =
     {| Writer.synthesis_model := PNone; Writer.synthesis_input_tokens := PNone;
        Writer.synthesis_output_tokens := PNone;
        Writer.synthesis_cost_usd := PNone |}) /\
  (forallb (fun o => negb (mentions "collection" o)) ops = true ->
   Writer._extract_evidence_data t =
     {| Writer.evidence_collected := PNone; Writer.evidence_passed := PNone;
        Writer.evidence_filtered := PNone |}) /\
  (forall n, forallb (fun o => negb (mentions n o)) ops = true ->
             Writer._extract_stage_duration t n = None).
Proof.
  intros t.
  assert (forall n, forallb (fun o => negb (mentions n o)) ops = true ->
                    Trace.stages t !! n = None) as Habsent.
  { intros n Hn. unfold t. apply run_stage_absent; [done|]. apply lookup_empty. }
  split_and!.
  - intros H. unfold Writer._extract_quality_gate_data, Summary._get_quality_data.
    by rewrite (Habsent _ H).
  - intros H. unfold Writer._extract_synthesis_data. by rewrite (Habsent _ H).
  - intros H. unfold Writer._extract_evidence_data. by rewrite (Habsent _ H).
  - intros n H. unfold Writer._extract_stage_duration. by rewrite (Habsent _ H).
Qed.

(** The duration of a stage is assigned by [start_stage] and [end_stage]
    on that stage only. *)
Lemma apply_op_duration_frame (n : string) (o : op) (t : Trace.t) :
  restarts n o = false -> ends n o = false ->
  StageTrace.duration_seconds <$> Trace.stages (apply_op o t) !! n =
  StageTrace.duration_seconds <$> Trace.stages t !! n \/
  (Trace.stages t !! n = None /\
   StageTrace.duration_seconds <$> Trace.stages (apply_op o t) !! n = Some None).
Proof.
  intros Hr He.
  destruct (mentions n o) eqn:Hm.
  2: { left. by destruct (apply_op_stage_frame n o t Hm) as [-> _]. }
  destruct o; try discriminate Hm; cbn in Hm, Hr, He;
    try (rewrite Hm in Hr; discriminate Hr);
    try (rewrite Hm in He; discriminate He);
    apply String.eqb_eq in Hm as ->; unfold_trace_ops; cbn;
    destruct (Trace.stages t !! n) as [st|] eqn:Hs; cbn;
    rewrite ?lookup_insert_eq; cbn; auto.
Qed.

Lemma run_duration_frame (n : string) (ops : list op) (t : Trace.t)
    (st : StageTrace.t) :
  forallb (fun o => negb (restarts n o) && negb (ends n o)) ops = true ->
  Trace.stages t !! n = Some st ->
  StageTrace.duration_seconds <$> Trace.stages (run ops t) !! n =
  Some (StageTrace.duration_seconds st).
Proof.
  revert t st. induction ops as [|o ops IH]; intros t st Hall Hs.
  - cbn. by rewrite Hs.
  - cbn in Hall. apply andb_true_iff in Hall as [Ho Hall].
    apply andb_true_iff in Ho as [Hr He].
    rewrite run_cons.
    destruct (apply_op_duration_frame n o t) as [Hd|[Hnone _]];
      [by destruct (restarts n o) | by destruct (ends n o) | | congruence].
    rewrite Hs in Hd. cbn in Hd.
    destruct (Trace.stages (apply_op o t) !! n) as [st'|] eqn:Hs';
      [|discriminate].
    injection Hd as Hd. rewrite (IH _ st' Hall Hs'). by rewrite Hd.
Qed.

(** X19. The duration the row reports for a stage is the monotonic time
    between its last [start_stage] and the [end_stage] that followed:
    other calls in between (decisions, evidence, calls on other stages) and
    calls after the end that neither restart nor end the stage again do not
    change it. *)
Theorem extracted_stage_duration
    (t0 : Trace.t) (n start_now : string) (start_mono : Qc)
    (during : list op) (outputs : option pydict) (error : option string)
    (end_now : string) (end_mono : Qc) (later : list op) :
  forallb (fun o => negb (restarts n o)) during = true ->
  forallb (fun o => negb (restarts n o) && negb (ends n o)) later = true ->
  Writer._extract_stage_duration
    (run later
       (Trace.end_stage n outputs error end_now end_mono
          (run during (Trace.start_stage n start_now start_mono t0)))) n
  = Some (end_mono - start_mono)%Qc.
Proof.
  intros Hduring Hlater.
  set (t := run during (Trace.start_stage n start_now start_mono t0)).
  assert (is_Some (Trace.stages t !! n)) as [stage Hstage].
  { apply run_stage_kept. unfold Trace.start_stage. cbn.
    rewrite lookup_insert_eq. eauto. }
  assert (Trace._stage_start_times t !! n = Some start_mono) as Hst.
  { unfold t. rewrite run_start_time_frame by done.
    unfold Trace.start_stage. cbn. by rewrite lookup_insert_eq. }
  pose proof (end_stage_existing t n stage outputs error end_now end_mono Hstage)
    as Hend.
  rewrite Hst in Hend.
  pose proof (run_duration_frame n later
                (Trace.end_stage n outputs error end_now end_mono t) _ Hlater
                ltac:(rewrite Hend; apply lookup_insert_eq)) as Hd.
  unfold Writer._extract_stage_duration.
  destruct (Trace.stages (run later _) !! n) as [st'|]; [|discriminate].
  cbn in Hd. injection Hd as ->. done.
Qed.

Lemma extracted_stage_duration_witness :
  Writer._extract_stage_duration
    (run [OpRecordEvidence "collection" [("kept", PInt 4)];
          OpMarkComplete "ts9" (Q2Qc 99)]
       (Trace.end_stage "collection" (Some [("evidence_passed", PInt 4)]) None
          "ts2" (Q2Qc 17)
          (run [OpRecord "collection" "source_selected" [] "ts1"]
             (Trace.start_stage "collection" "ts0" (Q2Qc 5) running_trace))))
    "collection"
  = Some (Q2Qc 17 - Q2Qc 5)%Qc.
Proof.
  apply (extracted_stage_duration running_trace "collection" "ts0" (Q2Qc 5)
           [OpRecord "collection" "source_selected" [] "ts1"]);
    reflexivity.
Defined.


(** ** The normalisation of the score list *)







(** ** When the quality-gate extraction raises *)


Example extract_quality_gate_data_none_score :
  Writer._extract_quality_gate_data (fun _ => None)
    (trace_with_quality_gate [("passed", PBool false); ("overall_score", PNone)])
  = Raised (TypeError
              "float() argument must be a string or a real number, not 'NoneType'").
Proof. vm_compute. reflexivity. Qed.

(** ** The terminal summary and the row agree *)

(** X22. The getters of the terminal summary and the extractors of the row
    read the same data: evidence counts and the synthesis cost are equal;
    when the quality-gate extraction returns, its pass flag is the truth
    value of the summary's raw [passed] entry whenever the entry is
    present, its score is the number [float()] reads in the summary's raw
    score, and the summary's gap and strength lists are the row's with
    [None] or an empty value replaced by the empty list. *)
Theorem summary_agrees_with_row
    (parse : string -> option Qc) (t : Trace.t) :
  Writer.evidence_collected (Writer._extract_evidence_data t) =
    Summary.collected (Summary._get_evidence_data t) /\
  Writer.evidence_passed (Writer._extract_evidence_data t) =
    Summary.evidence_passed (Summary._get_evidence_data t) /\
  Writer.evidence_filtered (Writer._extract_evidence_data t) =
    Summary.filtered (Summary._get_evidence_data t) /\
  Writer.synthesis_cost_usd (Writer._extract_synthesis_data t) =
    Summary._get_cost_data t /\
  forall data,
    Writer._extract_quality_gate_data parse t = Returned data ->
    (forall b, Writer.quality_gate_passed data = Some b ->
               b = truthy (Summary.passed (Summary._get_quality_data t))) /\
    (forall q, Writer.overall_quality_score data = Some q ->
               py_float parse (Summary.score (Summary._get_quality_data t))
               = Returned q) /\
    Summary.gaps (Summary._get_quality_data t) =
      Summary.or_empty_list (Writer.gap_principles data) /\
    Summary.strengths (Summary._get_quality_data t) =
      Summary.or_empty_list (Writer.strength_principles data).
Proof.
  unfold Writer._extract_evidence_data, Summary._get_evidence_data,
    Writer._extract_synthesis_data, Summary._get_cost_data,
    Writer._extract_quality_gate_data, Summary._get_quality_data.
  split_and!.
  - by destruct (Trace.stages t !! "collection").
  - by destruct (Trace.stages t !! "collection").
  - by destruct (Trace.stages t !! "collection").
  - by destruct (Trace.stages t !! "synthesis").
  - intros data.
    destruct (Trace.stages t !! "quality_gate") as [stage|]; cbn.
    2: { intros [= <-]. cbn. split_and!; done. }
    destruct (dict_get "overall_score" (StageTrace.outputs stage)) as [v|] eqn:Hv;
      cbn.
    + destruct (py_float parse v) as [q|] eqn:Hf; [|discriminate].
      destruct (match dict_get "principle_scores" (StageTrace.outputs stage) with
                | Some (PList raw) => _ | Some (PDict raw) => _ | _ => _ end)
        as [scores|]; [|discriminate].
      intros [= <-]. cbn. split_and!; try done.
      * intros b.
        destruct (dict_get "passed" (StageTrace.outputs stage)); cbn;
          [by intros [= <-] | discriminate].
      * by intros q' [= <-].
    + destruct (match dict_get "principle_scores" (StageTrace.outputs stage) with
                | Some (PList raw) => _ | Some (PDict raw) => _ | _ => _ end)
        as [scores|]; [|discriminate].
      intros [= <-]. cbn. split_and!; try done.
      intros b.
      destruct (dict_get "passed" (StageTrace.outputs stage)); cbn;
        [by intros [= <-] | discriminate].
Qed.


(** ** The file paths written to the row *)

Lemma in_output_file_paths (outputs : pydict) (p : string) :
  In p (map Writer.str_value
          (List.filter Writer.is_path_value (map snd outputs))) <->
  exists k, In (k, PStr p) outputs /\
            (is_substring "/" p || is_substring "\" p) = true.
Proof.
  rewrite in_map_iff. split.
  - intros (v & Hv & Hin). apply filter_In in Hin as [Hin Hpath].
    apply in_map_iff in Hin as ([k v'] & Hsnd & Hin). cbn in Hsnd. subst v'.
    destruct v; try discriminate Hpath. cbn in Hv. subst s. eauto.
  - intros (k & Hin & Hpath). exists (PStr p). split; [done|].
    apply filter_In. split; [|done].
    apply in_map_iff. by exists (k, PStr p).
Qed.

(** X23. The [output_file_paths] array of the row holds exactly the output
    values that are strings containing a slash or a backslash. It is null,
    never an empty array, when the trace has no outputs or none of them
    looks like a path. *)
Theorem output_file_paths_spec (t : Trace.t) :
  match Writer.output_file_paths t with
  | Some paths =>
      paths <> [] /\
      forall p, In p paths <->
                exists k, In (k, PStr p) (Trace.outputs t) /\
                          (is_substring "/" p || is_substring "\" p) = true
  | None =>
      forall k v, In (k, v) (Trace.outputs t) -> Writer.is_path_value v = false
  end.
Proof.
  unfold Writer.output_file_paths.
  destruct (Trace.outputs t) as [|kv outputs] eqn:Hout; cbn [truthy].
  { intros k v []. }
  rewrite <- Hout.
  destruct (map Writer.str_value
              (List.filter Writer.is_path_value (map snd (Trace.outputs t))))
    as [|p0 paths] eqn:Hpaths.
  - intros k v Hin.
    destruct (Writer.is_path_value v) eqn:Hv; [|done].
    destruct v; try discriminate Hv.
    assert (In s []) as [].
    rewrite <- Hpaths. apply in_output_file_paths. eauto.
  - split; [done|]. intros p. rewrite <- Hpaths. apply in_output_file_paths.
Qed.

Example output_file_paths_example :
  Writer.output_file_paths
    (Trace.set_outputs
       [("report_path", PStr "brain/projects/cobot/report.md");
        ("word_count", PInt 1200);
        ("title", PStr "Cobot market")]
       running_trace)
  = Some ["brain/projects/cobot/report.md"].
Proof. vm_compute. reflexivity. Qed.

(** ** The analyzer changes the trace only through a non-empty stored list *)

(** X24. [check_calibration_flags] changes the trace only when the
    quality-gate stage stores a NON-EMPTY [gap_principles] list, which
    then comes out strictly longer with its old elements first: with the
    key absent, [None] or an empty list, the trace is left exactly as it
    was. *)
Theorem check_calibration_flags_changes_only_stored_list
    (d : Calibration.db) (t : Trace.t) :
  let t' := snd (Calibration.check_calibration_flags d t) in
  t' <> t ->
  exists (x : pyval) (l extra : list pyval),
    dict_get "gap_principles" (Calibration.qg_outputs t) = Some (PList (x :: l)) /\
    extra <> [] /\
    dict_get "gap_principles" (Calibration.qg_outputs t') =
      Some (PList (x :: l ++ extra)).
Proof.
  intros t' Hchanged.
  pose proof (check_calibration_flags_gap_extension d t) as Hext. fold t' in Hext.
  destruct Hext as [Heq|(l & extra & Hl & Hne & Ht')]; [done|].
  destruct l as [|x l].
  - exfalso. apply Hchanged.
    apply check_calibration_flags_frame_without_gap_list.
    unfold dict_get_default. by rewrite Hl.
  - exists x, l, extra. split_and!; try done.
    destruct (stored_gaps_stage _ _ Hl) as [st Hst].
    rewrite Ht'. by erewrite gaps_of_with_gaps.
Qed.

Lemma check_calibration_flags_changes_only_stored_list_witness :
  exists (x : pyval) (l extra : list pyval),
    dict_get "gap_principles" (Calibration.qg_outputs aliased_gap_trace)
      = Some (PList (x :: l)) /\
    extra <> [] /\
    dict_get "gap_principles"
      (Calibration.qg_outputs
         (snd (Calibration.check_calibration_flags quiet_db aliased_gap_trace)))
      = Some (PList (x :: l ++ extra)).
Proof.
  apply (check_calibration_flags_changes_only_stored_list quiet_db
           aliased_gap_trace).
  intros H.
  apply (f_equal (fun t => dict_get "gap_principles" (Calibration.qg_outputs t)))
    in H.
  vm_compute in H. discriminate H.
Defined.
